(** * MoSDeF workflow notebooks: a shallow embedding of the orchestration code

    The repository is three tutorial notebooks (CHARMM-GUI/GROMACS,
    TraPPE propane/GROMACS, united-atom HOOMD/freud) and one run-control
    file.  The notebooks are glue code: every cell calls into mBuild, foyer,
    freud or the GROMACS binaries.  The cells are embedded statement by
    statement; the library calls they make are embedded as small executable
    models of the documented behaviour of those calls, and what an external
    program decides (subprocess output, packed coordinates, pair binning) is
    a parameter of the development.

    Coordinates are exact rationals: floating-point rounding is not part of
    the model. *)

From Stdlib Require Import ZArith QArith Qround String Ascii List Lia DecimalString Sorted.
From stdpp Require Import base option list strings gmap.

Set Warnings "-register-all".

Local Open Scope string_scope.

(** ** Python values and exceptions *)

Module Py.

Inductive exc : Type :=
| IndexError
| KeyError
| ValueError
| MBuildError.

(** A notebook cell runs against the kernel state [S]: it always leaves a
    state behind (mutations made before an exception persist) and either
    returns a value or raises. *)
Definition cell (S A : Type) : Type := S -> S * (A + exc).

Definition ret {S A} (a : A) : cell S A := fun s => (s, inl a).
Definition raise {S A} (e : exc) : cell S A := fun s => (s, inr e).
Definition bind {S A B} (m : cell S A) (k : A -> cell S B) : cell S B :=
  fun s => match m s with
           | (s', inl a) => k a s'
           | (s', inr e) => (s', inr e)
           end.
Definition get {S} : cell S S := fun s => (s, inl s).
Definition put {S} (s : S) : cell S unit := fun _ => (s, inl tt).
Definition modify {S} (f : S -> S) : cell S unit := fun s => (f s, inl tt).

(** A property of the kernel state that a cell never breaks, whether it
    returns or raises. *)
Definition preserves {S A} (I : S -> Prop) (m : cell S A) : Prop :=
  forall s, I s -> I (fst (m s)).

(** [l[i]] on a Python list. *)
Definition index {S A} (l : list A) (i : nat) : cell S A :=
  match nth_error l i with
  | Some a => ret a
  | None => raise IndexError
  end.

(** [s[1:]] on a Python string: everything after the first character, the
    empty string when there is none. *)
Definition slice_from_1 (s : string) : string :=
  match s with
  | EmptyString => EmptyString
  | String _ rest => rest
  end.

(** [s.startswith(c)] for a one-character prefix. *)
Definition startswith (c : ascii) (s : string) : bool :=
  match s with
  | EmptyString => false
  | String a _ => Ascii.eqb a c
  end.

End Py.

(** Cells are sequenced with stdpp's monad notation: [x ← m; k] and
    [m;; k]. *)
#[global] Instance cell_ret {S} : MRet (Py.cell S) := fun A a => Py.ret a.
#[global] Instance cell_bind {S} : MBind (Py.cell S) := fun A B k m => Py.bind m k.

(** ** The parts of mBuild the notebooks call *)

Module Mbuild.

Record Pos : Type := mkPos { px : Q; py : Q; pz : Q }.

Definition origin : Pos := mkPos 0 0 0.
(** Coordinates are exact rationals; sums and products are kept in lowest
    terms.  The rounding of the program's float64 arithmetic is not
    modelled. *)
Definition pos_add (a b : Pos) : Pos :=
  mkPos (Qred (px a + px b)) (Qred (py a + py b)) (Qred (pz a + pz b)).
Definition pos_sub (a b : Pos) : Pos :=
  mkPos (Qred (px a - px b)) (Qred (py a - py b)) (Qred (pz a - pz b)).
Definition pos_scale (k : Q) (a : Pos) : Pos :=
  mkPos (Qred (px a * k)) (Qred (py a * k)) (Qred (pz a * k)).

(** [mb.Port(anchor=..., orientation=..., separation=...)]: an open valence
    attached to the particle with leaf index [anchor] of the compound that
    owns the port. *)
Record Port : Type :=
  mkPort { anchor : nat; orientation : Pos; separation : Q }.

(** The containment hierarchy of [mb.Compound].  A node without children
    is a particle ([mb.Particle] is [mb.Compound]); [pos] is read only
    there. *)
Inductive Cmpd : Type :=
| Node (name : string) (pos : Pos) (children : list Cmpd)
       (labels : list (string * Port)).

Definition name_of (c : Cmpd) : string := let 'Node n _ _ _ := c in n.
Definition labels_of (c : Cmpd) : list (string * Port) :=
  let 'Node _ _ _ ls := c in ls.

(** What the notebooks read off a particle. *)
Record Particle : Type := mkParticle { pname : string; ppos : Pos }.

(** [Compound.particles()]: the leaves, depth first, in child order. *)
Fixpoint particles (c : Cmpd) : list Particle :=
  match c with
  | Node n p cs _ =>
      match cs with
      | [] => [mkParticle n p]
      | _ :: _ => flat_map particles cs
      end
  end.

Definition n_particles (c : Cmpd) : nat := length (particles c).

Section Siblings.
Variable upd : nat -> Cmpd -> Cmpd.

(** Siblings are visited left to right; each starts at the leaf index
    where the one before it ended. *)
Fixpoint update_siblings (k : nat) (l : list Cmpd) : list Cmpd :=
  match l with
  | [] => []
  | c :: l' => upd k c :: update_siblings (k + n_particles c)%nat l'
  end.
End Siblings.

(** In-place update of particle attributes: [f k] is applied to the leaf
    whose position in [particles] is [k - start]. *)
Fixpoint update_leaves (f : nat -> Particle -> Particle) (start : nat)
         (c : Cmpd) : Cmpd :=
  match c with
  | Node n p cs ls =>
      match cs with
      | [] => let q := f start (mkParticle n p) in Node (pname q) (ppos q) [] ls
      | _ :: _ => Node n p (update_siblings (update_leaves f) start cs) ls
      end
  end.

(** An [mb.Compound] as the notebooks hold it: the root of a hierarchy
    with the bond graph that mBuild keeps at the root.  Bonds are pairs of
    leaf indices into [particles]. *)
Record Compound : Type :=
  mkCompound { hierarchy : Cmpd; bond_graph : list (nat * nat) }.

Definition n_bonds (c : Compound) : nat := length (bond_graph c).

Definition same_edge (a b : nat * nat) : bool :=
  ((fst a =? fst b)%nat && (snd a =? snd b)%nat)
  || ((fst a =? snd b)%nat && (snd a =? fst b)%nat).

Definition has_edge (g : list (nat * nat)) (e : nat * nat) : bool :=
  existsb (same_edge e) g.

(** [Compound.add_bond((p_i, p_j))]: the bond graph is a set of undirected
    edges, so adding an edge twice leaves one edge. *)
Definition add_bond (e : nat * nat) (c : Compound) : Compound :=
  if has_edge (bond_graph c) e then c
  else mkCompound (hierarchy c) (bond_graph c ++ [e]).

(** [particle.name = new] for the particle at leaf index [i]. *)
Definition set_name (i : nat) (new : string) (c : Compound) : Compound :=
  mkCompound
    (update_leaves
       (fun k p => if (k =? i)%nat then mkParticle new (ppos p) else p)
       0 (hierarchy c))
    (bond_graph c).

(** [mb.Particle(name=...)]: a childless compound at the origin. *)
Definition mb_Particle (n : string) : Compound :=
  mkCompound (Node n origin [] []) [].

Definition shift_edge (off : nat) (e : nat * nat) : nat * nat :=
  (off + fst e, off + snd e)%nat.

(** [parent.add(child)]: the child becomes the last child and its bond
    graph is merged into the parent's.  A parent without children was a
    particle itself and stops being one. *)
Definition add (child : Compound) (parent : Compound) : Compound :=
  let 'Node n p cs ls := hierarchy parent in
  let off := match cs with [] => 0%nat | _ :: _ => n_particles (hierarchy parent) end in
  mkCompound (Node n p (cs ++ [hierarchy child]) ls)
             (bond_graph parent ++ map (shift_edge off) (bond_graph child)).

(** [parent.add(port, label=...)]. *)
Definition add_port (label : string) (pt : Port) (parent : Compound) : Compound :=
  let 'Node n p cs ls := hierarchy parent in
  mkCompound (Node n p cs (ls ++ [(label, pt)])) (bond_graph parent).

(** [parent.remove(port)]. *)
Definition remove_port (label : string) (parent : Compound) : Compound :=
  let 'Node n p cs ls := hierarchy parent in
  mkCompound (Node n p cs (filter (fun lp => negb (String.eqb (fst lp) label)) ls))
             (bond_graph parent).

(** [mb.Compound(subcompounds, name)]: a fresh compound, then [add] for
    each element in turn. *)
Definition mb_Compound_named (n : string) (subcompounds : list Compound) : Compound :=
  fold_left (fun parent child => add child parent) subcompounds
            (mkCompound (Node n origin [] []) []).

Definition mb_Compound : list Compound -> Compound := mb_Compound_named "Compound".

(** [clone(compound)] is a deep copy; values are immutable here. *)
Definition clone (c : Compound) : Compound := c.

(** [compound.translate(by)]. *)
Definition translate (by_ : Pos) (c : Compound) : Compound :=
  mkCompound
    (update_leaves (fun _ p => mkParticle (pname p) (pos_add (ppos p) by_))
                   0 (hierarchy c))
    (bond_graph c).

(** [compound.xyz]: one row per particle. *)
Definition xyz (c : Compound) : list Pos := map ppos (particles (hierarchy c)).

(** The hierarchy with every particle's name tag blanked: what is left is
    the tree shape, the names of the containing compounds, the labelled
    ports, and each particle's place and position. *)
Definition forget_names (c : Cmpd) : Cmpd :=
  update_leaves (fun _ p => mkParticle EmptyString (ppos p)) 0 c.

(** *** Patterns *)

(** [mb.Pattern]: the points at which copies are placed. *)
Record Pattern : Type := mkPattern { points : list Pos }.

Definition Q_of_nat (n : nat) : Q := inject_Z (Z.of_nat n).

(** [mb.Grid3DPattern(n, m, l)]: the point of index [i*m*l + j*l + k] is
    [(i/n, j/m, k/l)], for [i, j, k] in [product(range(n), range(m),
    range(l))]. *)
Definition Grid3DPattern (n m l : nat) : Pattern :=
  mkPattern
    (flat_map (fun i =>
       flat_map (fun j =>
         map (fun k => mkPos (Qred (Q_of_nat i / Q_of_nat n))
                             (Qred (Q_of_nat j / Q_of_nat m))
                             (Qred (Q_of_nat k / Q_of_nat l)))
             (seq 0 l))
         (seq 0 m))
       (seq 0 n)).

(** [pattern.scale(by)]: [self.points *= by]. *)
Definition scale (by_ : Q) (pat : Pattern) : Pattern :=
  mkPattern (map (pos_scale by_) (points pat)).

(** [pattern.apply(compound)]: one translated clone per point. *)
Definition apply (pat : Pattern) (compound : Compound) : list Compound :=
  map (fun pt => translate pt (clone compound)) (points pat).

(** *** Ports and [force_overlap] *)

(** Where a port sits: [separation] along [orientation] from its anchor.
    (mBuild normalises the orientation first; the notebook passes unit
    vectors.) *)
Definition port_pos (c : Cmpd) (pt : Port) : option Pos :=
  match nth_error (particles c) (anchor pt) with
  | Some a => Some (pos_add (ppos a) (pos_scale (separation pt) (orientation pt)))
  | None => None
  end.

Definition lookup_label (l : string) (c : Cmpd) : option Port :=
  match List.find (fun lp => String.eqb (fst lp) l) (labels_of c) with
  | Some lp => Some (snd lp)
  | None => None
  end.

(** [mb.force_overlap(move_this, from_positions, to_positions)] for two
    ports of one compound that face each other along one axis, which is
    how the notebook uses it: the equivalence transform is then the
    translation that carries the [from] port onto the [to] port.  The
    particle [move_this] is moved, the two anchors are bonded and both
    ports are removed. *)
Definition force_overlap (move_this : nat) (from_positions to_positions : string)
           (c : Compound) : Compound + Py.exc :=
  match lookup_label from_positions (hierarchy c),
        lookup_label to_positions (hierarchy c) with
  | Some pf, Some pt =>
      match port_pos (hierarchy c) pf, port_pos (hierarchy c) pt with
      | Some xf, Some xt =>
          let T := pos_sub xt xf in
          let moved :=
            mkCompound
              (update_leaves
                 (fun k p => if (k =? move_this)%nat
                             then mkParticle (pname p) (pos_add (ppos p) T) else p)
                 0 (hierarchy c))
              (bond_graph c) in
          inl (remove_port to_positions
                 (remove_port from_positions
                    (add_bond (anchor pf, anchor pt) moved)))
      | _, _ => inr Py.IndexError
      end
  | _, _ => inr Py.KeyError
  end.

(** *** Loading and packing *)

(** A particle as a node of the hierarchy. *)
Definition leaf (a : Particle) : Cmpd := Node (pname a) (ppos a) [] [].

(** [mb.load(file, compound=c)] for a single-chain structure file: one
    particle per atom record, added to [c] in file order, then the bonds
    the file lists (none for a PDB without CONECT records). *)
Definition load (atoms : list Particle) (bonds : list (nat * nat))
           (c : Compound) : Compound :=
  fold_left (fun acc e => add_bond e acc) bonds
    (fold_left (fun acc a => add (mkCompound (leaf a) []) acc) atoms c).

(** [compound.update_coordinates]: new positions, one per particle. *)
Definition update_coordinates (coords : list Pos) (c : Compound) : Compound :=
  mkCompound
    (update_leaves (fun k p => mkParticle (pname p) (nth k coords (ppos p)))
                   0 (hierarchy c))
    (bond_graph c).

(** [mb.fill_box(compound, n_compounds, ...)]: [n_compounds] clones are
    added to a fresh compound; PACKMOL, an external program, either fails
    or returns one coordinate row per particle.  [packed] is what PACKMOL
    answered. *)
Definition fill_box (packed : option (list Pos)) (compound : Compound)
           (n_compounds : nat) : Compound + Py.exc :=
  let filled :=
    fold_left (fun acc _ => add (clone compound) acc) (seq 0 n_compounds)
              (mb_Compound []) in
  match packed with
  | None => inr Py.MBuildError
  | Some coords =>
      if (length coords =? n_particles (hierarchy filled))%nat
      then inl (update_coordinates coords filled)
      else inr Py.ValueError
  end.

(** *** Residues of a saved coordinate file *)

Definition name_in (residues : list string) (n : string) : bool :=
  existsb (String.eqb n) residues.

(** Residues opened under several siblings, and the particles still
    waiting, put together. *)
Definition gather (l : list (list string * nat)) : list string * nat :=
  fold_right (fun r acc => ((fst r ++ fst acc)%list, (snd r + snd acc)%nat))
             ([], 0%nat) l.

(** [compound.save(file, residues=...)]: every particle goes to the
    residue of its nearest ancestor (or itself) whose name is listed in
    [residues]; a particle with none goes to the default residue [RES].
    [residues_under] returns the residues opened inside [c], in order, and
    how many particles of [c] are still waiting for an ancestor. *)
Fixpoint residues_under (residues : list string) (c : Cmpd) : list string * nat :=
  match c with
  | Node n _ cs _ =>
      let inner :=
        match cs with
        | [] => ([], 1%nat)
        | _ :: _ => gather (map (residues_under residues) cs)
        end in
      if name_in residues n
      then match snd inner with
           | O => inner
           | S _ => (n :: fst inner, 0%nat)
           end
      else inner
  end.

(** The residue (particle group) names a saved [.gro] file carries. *)
Definition gro_residues (residues : list string) (c : Compound) : list string :=
  let r := residues_under residues (hierarchy c) in
  (fst r ++ match snd r with O => [] | S _ => ["RES"] end)%list.

End Mbuild.

(** ** Files and subprocesses *)

Module Os.

(** What a finished subprocess hands back. *)
Record completed : Type :=
  mkCompleted { stdout : string; stderr : string; returncode : Z }.

(** What the orchestrating process does that the outside can see, in
    order.  [Exit] is recorded when the process has waited for the child
    and holds its exit status. *)
Inductive event : Type :=
| Spawn (cmd : string)
| Exit (cmd : string) (status : Z)
| Write (file : string) (content : string)
| Display (out err : string).

Record world : Type :=
  mkWorld { files : gmap string string; trace : list event }.

Definition is_write (e : event) : bool :=
  match e with Write _ _ => true | _ => false end.

Definition is_spawn (e : event) : bool :=
  match e with Spawn _ => true | _ => false end.

Definition log (e : event) (w : world) : world :=
  mkWorld (files w) (trace w ++ [e]).

(** [with open(file, 'w') as f: f.write(content)]: the file is created or
    truncated and holds exactly [content]. *)
Definition write_file (file content : string) : Py.cell world unit :=
  Py.modify (fun w => log (Write file content)
                          (mkWorld (<[file := content]> (files w)) (trace w))).

Section Engine.

(** The external programs: a command line run against the files on disk
    yields its two output streams, its exit status and the files on
    disk when it has exited. *)
Variable engine : string -> gmap string string -> completed * gmap string string.

(** [subprocess.Popen(cmd, shell=True, universal_newlines=True,
    stdout=PIPE, stderr=PIPE)]: the child is started; the handle is the
    command. *)
Definition Popen (cmd : string) : Py.cell world string :=
  Py.modify (log (Spawn cmd));; mret cmd.

(** [p.communicate()]: reads both pipes to end of file and waits for
    the child; returns the two complete streams. *)
Definition communicate (p : string) : Py.cell world (string * string * Z) :=
  w ← Py.get;
  let r := engine p (files w) in
  Py.put (log (Exit p (returncode (fst r))) (mkWorld (snd r) (trace w)));;
  mret (stdout (fst r), stderr (fst r), returncode (fst r)).

(** IPython's [!cmd]: the command runs in a subshell, the cell waits for
    it and shows what it printed; the notebook writes nothing. *)
Definition shell_escape (cmd : string) : Py.cell world unit :=
  Py.modify (log (Spawn cmd));;
  w ← Py.get;
  let r := engine cmd (files w) in
  Py.put (log (Display (stdout (fst r)) (stderr (fst r)))
            (log (Exit cmd (returncode (fst r))) (mkWorld (snd r) (trace w)))).

End Engine.

End Os.

(** ** GROMACS run-control text *)

Module Mdp.

Definition newline : ascii := "010"%char.

(** Lines of a text, split at newline characters. *)
Fixpoint lines_from (cur : string) (s : string) : list string :=
  match s with
  | EmptyString => [cur]
  | String c rest =>
      if Ascii.eqb c newline then cur :: lines_from EmptyString rest
      else lines_from (cur +:+ String c EmptyString) rest
  end.

Definition lines : string -> list string := lines_from EmptyString.

Definition is_blank (c : ascii) : bool :=
  Ascii.eqb c " "%char || Ascii.eqb c "009"%char.

Fixpoint lstrip (s : string) : string :=
  match s with
  | String c rest => if is_blank c then lstrip rest else s
  | EmptyString => EmptyString
  end.

(** Dropping trailing blanks: a blank is kept only if something that is
    not blank follows. *)
Fixpoint rstrip (s : string) : string :=
  match s with
  | EmptyString => EmptyString
  | String c rest =>
      match rstrip rest with
      | EmptyString => if is_blank c then EmptyString else String c EmptyString
      | r => String c r
      end
  end.

Definition strip (s : string) : string := rstrip (lstrip s).

(** Everything before the first occurrence of [c], and what follows it. *)
Fixpoint split_at (c : ascii) (s : string) : string * option string :=
  match s with
  | EmptyString => (EmptyString, None)
  | String a rest =>
      if Ascii.eqb a c then (EmptyString, Some rest)
      else let r := split_at c rest in (String a (fst r), snd r)
  end.

(** A directive line is [key = value], with an optional comment after a
    semicolon; blank and comment-only lines carry no directive. *)
Definition directive (line : string) : option (string * string) :=
  let code := fst (split_at ";"%char line) in
  match split_at "="%char code with
  | (k, Some v) => Some (strip k, strip v)
  | (_, None) => None
  end.

Definition directives (text : string) : list (string * string) :=
  omap directive (lines text).

Fixpoint lookup (key : string) (ds : list (string * string)) : option string :=
  match ds with
  | [] => None
  | (k, v) :: rest => if String.eqb k key then Some v else lookup key rest
  end.

(** The directive lines that set [key]. *)
Definition lines_for (key : string) (ds : list (string * string))
  : list (string * string) :=
  List.filter (fun d => String.eqb (fst d) key) ds.

(** The run-control file kept in the repository. *)
Definition template : string :=
"title                     = NVT Equilibration
; Run parameters
integrator                = md        ; leap-frog integrator
nsteps                    = 100000     ; 2 * 5000 = 10ps
dt                        = 0.002     ; 2 fs

; Output control
nstxout                   = 500       ; Every 1.0 ps
nstvout                   = 500
nstenergy                 = 500
nstlog                    = 500

;Bond parameters
continuation              = no
constraint_algorithm    = lincs
constraints             =   all-bonds
lincs_iter              = 1
lincs_order             = 4

; Neighbor searching
cutoff-scheme           = Verlet
nstype                  = grid
nstlist                 = 10
rcoulomb                = 1.4
rvdw                    = 1.4

; Electrostatics
coulombtype             = PME
pme_order               = 4
fourierspacing          = 0.16

; Temperature coupling
tcoupl                  = nose-hoover
tc-grps                 = system
tau_t                   = 0.4  
ref_t                   = 300  

; Pressure coupling
pcoupl                 = no

;Periodic boundary conditions
pbc                     = xyz

;Dispersion correction
DispCorr                = EnerPres

;Velocity generation
gen_vel                 = yes
gen_temp                = 300
gen_seed                = -1".

End Mdp.

(** ** The TraPPE propane notebook *)

Module Propane.
Import Mbuild.

(** [particles[i]]: the list [particles] was taken from
    [cmpd.particles()] in the cell before and its elements are the
    particle objects of [cmpd]; it is read here through [cmpd]. *)
Definition particle (i : nat) : Py.cell Compound Particle :=
  c ← Py.get; Py.index (particles (hierarchy c)) i.

(** The cell that renames the three beads and bonds them:
<<
    particles[0].name = "_" + particles[0].name[1:]
    particles[1].name = "_" + particles[1].name
    particles[2].name = "_" + particles[2].name[1:]
    cmpd.add_bond((particles[0], particles[1]))
    cmpd.add_bond((particles[1], particles[2]))
>> *)
Definition rename_and_bond : Py.cell Compound unit :=
  p0 ← particle 0;
  Py.modify (set_name 0 ("_" +:+ Py.slice_from_1 (pname p0)));;
  p1 ← particle 1;
  Py.modify (set_name 1 ("_" +:+ pname p1));;
  p2 ← particle 2;
  Py.modify (set_name 2 ("_" +:+ Py.slice_from_1 (pname p2)));;
  _ ← particle 0; _ ← particle 1;
  Py.modify (add_bond (0, 1)%nat);;
  _ ← particle 1; _ ← particle 2;
  Py.modify (add_bond (1, 2)%nat).

(** What the three assignments of the cell make of the first three
    particles. *)
Definition renamed (p0 p1 p2 : Particle) : list Particle :=
  [ mkParticle ("_" +:+ Py.slice_from_1 (pname p0)) (ppos p0);
    mkParticle ("_" +:+ pname p1) (ppos p1);
    mkParticle ("_" +:+ Py.slice_from_1 (pname p2)) (ppos p2) ].

(** The text [write_gmx_mdp] passes to [f.write]: the triple-quoted
    literal of the cell, which opens with a line break. *)
Definition mdp_text : string :=
"
title                     = NVT Equilibration
; Run parameters
integrator                = md        ; leap-frog integrator
nsteps                    = 100000     ; 2 * 5000 = 10ps
dt                        = 0.002     ; 2 fs

; Output control
nstxout                   = 500       ; Every 1.0 ps
nstvout                   = 500
nstenergy                 = 500
nstlog                    = 500

;Bond parameters
continuation              = no
constraint_algorithm    = lincs
constraints             =   all-bonds
lincs_iter              = 1
lincs_order             = 4

; Neighbor searching
cutoff-scheme           = Verlet
nstype                  = grid
nstlist                 = 10
rcoulomb                = 1.4
rvdw                    = 1.4

; Electrostatics
coulombtype             = PME
pme_order               = 4
fourierspacing          = 0.16

; Temperature coupling
tcoupl                  = nose-hoover
tc-grps                 = system
tau_t                   = 0.4  
ref_t                   = 300  

; Pressure coupling
pcoupl                 = no

;Periodic boundary conditions
pbc                     = xyz

;Dispersion correction
DispCorr                = EnerPres

;Velocity generation
gen_vel                 = yes
gen_temp                = 300
gen_seed                = -1".

(** [write_gmx_mdp(filename)]. *)
Definition write_gmx_mdp (filename : string) : Py.cell Os.world unit :=
  Os.write_file filename mdp_text.

Definition grompp_cmd : string :=
  "gmx grompp -f nvt.mdp -c out.gro -p out.top -maxwarn 1 -o nvt".
Definition mdrun_cmd : string := "gmx mdrun -deffnm nvt".

Section Engine.
Variable engine : string -> gmap string string -> Os.completed * gmap string string.

(** The cell that runs GROMACS. *)
Definition run_gromacs : Py.cell Os.world unit :=
  write_gmx_mdp "nvt.mdp";;
  p ← Os.Popen grompp_cmd;
  '(out, err, _) ← Os.communicate engine p;
  Os.write_file "grompp.out" out;;
  Os.write_file "grompp.err" err;;
  p ← Os.Popen mdrun_cmd;
  '(out, err, _) ← Os.communicate engine p;
  Os.write_file "mdrun.out" out;;
  Os.write_file "mdrun.err" err.

End Engine.

End Propane.

(** ** Element resolution in the force-field typer *)

Module Foyer.

Inductive element : Type :=
| Periodic (symbol : string)
| Custom (label : string).

(** Modelled from the spec: the typer (foyer's [Forcefield.apply], which
    the notebooks only call) resolves the element of every particle before
    matching type rules.  A name that begins with the reserved marker
    character, the underscore, is a custom element carrying that name and
    elemental inference is not consulted; any other name goes through
    elemental inference ([infer]), and a name that yields no element is a
    typing error. *)
Definition marker : ascii := "_"%char.

Definition resolve_element (infer : string -> option string) (name : string)
  : option element :=
  if Py.startswith marker name then Some (Custom name)
  else match infer name with
       | Some sym => Some (Periodic sym)
       | None => None
       end.

End Foyer.

(** ** freud's radial distribution function object *)

Module Freud.
Import Mbuild.

(** [frame.configuration.box]: [Lx, Ly, Lz, xy, xz, yz]. *)
Record Box : Type :=
  mkBox { Lx : Q; Ly : Q; Lz : Q; xy : Q; xz : Q; yz : Q }.

(** [freud.density.RDF(bins, r_max)]: the histogram of pair counts and
    the number of frames it has seen. *)
Record RDF : Type :=
  mkRDF { bins : nat; r_max : Q; bin_counts : list N; frame_counter : nat }.

Definition new_RDF (bins : nat) (r_max : Q) : RDF :=
  mkRDF bins r_max (repeat 0%N bins) 0.

Definition reset (r : RDF) : RDF := new_RDF (bins r) (r_max r).

(** An RDF object whose histogram has one entry per bin. *)
Definition well_formed (r : RDF) : Prop := length (bin_counts r) = bins r.

(** One more count in bin [b]; a bin outside the histogram is dropped. *)
Definition count_in (b : nat) (counts : list N) : list N :=
  match counts !! b with
  | Some c => <[b := (c + 1)%N]> counts
  | None => counts
  end.

Definition histogram (n : nat) (hits : list nat) : list N :=
  fold_left (fun counts b => count_in b counts) hits (repeat 0%N n).

Definition add_counts (a b : list N) : list N :=
  zip_with N.add a b.

Section Binning.

(** The neighbour query and binning are freud's: for a histogram of
    [bins] bins up to [r_max], [bin_of bins r_max box p q] is the bin
    of the separation of [p] and [q] in [box], if it is in range. *)
Variable bin_of : nat -> Q -> Box -> Pos -> Pos -> option nat.

(** The bins hit by the ordered pairs of distinct points of a frame. *)
Definition pair_bins (r : RDF) (box : Box) (pts : list Pos) : list nat :=
  flat_map (fun ip =>
    omap (fun jq => if (fst ip =? fst jq)%nat then None
                    else bin_of (bins r) (r_max r) box (snd ip) (snd jq))
         (imap pair pts))
    (imap pair pts).

Definition accumulate (system : Box * list Pos) (r : RDF) : RDF :=
  mkRDF (bins r) (r_max r)
        (fold_left (fun counts b => count_in b counts)
                   (pair_bins r (fst system) (snd system)) (bin_counts r))
        (S (frame_counter r)).

(** [rdf.compute(system=(box, points), reset=...)]. *)
Definition compute (system : Box * list Pos) (reset_ : bool) (r : RDF) : RDF :=
  accumulate system (if reset_ then reset r else r).

End Binning.

(** The histogram of one frame taken on its own. *)
Definition frame_counts (bin_of : nat -> Q -> Box -> Pos -> Pos -> option nat)
           (r : RDF) (system : Box * list Pos) : list N :=
  histogram (bins r) (pair_bins bin_of r (fst system) (snd system)).

(** A reference binning for an orthorhombic box: minimum-image
    separation, bin width [r_max / bins]. *)
Definition wrap (d L : Q) : Q :=
  if Qle_bool L 0 then d
  else (d - L * inject_Z (Qfloor (d / L + (1 # 2))))%Q.

Definition bin_of_orthorhombic (bins : nat) (r_max : Q) (box : Box)
           (p q : Pos) : option nat :=
  let dx := wrap (px q - px p) (Lx box) in
  let dy := wrap (py q - py p) (Ly box) in
  let dz := wrap (pz q - pz p) (Lz box) in
  let d2 := (dx * dx + dy * dy + dz * dz)%Q in
  let dr := (r_max / Q_of_nat bins)%Q in
  if Qle_bool (r_max * r_max) d2 then None
  else Some (Z.to_nat (Z.sqrt (Qfloor (d2 / (dr * dr))))).

End Freud.

(** ** The united-atom HOOMD notebook *)

Module Hoomd.
Import Mbuild.

(** *** Building the system *)

Definition methane_cmpd : Compound :=
  add (mb_Particle "_CH4") (mb_Compound []).

Definition ch3_port : Port := mkPort 0 (mkPos 1 0 0) 0.07.
Definition oh_port : Port := mkPort 1 (mkPos (-1) 0 0) 0.07.

(** The methanol cell, up to the call of [force_overlap]. *)
Definition methanol_with_ports : Compound :=
  add_port "left" oh_port
    (add_port "right" ch3_port
       (add (mb_Particle "_OH") (add (mb_Particle "_CH3") (mb_Compound [])))).

Definition methanol : Compound + Py.exc :=
  force_overlap 1 "left" "right" methanol_with_ports.

(** Largest entry of a column of [compound.xyz]. *)
Definition Qmax_list (l : list Q) : option Q :=
  match l with
  | [] => None
  | x :: rest => Some (fold_left (fun m y => if Qle_bool m y then y else m) rest x)
  end.

(** The methane replication cell; [by_] is the argument of
    [methane_grid.scale], 0.4 in the notebook. *)
Definition methane_cell (by_ : Q) (methane_cmpd : Compound)
  : Pattern * list Compound * Compound :=
  let methane_grid := Grid3DPattern 2 2 2 in
  let methane_grid := scale by_ methane_grid in
  let list_of_methanes := apply methane_grid methane_cmpd in
  let methane_box := mb_Compound list_of_methanes in
  (methane_grid, list_of_methanes, methane_box).

(** The methanol replication cell; [by_] is the argument of
    [methanol_grid.scale], 0.4 in the notebook.  The copies are placed by
    [methane_grid.apply]. *)
Definition methanol_cell (by_ : Q) (methane_grid : Pattern)
           (methane_box methanol : Compound)
  : (Pattern * list Compound * Compound) + Py.exc :=
  let methanol_grid := Grid3DPattern 2 2 2 in
  let methanol_grid := scale by_ methanol_grid in
  let list_of_methanols := apply methane_grid methanol in
  let methanol_box := mb_Compound list_of_methanols in
  match Qmax_list (map pz (xyz methane_box)) with
  | Some zmax =>
      let methanol_box := translate (mkPos 0 0 (1.1 * zmax)%Q) methanol_box in
      inl (methanol_grid, list_of_methanols, methanol_box)
  | None => inr Py.ValueError
  end.

(** Everything the building cells leave in the kernel. *)
Record built : Type :=
  mkBuilt { methane_grid : Pattern; methane_box : Compound;
            methanol_grid : Pattern; methanol_box : Compound;
            mixture_box : Compound }.

(** The building cells in notebook order, as a function of the two scale
    arguments (both 0.4 in the notebook). *)
Definition build (methane_by methanol_by : Q) : built + Py.exc :=
  match methanol with
  | inr e => inr e
  | inl methanol =>
      let '(methane_grid, _, methane_box) := methane_cell methane_by methane_cmpd in
      match methanol_cell methanol_by methane_grid methane_box methanol with
      | inr e => inr e
      | inl (methanol_grid, _, methanol_box) =>
          inl (mkBuilt methane_grid methane_box methanol_grid methanol_box
                       (mb_Compound [methane_box; methanol_box]))
      end
  end.

(** What the later cells consume: [ff.apply(mixture_box)] and everything
    after it read [mixture_box] only. *)
Definition system_of (b : built + Py.exc) : Compound + Py.exc :=
  match b with
  | inl b => inl (mixture_box b)
  | inr e => inr e
  end.

(** *** Analysing the trajectory *)

(** One frame of the [gsd] trajectory. *)
Record Frame : Type :=
  mkFrame { box : Freud.Box; types : list string;
            typeid : list nat; position : list Pos }.

(** [list.index(x)]. *)
Fixpoint list_index (x : string) (l : list string) : option nat :=
  match l with
  | [] => None
  | y :: rest => if String.eqb y x then Some 0%nat
                 else option_map S (list_index x rest)
  end.

(** [get_ids(frame, typename)]:
    [np.where(frame.particles.typeid == frame.particles.types.index(typename))[0]]. *)
Definition get_ids {S} (frame : Frame) (typename : string) : Py.cell S (list nat) :=
  match list_index typename (types frame) with
  | None => Py.raise Py.ValueError
  | Some t =>
      mret (omap (fun it => if (snd it =? t)%nat then Some (fst it) else None)
                 (imap pair (typeid frame)))
  end.

(** [np.array(frame.particles.position[ids])]. *)
Fixpoint take_rows {S} (rows : list Pos) (ids : list nat) : Py.cell S (list Pos) :=
  match ids with
  | [] => mret []
  | i :: rest =>
      r ← Py.index rows i;
      rs ← take_rows rows rest;
      mret (r :: rs)
  end.

(** The six RDF objects of the notebook; only the first three are ever
    computed. *)
Record rdfs : Type :=
  mkRdfs { ch3_ch3_rdf : Freud.RDF; ch4_ch4_rdf : Freud.RDF; oh_oh_rdf : Freud.RDF;
           ch3_ch4_rdf : Freud.RDF; ch3_oh_rdf : Freud.RDF; ch4_oh_rdf : Freud.RDF }.

Definition n_bins : nat := 50.
Definition r_max : Q := 2.

Definition initial_rdfs : rdfs :=
  let fresh := Freud.new_RDF n_bins r_max in
  mkRdfs fresh fresh fresh fresh fresh fresh.

(** How the histogram [r12] of two frames relates to the histograms [r1]
    and [r2] of each frame taken alone: it is their bin-wise sum, so it
    is the second frame's histogram exactly when the first frame's is
    empty. *)
Definition sums_frames (r12 r1 r2 : Freud.RDF) : Prop :=
  Freud.bin_counts r12
  = Freud.add_counts (Freud.bin_counts r1) (Freud.bin_counts r2)
  /\ (Freud.bin_counts r12 = Freud.bin_counts r2
      <-> Freud.bin_counts r1 = repeat 0%N n_bins).

Section Analysis.
Variable bin_of : nat -> Q -> Freud.Box -> Pos -> Pos -> option nat.

(** The body of [for frame in hoomd_traj]; [reset_] is the [reset]
    argument of the three [compute] calls, [False] in the notebook. *)
Definition frame_body (reset_ : bool) (frame : Frame) : Py.cell rdfs unit :=
  ch3_particles ← get_ids frame "CH3";
  ch4_particles ← get_ids frame "CH4";
  oh_particles ← get_ids frame "OH";
  ch3_positions ← take_rows (position frame) ch3_particles;
  ch4_positions ← take_rows (position frame) ch4_particles;
  oh_positions ← take_rows (position frame) oh_particles;
  Py.modify (fun s =>
    mkRdfs (Freud.compute bin_of (box frame, ch3_positions) reset_ (ch3_ch3_rdf s))
           (ch4_ch4_rdf s) (oh_oh_rdf s)
           (ch3_ch4_rdf s) (ch3_oh_rdf s) (ch4_oh_rdf s));;
  Py.modify (fun s =>
    mkRdfs (ch3_ch3_rdf s)
           (Freud.compute bin_of (box frame, ch4_positions) reset_ (ch4_ch4_rdf s))
           (oh_oh_rdf s)
           (ch3_ch4_rdf s) (ch3_oh_rdf s) (ch4_oh_rdf s));;
  Py.modify (fun s =>
    mkRdfs (ch3_ch3_rdf s) (ch4_ch4_rdf s)
           (Freud.compute bin_of (box frame, oh_positions) reset_ (oh_oh_rdf s))
           (ch3_ch4_rdf s) (ch3_oh_rdf s) (ch4_oh_rdf s)).

Fixpoint for_frames (reset_ : bool) (traj : list Frame) : Py.cell rdfs unit :=
  match traj with
  | [] => mret tt
  | frame :: rest => frame_body reset_ frame;; for_frames reset_ rest
  end.

(** The analysis loop as the notebook runs it. *)
Definition analyse (traj : list Frame) : rdfs * (unit + Py.exc) :=
  for_frames false traj initial_rdfs.

End Analysis.

End Hoomd.

(** ** The CHARMM-GUI notebook *)

Module Charmm.
Import Mbuild.

(** Decimal text of a number, as [str.format] prints an [int]. *)
Definition str_of_nat (n : nat) : string :=
  NilZero.string_of_uint (Nat.to_uint n).


Definition set_root_name (n : string) (c : Compound) : Compound :=
  let 'Node _ p cs ls := hierarchy c in
  mkCompound (Node n p cs ls) (bond_graph c).

Definition n_ethane : nat := 100.

Definition nl : string := String Mdp.newline EmptyString.
Definition dquote : ascii := "034"%char.
Definition quoted (s : string) : string :=
  String dquote (s +:+ String dquote EmptyString).

Section Inputs.

(** [files/ethane.mol2] is not part of the sources: its atom records
    and bonds are parameters.  [packed] is what PACKMOL answers. *)
Variable ethane_atoms : list Particle.
Variable ethane_bonds : list (nat * nat).
Variable packed : option (list Pos).

(** [charmm_ethane()]: load the MOL2 file into [self], then name it. *)
Definition charmm_ethane : Compound :=
  set_root_name "ETHA"
    (load ethane_atoms ethane_bonds (mb_Compound_named "charmm_ethane" [])).

Definition prototype : Compound := charmm_ethane.



(** The six [f.write] calls of the [box.top] cell, in order. *)
Definition box_top_text : string :=
  ("#include " +:+ quoted "files/charmm36.itp" +:+ " " +:+ nl) +:+
  ("#include " +:+ quoted "files/ETHA.itp" +:+ " " +:+ nl) +:+
  ("[ System ] " +:+ nl) +:+
  ("mBuild box of ethane" +:+ nl) +:+
  ("[ Molecules ] " +:+ nl) +:+
  (name_of (hierarchy prototype) +:+ " " +:+ str_of_nat n_ethane).


End Inputs.

(** *** Reading a topology back *)







(** *** Running GROMACS *)

Definition em_grompp_cmd : string :=
  "gmx grompp -f files/em.mdp -c box.gro -p box.top -o em -maxwarn 1".
Definition em_mdrun_cmd : string := "gmx mdrun -deffnm em".
Definition npt_grompp_cmd : string :=
  "gmx grompp -f files/npt.mdp -c em.gro -p box.top -o npt".
Definition npt_mdrun_cmd : string := "gmx mdrun -deffnm npt".

Section Engine.
Variable engine : string -> gmap string string -> Os.completed * gmap string string.

(** The four engine cells, in notebook order. *)
Definition run_gromacs : Py.cell Os.world unit :=
  Os.shell_escape engine em_grompp_cmd;;
  Os.shell_escape engine em_mdrun_cmd;;
  Os.shell_escape engine npt_grompp_cmd;;
  Os.shell_escape engine npt_mdrun_cmd.

End Engine.

End Charmm.

(** ** Sample inputs *)

Module Samples.
Import Mbuild.

(** A bond-less three-bead propane as the PDB loader returns it. *)
Definition propane : Compound :=
  load [ mkParticle "CH3" (mkPos 0 0 0);
         mkParticle "CH2" (mkPos 0.154 0 0);
         mkParticle "CH3" (mkPos 0.2 0.14 0) ]
       [] (mb_Compound_named "Pro" []).

(** A GROMACS whose preprocessor rejects its input and whose [mdrun]
    runs all the same. *)
Definition failing_grompp (cmd : string) (fs : gmap string string)
  : Os.completed * gmap string string :=
  if String.prefix "gmx grompp" cmd
  then (Os.mkCompleted "" "Fatal error: No such moleculetype Pro" 1, fs)
  else (Os.mkCompleted "starting mdrun" "Can not open file: nvt.tpr" 1, fs).

(** A GROMACS that succeeds and leaves its output files behind. *)
Definition working_gmx (cmd : string) (fs : gmap string string)
  : Os.completed * gmap string string :=
  (Os.mkCompleted ("ran: " +:+ cmd) "GROMACS reminds you" 0,
   <["md.log" := "finished"]> fs).

Definition fresh_world : Os.world := Os.mkWorld ∅ [].

Definition cubic (L : Q) : Freud.Box := Freud.mkBox L L L 0 0 0.

(** Two frames of two methanes and two methanols in a box of side 10.
    In [far_frame] no two beads of one type are within [r_max = 2] of each
    other; in [near_frame] each pair of like beads is 0.4 apart. *)
Definition far_frame : Hoomd.Frame :=
  Hoomd.mkFrame (cubic 10) ["CH4"; "CH3"; "OH"] [0; 0; 1; 2; 1; 2]%nat
    [ mkPos 0 0 0; mkPos 4 0 0;
      mkPos 0 3 0; mkPos 0.14 3 0;
      mkPos 0 (-3) 0; mkPos 0.14 (-3) 0 ].

Definition near_frame : Hoomd.Frame :=
  Hoomd.mkFrame (cubic 10) ["CH4"; "CH3"; "OH"] [0; 0; 1; 2; 1; 2]%nat
    [ mkPos 0 0 0; mkPos 0.5 0 0;
      mkPos 0 3 0; mkPos 0.14 3 0;
      mkPos 0.5 3 0; mkPos 0.64 3 0 ].

(** The atom records and bonds of an ethane MOL2 file. *)
Definition ethane_atoms : list Particle :=
  [ mkParticle "C" (mkPos 0 0 0); mkParticle "C" (mkPos 0.153 0 0);
    mkParticle "H" (mkPos (-0.04) 0.1 0); mkParticle "H" (mkPos (-0.04) (-0.05) 0.09);
    mkParticle "H" (mkPos (-0.04) (-0.05) (-0.09));
    mkParticle "H" (mkPos 0.19 0.1 0); mkParticle "H" (mkPos 0.19 (-0.05) 0.09);
    mkParticle "H" (mkPos 0.19 (-0.05) (-0.09)) ].

Definition ethane_bonds : list (nat * nat) :=
  [ (0, 1); (0, 2); (0, 3); (0, 4); (1, 5); (1, 6); (1, 7) ]%nat.


(** An elemental inference that finds carbon, hydrogen and oxygen in
    anything that mentions them, marker or not. *)
Definition greedy_inference (name : string) : option string :=
  if String.prefix "C" name || String.prefix "_C" name then Some "C"
  else if String.prefix "H" name || String.prefix "_H" name then Some "H"
  else if String.prefix "O" name || String.prefix "_O" name then Some "O"
  else None.

(** A propane whose bead names are element symbols. *)
Definition elemental_propane : Compound :=
  load [ mkParticle "C" (mkPos 0 0 0);
         mkParticle "C" (mkPos 0.154 0 0);
         mkParticle "C" (mkPos 0.2 0.14 0) ]
       [] (mb_Compound_named "Pro" []).

(** The runs the samples above give. *)
Definition failed_run : Os.world * (unit + Py.exc) :=
  Propane.run_gromacs failing_grompp fresh_world.

Definition charmm_run : Os.world * (unit + Py.exc) :=
  Charmm.run_gromacs working_gmx fresh_world.

Definition near_alone : Hoomd.rdfs * (unit + Py.exc) :=
  Hoomd.analyse Freud.bin_of_orthorhombic [near_frame].

Definition near_twice : Hoomd.rdfs * (unit + Py.exc) :=
  Hoomd.analyse Freud.bin_of_orthorhombic [near_frame; near_frame].

Definition far_then_near : Hoomd.rdfs * (unit + Py.exc) :=
  Hoomd.analyse Freud.bin_of_orthorhombic [far_frame; near_frame].

End Samples.

(** ** Inside [fill_box] *)

Module Packing.
Import Mbuild.

(** The compound [fill_box] has built when it asks PACKMOL for
    coordinates: a fresh compound with [n] clones added. *)
Definition filled (compound : Compound) (n : nat) : Compound :=
  fold_left (fun acc _ => add (clone compound) acc) (seq 0 n) (mb_Compound []).

(** The bonds of children added one after the other: each child's bonds
    are shifted by the number of particles before it, starting from [P]. *)
Fixpoint placed_bonds (P : nat) (l : list Compound) : list (nat * nat) :=
  match l with
  | [] => []
  | c :: rest =>
      (map (shift_edge P) (bond_graph c)
       ++ placed_bonds (P + n_particles (hierarchy c)) rest)%list
  end.

End Packing.

(** ** The propane notebook, from the PDB file to the packed box *)

Module PropaneBox.
Import Mbuild.

Definition n_compounds : nat := 100.

Section Inputs.

(** [TraPPE_UA_3_propane_monomer1.pdb] is not part of the sources: its atom
    records are a parameter (the file lists no bonds).  [packed] is what
    PACKMOL answers. *)
Variable pdb_atoms : list Particle.
Variable packed : option (list Pos).

(** [cmpd = mb.load('TraPPE_UA_3_propane_monomer1.pdb')] then
    [cmpd.name = 'Pro']. *)
Definition cmpd : Compound :=
  Charmm.set_root_name "Pro" (load pdb_atoms [] (mb_Compound [])).

(** The rename-and-bond cell, then
    [box = mb.fill_box(cmpd, n_compounds=100, box=[3, 3, 3])]; a cell that
    raises stops the run. *)
Definition box : Compound + Py.exc :=
  match Propane.rename_and_bond cmpd with
  | (edited, inl _) => fill_box packed edited n_compounds
  | (_, inr e) => inr e
  end.

(** The residues of [box.to_parmed(residues='Pro')]. *)
Definition structure_residues : list string + Py.exc :=
  match box with
  | inl b => inl (gro_residues ["Pro"] b)
  | inr e => inr e
  end.

End Inputs.

End PropaneBox.

(** ** The energy plot of the propane notebook *)

Module Energies.

(** The two axes of the figure, and what the cell asks of them. *)
Inductive axes : Type := ax | axins.

Inductive call : Type :=
| plot (a : axes) (x y : list Q) (label : string)
| set_xlabel (a : axes) (text : string)
| set_ylabel (a : axes) (text : string)
| set_xlim (a : axes) (lo hi : Z)
| set_ylim (a : axes) (lo hi : Z)
| legend (a : axes).

(** The data frame read from [nvt.edr]: columns by name. *)
Definition frame : Type := gmap string (list Q).

(** [df[key]]. *)
Definition column (df : frame) (key : string) : Py.cell (list call) (list Q) :=
  match df !! key with
  | Some v => mret v
  | None => Py.raise Py.KeyError
  end.

(** A call on an axes object is recorded in order. *)
Definition emit (c : call) : Py.cell (list call) unit :=
  Py.modify (fun done => (done ++ [c])%list).

(** [a + b] on two columns of one frame. *)
Definition series_add (a b : list Q) : list Q := zip_with Qplus a b.

Definition energies : list string := ["Potential"; "LJ (SR)"; "Angle"; "Coulombic"].

(** The body of [for energy in energies]: the Coulomb entry plots the sum
    of two columns and goes on to the next entry ([continue]); any other
    entry plots its column and then sets the two axis labels. *)
Definition plot_energy (df : frame) (energy : string) : Py.cell (list call) unit :=
  if String.eqb energy "Coulombic"
  then
    t ← column df "Time";
    sr ← column df "Coulomb (SR)";
    recip ← column df "Coul. recip.";
    emit (plot ax t (series_add sr recip) "Coulomb");;
    t ← column df "Time";
    sr ← column df "Coulomb (SR)";
    recip ← column df "Coul. recip.";
    emit (plot axins t (series_add sr recip) "Coulomb")
  else
    t ← column df "Time";
    y ← column df energy;
    emit (plot ax t y energy);;
    t ← column df "Time";
    y ← column df energy;
    emit (plot axins t y energy);;
    emit (set_xlabel ax "Trajectory time, ps");;
    emit (set_ylabel ax "System energy (kJ/mol)").

Fixpoint for_energies (df : frame) (l : list string) : Py.cell (list call) unit :=
  match l with
  | [] => mret tt
  | energy :: rest => plot_energy df energy;; for_energies df rest
  end.

(** The plotting cell, from the loop to [ax.legend()], for a list of
    energies ([energies] in the notebook). *)
Definition plot_cell (df : frame) (l : list string) : Py.cell (list call) unit :=
  for_energies df l;;
  emit (set_ylim ax (-1000) 2000);;
  emit (set_xlim axins (-1) 20);;
  emit (set_ylim axins (-400) 4000);;
  emit (legend ax).

Definition is_plot (c : call) : bool :=
  match c with plot _ _ _ _ => true | _ => false end.

Definition is_label (c : call) : bool :=
  match c with set_xlabel _ _ | set_ylabel _ _ => true | _ => false end.

(** The columns an entry of the list needs. *)
Definition needs (energy : string) : list string :=
  if String.eqb energy "Coulombic"
  then ["Time"; "Coulomb (SR)"; "Coul. recip."]
  else ["Time"; energy].

(** The label an entry is plotted under. *)
Definition label_of (energy : string) : string :=
  if String.eqb energy "Coulombic" then "Coulomb" else energy.

(** The axes and label of a [plot] call. *)
Definition plot_label (c : call) : option (axes * string) :=
  match c with plot a _ _ l => Some (a, l) | _ => None end.

End Energies.

(** ** Reading the accumulators *)

Module Accumulated.

(** [r'] is [r] after [n] more frames were accumulated: the frame counter
    went up by [n], no bin went down, and the binning is the same. *)
Definition grown_by (n : nat) (r r' : Freud.RDF) : Prop :=
  Freud.frame_counter r' = (Freud.frame_counter r + n)%nat
  /\ Forall2 N.le (Freud.bin_counts r) (Freud.bin_counts r')
  /\ Freud.bins r' = Freud.bins r
  /\ Freud.r_max r' = Freud.r_max r.

End Accumulated.

(** ** The files the propane notebook saves *)

Module Emitter.



End Emitter.

Module PropaneFiles.

Section Inputs.

Variable pdb_atoms : list Mbuild.Particle.
Variable packed : option (list Mbuild.Pos).




End Inputs.

End PropaneFiles.

(** ** Values the cells leave behind, and more sample inputs *)

Module Values.
Import Mbuild.

(** Methanol as the port cell leaves it. *)
Definition methanol_value : Compound :=
  mkCompound (Node "Compound" origin
                   [ Node "_CH3" origin [] [];
                     Node "_OH" (mkPos (7 # 50) 0 0) [] [] ] [])
             [(1, 0)%nat].

(** Four positions, as PACKMOL could return them for two methanols. *)
Definition four_positions : list Pos :=
  [ mkPos 0 0 0; mkPos (7 # 50) 0 0; mkPos 1 1 1; mkPos (57 # 50) 1 1 ].

(** The three beads of a propane PDB file. *)
Definition propane_atoms : list Particle :=
  [ mkParticle "CH3" (mkPos 0 0 0);
    mkParticle "CH2" (mkPos 0.154 0 0);
    mkParticle "CH3" (mkPos 0.2 0.14 0) ].

(** Coordinates as PACKMOL could return them for 100 propanes. *)
Definition packed_propanes : list Pos :=
  map (fun k => mkPos (Q_of_nat k / 100) (Q_of_nat (k mod 3) / 10) 0) (seq 0 300).

(** A frame of two methanes and nothing else. *)
Definition methane_only_frame : Hoomd.Frame :=
  Hoomd.mkFrame (Samples.cubic 10) ["CH4"] [0; 0]%nat
    [ mkPos 0 0 0; mkPos 0.5 0 0 ].

(** The accumulators after one frame and after two. *)
Definition after_near : Hoomd.rdfs := fst Samples.near_alone.
Definition after_near_twice : Hoomd.rdfs := fst Samples.near_twice.

(** An energy frame of three samples, with every column the plot reads. *)
Definition energy_frame : Energies.frame :=
  list_to_map
    [ ("Time", [0; 1; 2]%Q);
      ("Potential", [(-50); (-60); (-61)]%Q);
      ("LJ (SR)", [(-70); (-75); (-76)]%Q);
      ("Angle", [20; 15; 15]%Q);
      ("Coulomb (SR)", [0; 0; 0]%Q);
      ("Coul. recip.", [0; 0; 0]%Q) ].

(** The same frame from a run that wrote no angle energy. *)
Definition energy_frame_without_angle : Energies.frame :=
  delete "Angle" energy_frame.

End Values.

(** * Properties of the embedded code *)

Module PyFacts.

Lemma preserves_ret {S A} (I : S -> Prop) (a : A) : Py.preserves I (Py.ret a).
Proof. intros s Hs. exact Hs. Qed.

Lemma preserves_raise {S A} (I : S -> Prop) e : Py.preserves I (@Py.raise S A e).
Proof. intros s Hs. exact Hs. Qed.

Lemma preserves_get {S} (I : S -> Prop) : Py.preserves I Py.get.
Proof. intros s Hs. exact Hs. Qed.

Lemma preserves_modify {S} (I : S -> Prop) (f : S -> S) :
  (forall s, I s -> I (f s)) -> Py.preserves I (Py.modify f).
Proof. intros Hf s Hs. apply Hf, Hs. Qed.

Lemma preserves_index {S A} (I : S -> Prop) (l : list A) i :
  Py.preserves I (@Py.index S A l i).
Proof. unfold Py.index. destruct (nth_error l i); intros s Hs; exact Hs. Qed.

Lemma preserves_bind {S A B} (I : S -> Prop) (m : Py.cell S A) (k : A -> Py.cell S B) :
  Py.preserves I m -> (forall a, Py.preserves I (k a)) -> Py.preserves I (m ≫= k).
Proof.
  intros Hm Hk s Hs. unfold mbind, cell_bind, Py.bind.
  specialize (Hm s Hs). destruct (m s) as [s' [a|e]]; cbn in *.
  - apply Hk, Hm.
  - exact Hm.
Qed.

End PyFacts.

Create HintDb cells.
#[export] Hint Resolve PyFacts.preserves_ret PyFacts.preserves_raise
  PyFacts.preserves_get PyFacts.preserves_index : cells.

Module MbuildFacts.
Import Mbuild.

(** Induction on the hierarchy: the children of a node satisfy the
    property. *)
Lemma Cmpd_nested_ind (P : Cmpd -> Prop) :
  (forall n p cs ls, Forall P cs -> P (Node n p cs ls)) ->
  forall c, P c.
Proof.
  intros HNode. fix IH 1. intros [n p cs ls]. apply HNode.
  induction cs as [|c cs IHcs]; constructor; [apply IH | exact IHcs].
Qed.

Lemma particles_node n p c cs ls :
  particles (Node n p (c :: cs) ls) = flat_map particles (c :: cs).
Proof. reflexivity. Qed.

(** [update_leaves] rewrites the leaves in place: the flattened particle
    list is the old one with [f] applied at each index. *)
Lemma particles_update_leaves f c :
  forall start,
    particles (update_leaves f start c)
    = imap (fun k q => f (start + k)%nat q) (particles c).
Proof.
  induction c as [n p cs ls IH] using Cmpd_nested_ind. intros start.
  destruct cs as [|c0 cs0].
  - simpl. rewrite Nat.add_0_r. destruct (f start _); reflexivity.
  - change (flat_map particles (update_siblings (update_leaves f) start (c0 :: cs0))
            = imap (fun k q => f (start + k)%nat q) (flat_map particles (c0 :: cs0))).
    revert start. induction IH as [|c l Hc _ IHl]; intros start; [reflexivity|].
    simpl. rewrite Hc, IHl, imap_app. f_equal.
    apply imap_ext. intros j q _. unfold n_particles. f_equal. lia.
Qed.

Lemma n_particles_update_leaves f start c :
  n_particles (update_leaves f start c) = n_particles c.
Proof.
  unfold n_particles. rewrite particles_update_leaves. apply length_imap.
Qed.

(** Two updates in a row are one update. *)
Lemma update_leaves_compose f g c :
  forall start,
    update_leaves g start (update_leaves f start c)
    = update_leaves (fun k q => g k (f k q)) start c.
Proof.
  induction c as [n p cs ls IH] using Cmpd_nested_ind. intros start.
  destruct cs as [|c0 cs0].
  - simpl. destruct (f start _); reflexivity.
  - change (Node n p (update_siblings (update_leaves g) start
                        (update_siblings (update_leaves f) start (c0 :: cs0))) ls
            = Node n p (update_siblings
                          (update_leaves (fun k q => g k (f k q))) start (c0 :: cs0)) ls).
    f_equal.
    revert start. induction IH as [|c l Hc _ IHl]; intros start; [reflexivity|].
    simpl. rewrite Hc, n_particles_update_leaves, IHl. reflexivity.
Qed.

Lemma update_leaves_ext f g c :
  (forall k q, f k q = g k q) ->
  forall start, update_leaves f start c = update_leaves g start c.
Proof.
  intros Hfg. induction c as [n p cs ls IH] using Cmpd_nested_ind. intros start.
  destruct cs as [|c0 cs0].
  - simpl. rewrite Hfg. reflexivity.
  - change (Node n p (update_siblings (update_leaves f) start (c0 :: cs0)) ls
            = Node n p (update_siblings (update_leaves g) start (c0 :: cs0)) ls).
    f_equal.
    revert start. induction IH as [|c l Hc _ IHl]; intros start; [reflexivity|].
    simpl. rewrite Hc, IHl. reflexivity.
Qed.

(** An update that keeps positions is invisible once names are blanked. *)
Lemma forget_names_update_leaves f c :
  (forall k q, ppos (f k q) = ppos q) ->
  forget_names (update_leaves f 0 c) = forget_names c.
Proof.
  intros Hf. unfold forget_names. rewrite update_leaves_compose.
  apply update_leaves_ext. intros k q. cbn. rewrite Hf. reflexivity.
Qed.

Lemma forget_names_set_name i new c :
  forget_names (hierarchy (set_name i new c)) = forget_names (hierarchy c).
Proof.
  apply forget_names_update_leaves. intros k q. destruct (k =? i)%nat; reflexivity.
Qed.

Lemma hierarchy_add_bond e c : hierarchy (add_bond e c) = hierarchy c.
Proof. unfold add_bond. destruct (has_edge _ _); reflexivity. Qed.

Lemma particles_forget_names c :
  particles (forget_names c) = map (fun q => mkParticle EmptyString (ppos q)) (particles c).
Proof.
  unfold forget_names. rewrite particles_update_leaves.
  generalize (particles c) as l. intros l.
  change (imap (const (fun q => mkParticle EmptyString (ppos q))) l
          = map (fun q => mkParticle EmptyString (ppos q)) l).
  rewrite imap_const. reflexivity.
Qed.

(** Blanked hierarchies that agree have the same positions, row by row. *)
Lemma xyz_forget_names c c' :
  forget_names (hierarchy c') = forget_names (hierarchy c) -> xyz c' = xyz c.
Proof.
  intros H. apply (f_equal particles) in H.
  rewrite !particles_forget_names in H.
  apply (f_equal (map ppos)) in H. rewrite !map_map in H. exact H.
Qed.

(** Every compound has a particle: a node without children is one. *)
Lemma n_particles_pos c : exists k, n_particles c = S k.
Proof.
  induction c as [n p cs ls IH] using Cmpd_nested_ind.
  destruct cs as [|c0 cs0]; [exists 0%nat; reflexivity|].
  inversion IH as [|? ? [k Hk] _]; subst.
  unfold n_particles in *. rewrite particles_node. cbn [flat_map].
  rewrite length_app, Hk. eexists. reflexivity.
Qed.

(** *** Composition and replication *)

Lemma hierarchy_fold_add (l : list Compound) :
  forall parent n p cs ls,
    hierarchy parent = Node n p cs ls ->
    hierarchy (fold_left (fun parent child => add child parent) l parent)
    = Node n p (cs ++ map hierarchy l) ls.
Proof.
  induction l as [|c l IHl]; intros parent n p cs ls H; cbn [fold_left map].
  - rewrite app_nil_r. exact H.
  - rewrite (IHl _ n p (cs ++ [hierarchy c])%list ls).
    + rewrite <- app_assoc. reflexivity.
    + unfold add. rewrite H. reflexivity.
Qed.

Lemma hierarchy_mb_Compound_named n (l : list Compound) :
  hierarchy (mb_Compound_named n l) = Node n origin (map hierarchy l) [].
Proof.
  unfold mb_Compound_named.
  apply (hierarchy_fold_add l _ n origin [] []). reflexivity.
Qed.

Lemma n_bonds_add child parent :
  n_bonds (add child parent) = (n_bonds parent + n_bonds child)%nat.
Proof.
  unfold n_bonds, add. destruct (hierarchy parent) as [n p cs ls].
  cbn [bond_graph]. rewrite length_app, length_map. reflexivity.
Qed.

Lemma n_bonds_fold_add (l : list Compound) :
  forall parent,
    n_bonds (fold_left (fun parent child => add child parent) l parent)
    = (n_bonds parent + list_sum (map n_bonds l))%nat.
Proof.
  induction l as [|c l IHl]; intros parent; simpl.
  - lia.
  - rewrite IHl, n_bonds_add. lia.
Qed.

Lemma n_particles_translate v c :
  n_particles (hierarchy (translate v c)) = n_particles (hierarchy c).
Proof. apply n_particles_update_leaves. Qed.

Lemma length_flat_map_const {A B} (f : A -> list B) (l : list A) k :
  (forall a, In a l -> length (f a) = k) ->
  length (flat_map f l) = (length l * k)%nat.
Proof.
  induction l as [|a l IHl]; intros H; [reflexivity|].
  cbn [flat_map]. rewrite length_app, IHl.
  - rewrite (H a) by (left; reflexivity). simpl. lia.
  - intros b Hb. apply H. right. exact Hb.
Qed.

(** Replicating on a pattern of [N] points gives [N] copies' worth of
    particles... *)
Lemma n_particles_lattice pat c :
  points pat <> [] ->
  n_particles (hierarchy (mb_Compound (apply pat c)))
  = (length (points pat) * n_particles (hierarchy c))%nat.
Proof.
  intros Hne. unfold mb_Compound. rewrite hierarchy_mb_Compound_named.
  unfold apply, clone. rewrite map_map.
  destruct (points pat) as [|pt pts] eqn:E; [congruence|].
  unfold n_particles at 1. cbn [map]. rewrite particles_node.
  change (length (flat_map particles
            (map (fun x => hierarchy (translate x c)) (pt :: pts)))
          = (length (pt :: pts) * n_particles (hierarchy c))%nat).
  rewrite (length_flat_map_const _ _ (n_particles (hierarchy c))).
  - rewrite length_map. reflexivity.
  - intros a Ha. apply in_map_iff in Ha as [x [<- _]].
    apply n_particles_translate.
Qed.

(** ... and of bonds. *)
Lemma n_bonds_lattice pat c :
  n_bonds (mb_Compound (apply pat c)) = (length (points pat) * n_bonds c)%nat.
Proof.
  unfold mb_Compound, mb_Compound_named. rewrite n_bonds_fold_add.
  unfold apply, clone. rewrite map_map. cbn.
  induction (points pat) as [|pt pts IH]; [reflexivity|].
  simpl in *. rewrite IH. unfold n_bonds. lia.
Qed.

End MbuildFacts.

(** * The model on the notebooks' own values *)

Module ModelChecks.
Import Mbuild.

(** The eight points of [Grid3DPattern(2, 2, 2)] after [scale(0.4)], in
    the order mBuild stores them. *)
Example grid_2x2x2_scaled :
  points (scale 0.4 (Grid3DPattern 2 2 2))
  = [ mkPos 0 0 0; mkPos 0 0 (1 # 5); mkPos 0 (1 # 5) 0; mkPos 0 (1 # 5) (1 # 5);
      mkPos (1 # 5) 0 0; mkPos (1 # 5) 0 (1 # 5);
      mkPos (1 # 5) (1 # 5) 0; mkPos (1 # 5) (1 # 5) (1 # 5) ].
Proof. vm_compute. reflexivity. Qed.

(** Methanol after [force_overlap]: the OH bead sits 0.14 from the CH3
    bead, the two are bonded and no port is left. *)
Example methanol_after_overlap :
  Hoomd.methanol
  = inl (mkCompound
           (Node "Compound" origin
                 [ Node "_CH3" origin [] [];
                   Node "_OH" (mkPos (7 # 50) 0 0) [] [] ] [])
           [(1, 0)%nat]).
Proof. vm_compute. reflexivity. Qed.

(** The mixture of the notebook: 8 methanes and 8 methanols, 24 beads and
    8 bonds, the methanols lifted by 1.1 times the top of the methane box. *)
Example mixture_of_the_notebook :
  match Hoomd.build 0.4 0.4 with
  | inl b =>
      n_particles (hierarchy (Hoomd.mixture_box b)) = 24%nat
      /\ n_bonds (Hoomd.mixture_box b) = 8%nat
      /\ map pname (particles (hierarchy (Hoomd.methane_box b))) = repeat "_CH4" 8
      /\ nth_error (xyz (Hoomd.methanol_box b)) 0 = Some (mkPos 0 0 (11 # 50))
  | inr _ => False
  end.
Proof. vm_compute. repeat split. Qed.

(** The scale given to [methane_grid] does reach the mixture. *)
Example methane_grid_scale_matters :
  Hoomd.system_of (Hoomd.build 0.4 0.4) <> Hoomd.system_of (Hoomd.build 0.5 0.4).
Proof. vm_compute. discriminate. Qed.

(** The propane sample through the rename-and-bond cell. *)
Example propane_after_edit :
  Propane.rename_and_bond Samples.propane
  = (mkCompound
       (Node "Pro" origin
             [ Node "_H3" origin [] [];
               Node "_CH2" (mkPos 0.154 0 0) [] [];
               Node "_H3" (mkPos 0.2 0.14 0) [] [] ] [])
       [(0, 1); (1, 2)]%nat,
     inl tt).
Proof. vm_compute. reflexivity. Qed.

(** With fewer than three particles the cell raises [IndexError] and keeps
    the renames made so far. *)
Example edit_of_a_single_particle :
  Propane.rename_and_bond (mb_Particle "CH4")
  = (mb_Particle "_H4", inr Py.IndexError).
Proof. vm_compute. reflexivity. Qed.

(** The directives of the run-control file, as read from the text. *)
Example some_directives :
  Mdp.lookup "integrator" (Mdp.directives Mdp.template) = Some "md"
  /\ Mdp.lookup "constraints" (Mdp.directives Mdp.template) = Some "all-bonds"
  /\ Mdp.lookup "rcoulomb" (Mdp.directives Mdp.template) = Some "1.4"
  /\ Mdp.lookup "tau_t" (Mdp.directives Mdp.template) = Some "0.4"
  /\ Mdp.lookup "gen_seed" (Mdp.directives Mdp.template) = Some "-1"
  /\ length (Mdp.directives Mdp.template) = 31%nat.
Proof. vm_compute. repeat split. Qed.

(** [box.top] read back. *)
Example box_top_read_back :
  Mdp.lines (Charmm.box_top_text Samples.ethane_atoms Samples.ethane_bonds)
  = [ "#include " +:+ Charmm.quoted "files/charmm36.itp" +:+ " ";
      "#include " +:+ Charmm.quoted "files/ETHA.itp" +:+ " ";
      "[ System ] "; "mBuild box of ethane"; "[ Molecules ] "; "ETHA 100" ].
Proof. vm_compute. reflexivity. Qed.

(** One frame of the sample trajectory: the two like beads 0.5 apart fall
    in bin 12 of 50, once for each ordered pair. *)
Example near_frame_histogram :
  snd Samples.near_alone = inl tt
  /\ Freud.bin_counts (Hoomd.ch4_ch4_rdf (fst Samples.near_alone))
     = <[12%nat := 2%N]> (repeat 0%N 50)
  /\ Freud.bin_counts (Hoomd.ch3_oh_rdf (fst Samples.near_alone)) = repeat 0%N 50.
Proof. vm_compute. repeat split. Qed.

End ModelChecks.

(** * The topology-editing cell *)

Module PropaneFacts.
Import Mbuild MbuildFacts.

Lemma particle_preserves (I : Compound -> Prop) i :
  Py.preserves I (Propane.particle i).
Proof.
  unfold Propane.particle. apply PyFacts.preserves_bind; auto with cells.
Qed.

(** Renaming and bonding keep the blanked hierarchy of the compound the
    cell started from. *)
Lemma rename_and_bond_preserves (c0 : Cmpd) :
  Py.preserves (fun c => forget_names (hierarchy c) = forget_names c0)
               Propane.rename_and_bond.
Proof.
  unfold Propane.rename_and_bond.
  repeat first
    [ apply particle_preserves
    | apply PyFacts.preserves_modify; intros s Hs;
      first [ rewrite forget_names_set_name | rewrite hierarchy_add_bond ];
      exact Hs
    | apply PyFacts.preserves_bind; [| intros ?] ].
Qed.

Lemma particles_set_name i new c :
  particles (hierarchy (set_name i new c))
  = imap (fun k q => if (k =? i)%nat then mkParticle new (ppos q) else q)
         (particles (hierarchy c)).
Proof. unfold set_name. cbn [hierarchy]. apply particles_update_leaves. Qed.

Lemma imap_untouched {A} (f : nat -> A -> A) (l : list A) :
  (forall k a, f k a = a) -> imap f l = l.
Proof.
  intros Hf. revert f Hf. induction l as [|a l IHl]; intros f Hf; [reflexivity|].
  cbn. rewrite Hf. f_equal. apply IHl. intros k b. apply Hf.
Qed.

(** With three particles or more the cell runs to its end. *)
Lemma rename_and_bond_runs c p0 p1 p2 rest :
  particles (hierarchy c) = p0 :: p1 :: p2 :: rest ->
  exists c',
    Propane.rename_and_bond c = (c', inl tt)
    /\ particles (hierarchy c') = (Propane.renamed p0 p1 p2 ++ rest)%list
    /\ bond_graph c' = bond_graph (add_bond (1, 2)%nat (add_bond (0, 1)%nat c)).
Proof.
  intros H.
  set (c1 := set_name 0 ("_" +:+ Py.slice_from_1 (pname p0)) c).
  set (c2 := set_name 1 ("_" +:+ pname p1) c1).
  set (c3 := set_name 2 ("_" +:+ Py.slice_from_1 (pname p2)) c2).
  assert (H1 : particles (hierarchy c1)
               = mkParticle ("_" +:+ Py.slice_from_1 (pname p0)) (ppos p0)
                 :: p1 :: p2 :: rest).
  { unfold c1. rewrite particles_set_name, H. cbn. do 3 f_equal.
    apply imap_untouched. reflexivity. }
  assert (H2 : particles (hierarchy c2)
               = mkParticle ("_" +:+ Py.slice_from_1 (pname p0)) (ppos p0)
                 :: mkParticle ("_" +:+ pname p1) (ppos p1) :: p2 :: rest).
  { unfold c2. rewrite particles_set_name, H1. cbn. do 3 f_equal.
    apply imap_untouched. reflexivity. }
  assert (H3 : particles (hierarchy c3) = (Propane.renamed p0 p1 p2 ++ rest)%list).
  { unfold c3. rewrite particles_set_name, H2. cbn. do 3 f_equal.
    apply imap_untouched. reflexivity. }
  exists (add_bond (1, 2)%nat (add_bond (0, 1)%nat c3)).
  split; [|split].
  - unfold Propane.rename_and_bond, Propane.particle, mbind, cell_bind,
      Py.bind, Py.get, Py.index, Py.modify, Py.ret.
    rewrite H. cbn [nth_error fst snd]. fold c1.
    rewrite H1. cbn [nth_error]. fold c2.
    rewrite H2. cbn [nth_error]. fold c3.
    repeat (first [rewrite hierarchy_add_bond | rewrite H3];
            cbn [nth_error Propane.renamed app]).
    reflexivity.
  - rewrite !hierarchy_add_bond. exact H3.
  - unfold add_bond. change (bond_graph c3) with (bond_graph c).
    destruct (has_edge (bond_graph c) (0, 1)%nat); cbn [bond_graph];
      destruct (has_edge _ (1, 2)%nat); reflexivity.
Qed.

End PropaneFacts.

(** C9.  The topology-editing cell (three renames, two [add_bond] calls)
    leaves the compound's hierarchy as it was except for particle name
    tags: the number of particles, their order and every particle's position
    are unchanged, whether the cell runs to its end or raises on the way. *)
Theorem topology_edit_frame (cmpd : Mbuild.Compound) :
  let cmpd' := fst (Propane.rename_and_bond cmpd) in
  Mbuild.forget_names (Mbuild.hierarchy cmpd')
    = Mbuild.forget_names (Mbuild.hierarchy cmpd)
  /\ Mbuild.n_particles (Mbuild.hierarchy cmpd')
     = Mbuild.n_particles (Mbuild.hierarchy cmpd)
  /\ Mbuild.xyz cmpd' = Mbuild.xyz cmpd.
Proof.
  intros cmpd'.
  assert (H : Mbuild.forget_names (Mbuild.hierarchy cmpd')
              = Mbuild.forget_names (Mbuild.hierarchy cmpd)).
  { apply (PropaneFacts.rename_and_bond_preserves (Mbuild.hierarchy cmpd) cmpd).
    reflexivity. }
  split; [exact H|]. split.
  - apply MbuildFacts.xyz_forget_names in H. unfold Mbuild.xyz in H.
    apply (f_equal (@length _)) in H. rewrite !length_map in H. exact H.
  - apply MbuildFacts.xyz_forget_names, H.
Qed.

(** * Replication on a lattice *)

(** C2.  A prototype of three particles and no bonds, put through the
    rename-and-bond cell (bonds 0-1 and 1-2) and replicated on the 2x2x2
    grid scaled by 0.4, gives 8 copies and a compound of exactly 24
    particles and 16 bonds. *)
Theorem lattice_of_bonded_prototype (prototype : Mbuild.Compound) :
  Mbuild.n_particles (Mbuild.hierarchy prototype) = 3%nat ->
  Mbuild.bond_graph prototype = [] ->
  let cmpd := fst (Propane.rename_and_bond prototype) in
  let '(_, list_of_copies, box) := Hoomd.methane_cell 0.4 cmpd in
  snd (Propane.rename_and_bond prototype) = inl tt
  /\ Mbuild.n_bonds cmpd = 2%nat
  /\ length list_of_copies = 8%nat
  /\ Mbuild.n_particles (Mbuild.hierarchy box) = 24%nat
  /\ Mbuild.n_bonds box = 16%nat.
Proof.
  intros Hn Hb. unfold Mbuild.n_particles in Hn.
  destruct (Mbuild.particles (Mbuild.hierarchy prototype))
    as [|p0 [|p1 [|p2 [|p3 rest]]]] eqn:Hp; try discriminate Hn.
  destruct (PropaneFacts.rename_and_bond_runs _ _ _ _ _ Hp) as (c' & Hrun & Hp' & Hg).
  rewrite Hrun. cbn [fst snd]. unfold Hoomd.methane_cell.
  assert (Hb' : Mbuild.n_bonds c' = 2%nat).
  { unfold Mbuild.n_bonds. rewrite Hg. unfold Mbuild.add_bond. rewrite Hb. reflexivity. }
  assert (Hn' : Mbuild.n_particles (Mbuild.hierarchy c') = 3%nat).
  { unfold Mbuild.n_particles. rewrite Hp'. reflexivity. }
  split; [reflexivity|]. split; [exact Hb'|]. split; [|split].
  - unfold Mbuild.apply. rewrite length_map. reflexivity.
  - rewrite MbuildFacts.n_particles_lattice, Hn' by discriminate. reflexivity.
  - rewrite MbuildFacts.n_bonds_lattice, Hb'. reflexivity.
Qed.

(** The propane sample meets the two conditions and gives the two counts. *)
Lemma lattice_of_bonded_prototype_witness :
  Mbuild.n_particles (Mbuild.hierarchy Samples.propane) = 3%nat
  /\ Mbuild.bond_graph Samples.propane = []
  /\ Mbuild.n_particles
       (Mbuild.hierarchy
          (snd (Hoomd.methane_cell 0.4 (fst (Propane.rename_and_bond Samples.propane)))))
     = 24%nat
  /\ Mbuild.n_bonds
       (snd (Hoomd.methane_cell 0.4 (fst (Propane.rename_and_bond Samples.propane))))
     = 16%nat.
Proof.
  pose proof (lattice_of_bonded_prototype Samples.propane eq_refl eq_refl) as H.
  cbv zeta in H.
  destruct (Hoomd.methane_cell 0.4 (fst (Propane.rename_and_bond Samples.propane)))
    as [[g l] b].
  destruct H as (_ & _ & _ & Hp & Hb).
  repeat split; assumption.
Defined.

(** * The methanol grid *)

Module HoomdFacts.
Import Mbuild.

Lemma methanol_built :
  exists m, Hoomd.methanol = inl m
            /\ n_particles (hierarchy m) = 2%nat /\ n_bonds m = 1%nat
            /\ labels_of (hierarchy m) = [].
Proof. eexists. split; [vm_compute; reflexivity|]. repeat split. Qed.

Lemma Qmax_list_cons x l : exists z, Hoomd.Qmax_list (x :: l) = Some z.
Proof. eexists. reflexivity. Qed.

(** The methane box is never empty, so its largest [z] exists. *)
Lemma methane_box_top by_ c :
  exists z,
    Hoomd.Qmax_list (map pz (xyz (snd (Hoomd.methane_cell by_ c)))) = Some z.
Proof.
  unfold Hoomd.methane_cell. cbn [snd]. unfold xyz.
  pose proof (MbuildFacts.n_particles_lattice
                (scale by_ (Grid3DPattern 2 2 2)) c) as H.
  unfold n_particles in H.
  destruct (particles _) as [|q qs].
  - exfalso. cbn in H. specialize (H ltac:(discriminate)). 
    destruct (MbuildFacts.n_particles_pos (hierarchy c)) as [k Hk].
    unfold n_particles in Hk. lia.
  - apply Qmax_list_cons.
Qed.

End HoomdFacts.

(** C8.  In the replication stage of the HOOMD notebook the methanol copies
    are placed by [methane_grid.apply]; [methanol_grid] is built and scaled
    but never read.  So for any two scale values given to [methanol_grid]
    the build succeeds both times with the same methane box, methanol box
    and mixture; only the value of [methanol_grid] itself differs. *)
Theorem methanol_grid_has_no_influence (methane_by s1 s2 : Q) :
  exists b1 b2 m z,
    Hoomd.build methane_by s1 = inl b1
    /\ Hoomd.build methane_by s2 = inl b2
    /\ Hoomd.mixture_box b1 = Hoomd.mixture_box b2
    /\ Hoomd.methanol_box b1 = Hoomd.methanol_box b2
    /\ Hoomd.methane_box b1 = Hoomd.methane_box b2
    /\ Hoomd.methane_grid b1 = Hoomd.methane_grid b2
    /\ Hoomd.system_of (Hoomd.build methane_by s1)
       = Hoomd.system_of (Hoomd.build methane_by s2)
    /\ Hoomd.methanol = inl m
    /\ Hoomd.methanol_box b1
       = Mbuild.translate (Mbuild.mkPos 0 0 z)
           (Mbuild.mb_Compound (Mbuild.apply (Hoomd.methane_grid b1) m))
    /\ Hoomd.methanol_grid b1 = Mbuild.scale s1 (Mbuild.Grid3DPattern 2 2 2)
    /\ Hoomd.methanol_grid b2 = Mbuild.scale s2 (Mbuild.Grid3DPattern 2 2 2).
Proof.
  destruct HoomdFacts.methanol_built as (m & Hm & _).
  destruct (HoomdFacts.methane_box_top methane_by Hoomd.methane_cmpd) as [zmax Hz].
  unfold Hoomd.build. rewrite Hm.
  destruct (Hoomd.methane_cell methane_by Hoomd.methane_cmpd) as [[g l] box] eqn:Hcell.
  cbn [snd] in Hz. unfold Hoomd.methanol_cell. rewrite Hz.
  do 4 eexists. repeat split.
Qed.

(** * The run-control file *)

Module MdpFacts.

(** The literal of the notebook is the repository's run-control file with
    one line break in front. *)
Lemma mdp_text_is_template : Propane.mdp_text = String Mdp.newline Mdp.template.
Proof. vm_compute. reflexivity. Qed.

Lemma directives_of_mdp_text :
  Mdp.directives Propane.mdp_text = Mdp.directives Mdp.template.
Proof. vm_compute. reflexivity. Qed.

End MdpFacts.

(** C10.  [write_gmx_mdp] takes the file name and nothing else, and what it
    writes is one constant text: whatever the name and whatever the state of
    the disk, the file holds the same bytes afterwards, the call returns
    normally, and the text opens with a line break followed by the [title]
    directive. *)
Theorem write_gmx_mdp_constant_text (f1 f2 : string) (w1 w2 : Os.world) :
  Os.files (fst (Propane.write_gmx_mdp f1 w1)) !! f1 = Some Propane.mdp_text
  /\ Os.files (fst (Propane.write_gmx_mdp f1 w1)) !! f1
     = Os.files (fst (Propane.write_gmx_mdp f2 w2)) !! f2
  /\ snd (Propane.write_gmx_mdp f1 w1) = inl tt
  /\ Os.trace (fst (Propane.write_gmx_mdp f1 w1))
     = (Os.trace w1 ++ [Os.Write f1 Propane.mdp_text])%list
  /\ exists rest, Propane.mdp_text = String Mdp.newline ("title" +:+ rest).
Proof.
  unfold Propane.write_gmx_mdp, Os.write_file, Py.modify, Os.log.
  cbn [fst snd Os.files Os.trace].
  rewrite !lookup_insert_eq. repeat split.
  exists (Py.slice_from_1 (Py.slice_from_1 (Py.slice_from_1 (Py.slice_from_1
            (Py.slice_from_1 Mdp.template))))).
  rewrite MdpFacts.mdp_text_is_template. vm_compute. reflexivity.
Qed.

(** C3.  The rendered run-control file carries [nsteps = 100000],
    [dt = 0.002] and [ref_t = 300], each on the one directive line of its
    key, and every directive of the rendered file (those three and all the
    others) is the one written in the template text. *)
Theorem rendered_mdp_directives (filename key : string) (w : Os.world) :
  exists text,
    Os.files (fst (Propane.write_gmx_mdp filename w)) !! filename = Some text
    /\ Mdp.lines_for "nsteps" (Mdp.directives text) = [("nsteps", "100000")]
    /\ Mdp.lines_for "dt" (Mdp.directives text) = [("dt", "0.002")]
    /\ Mdp.lines_for "ref_t" (Mdp.directives text) = [("ref_t", "300")]
    /\ Mdp.directives text = Mdp.directives Mdp.template
    /\ Mdp.lookup key (Mdp.directives text)
       = Mdp.lookup key (Mdp.directives Mdp.template).
Proof.
  exists Propane.mdp_text.
  pose proof MdpFacts.directives_of_mdp_text as Hd.
  split.
  - unfold Propane.write_gmx_mdp, Os.write_file, Py.modify, Os.log.
    cbn [fst snd Os.files Os.trace]. apply lookup_insert_eq.
  - split; [vm_compute; reflexivity|]. split; [vm_compute; reflexivity|].
    split; [vm_compute; reflexivity|]. split; [exact Hd|].
    rewrite Hd. reflexivity.
Qed.

(** * Running the engine *)

Module EngineFacts.

(** Running a sequence: when the first cell returns, the rest runs from
    the state it left. *)
Lemma bind_run {S A B} (m : Py.cell S A) (k : A -> Py.cell S B) s s' a :
  m s = (s', inl a) -> (m ≫= k) s = k a s'.
Proof. intros H. unfold mbind, cell_bind, Py.bind. rewrite H. reflexivity. Qed.

Lemma write_file_run file content w :
  Os.write_file file content w
  = (Os.mkWorld (<[file := content]> (Os.files w))
                (Os.trace w ++ [Os.Write file content]), inl tt).
Proof. reflexivity. Qed.

Section Engine.
Variable engine : string -> gmap string string -> Os.completed * gmap string string.

Lemma Popen_run cmd w :
  Os.Popen cmd w = (Os.mkWorld (Os.files w) (Os.trace w ++ [Os.Spawn cmd]), inl cmd).
Proof. reflexivity. Qed.

Lemma communicate_run p w :
  Os.communicate engine p w
  = (Os.mkWorld (snd (engine p (Os.files w)))
                (Os.trace w ++ [Os.Exit p (Os.returncode (fst (engine p (Os.files w))))]),
     inl (Os.stdout (fst (engine p (Os.files w))),
          Os.stderr (fst (engine p (Os.files w))),
          Os.returncode (fst (engine p (Os.files w))))).
Proof. reflexivity. Qed.

Lemma shell_escape_run cmd w :
  Os.shell_escape engine cmd w
  = (Os.mkWorld (snd (engine cmd (Os.files w)))
                (Os.trace w ++
                 [ Os.Spawn cmd;
                   Os.Exit cmd (Os.returncode (fst (engine cmd (Os.files w))));
                   Os.Display (Os.stdout (fst (engine cmd (Os.files w))))
                              (Os.stderr (fst (engine cmd (Os.files w)))) ]),
     inl tt).
Proof.
  unfold Os.shell_escape, mbind, cell_bind, Py.bind, Py.modify, Py.get, Py.put, Os.log.
  cbn [fst snd Os.files Os.trace]. repeat rewrite <- app_assoc. reflexivity.
Qed.

(** The GROMACS cell of the propane notebook, event by event. *)
Lemma run_gromacs_trace (w : Os.world) :
  let g := engine Propane.grompp_cmd
                  (<["nvt.mdp" := Propane.mdp_text]> (Os.files w)) in
  let m := engine Propane.mdrun_cmd
                  (<["grompp.err" := Os.stderr (fst g)]>
                     (<["grompp.out" := Os.stdout (fst g)]> (snd g))) in
  Propane.run_gromacs engine w
  = (Os.mkWorld
       (<["mdrun.err" := Os.stderr (fst m)]>
          (<["mdrun.out" := Os.stdout (fst m)]> (snd m)))
       (Os.trace w ++
        [ Os.Write "nvt.mdp" Propane.mdp_text;
          Os.Spawn Propane.grompp_cmd;
          Os.Exit Propane.grompp_cmd (Os.returncode (fst g));
          Os.Write "grompp.out" (Os.stdout (fst g));
          Os.Write "grompp.err" (Os.stderr (fst g));
          Os.Spawn Propane.mdrun_cmd;
          Os.Exit Propane.mdrun_cmd (Os.returncode (fst m));
          Os.Write "mdrun.out" (Os.stdout (fst m));
          Os.Write "mdrun.err" (Os.stderr (fst m)) ]),
     inl tt).
Proof.
  intros g m. unfold Propane.run_gromacs, Propane.write_gmx_mdp.
  rewrite (bind_run _ _ _ _ _ (write_file_run _ _ _)).
  rewrite (bind_run _ _ _ _ _ (Popen_run _ _)).
  rewrite (bind_run _ _ _ _ _ (communicate_run _ _)).
  cbn [Os.files Os.trace]. fold g.
  rewrite (bind_run _ _ _ _ _ (write_file_run _ _ _)).
  rewrite (bind_run _ _ _ _ _ (write_file_run _ _ _)).
  rewrite (bind_run _ _ _ _ _ (Popen_run _ _)).
  rewrite (bind_run _ _ _ _ _ (communicate_run _ _)).
  cbn [Os.files Os.trace]. fold m.
  rewrite (bind_run _ _ _ _ _ (write_file_run _ _ _)).
  rewrite write_file_run.
  cbn [Os.files Os.trace]. repeat rewrite <- app_assoc. reflexivity.
Qed.

(** The four engine cells of the CHARMM-GUI notebook, event by event. *)
Lemma charmm_run_gromacs_trace (w : Os.world) :
  let r1 := engine Charmm.em_grompp_cmd (Os.files w) in
  let r2 := engine Charmm.em_mdrun_cmd (snd r1) in
  let r3 := engine Charmm.npt_grompp_cmd (snd r2) in
  let r4 := engine Charmm.npt_mdrun_cmd (snd r3) in
  Charmm.run_gromacs engine w
  = (Os.mkWorld (snd r4)
       (Os.trace w ++
        [ Os.Spawn Charmm.em_grompp_cmd;
          Os.Exit Charmm.em_grompp_cmd (Os.returncode (fst r1));
          Os.Display (Os.stdout (fst r1)) (Os.stderr (fst r1));
          Os.Spawn Charmm.em_mdrun_cmd;
          Os.Exit Charmm.em_mdrun_cmd (Os.returncode (fst r2));
          Os.Display (Os.stdout (fst r2)) (Os.stderr (fst r2));
          Os.Spawn Charmm.npt_grompp_cmd;
          Os.Exit Charmm.npt_grompp_cmd (Os.returncode (fst r3));
          Os.Display (Os.stdout (fst r3)) (Os.stderr (fst r3));
          Os.Spawn Charmm.npt_mdrun_cmd;
          Os.Exit Charmm.npt_mdrun_cmd (Os.returncode (fst r4));
          Os.Display (Os.stdout (fst r4)) (Os.stderr (fst r4)) ]),
     inl tt).
Proof.
  intros r1 r2 r3 r4. unfold Charmm.run_gromacs.
  rewrite (bind_run _ _ _ _ _ (shell_escape_run _ _)). cbn [Os.files Os.trace]. fold r1.
  rewrite (bind_run _ _ _ _ _ (shell_escape_run _ _)). cbn [Os.files Os.trace]. fold r2.
  rewrite (bind_run _ _ _ _ _ (shell_escape_run _ _)). cbn [Os.files Os.trace]. fold r3.
  rewrite shell_escape_run. cbn [Os.files Os.trace]. fold r4.
  repeat rewrite <- app_assoc. reflexivity.
Qed.

End Engine.

End EngineFacts.

(** C1, as the code has it.  No notebook ever looks at an exit status.  In
    the propane notebook, whatever status [gmx grompp] exits with, its two
    streams are written to [grompp.out] and [grompp.err] verbatim,
    [gmx mdrun] is started next, and the cell ends without raising.  In the
    CHARMM-GUI notebook, whatever status either [gmx grompp] exits with, its
    output is displayed, the [gmx mdrun] that follows it is started next,
    nothing is raised, and the notebook writes no file: the files on disk
    are those the engine left. *)
Theorem mdrun_follows_grompp_whatever_its_status
        (engine : string -> gmap string string -> Os.completed * gmap string string)
        (w : Os.world) :
  let g := engine Propane.grompp_cmd
                  (<["nvt.mdp" := Propane.mdp_text]> (Os.files w)) in
  let r := Propane.run_gromacs engine w in
  let r1 := engine Charmm.em_grompp_cmd (Os.files w) in
  let r2 := engine Charmm.em_mdrun_cmd (snd r1) in
  let r3 := engine Charmm.npt_grompp_cmd (snd r2) in
  let r4 := engine Charmm.npt_mdrun_cmd (snd r3) in
  let c := Charmm.run_gromacs engine w in
  (snd r = inl tt
   /\ exists before after,
       Os.trace (fst r)
       = (before ++
          [ Os.Exit Propane.grompp_cmd (Os.returncode (fst g));
            Os.Write "grompp.out" (Os.stdout (fst g));
            Os.Write "grompp.err" (Os.stderr (fst g));
            Os.Spawn Propane.mdrun_cmd ] ++ after)%list)
  /\ (snd c = inl tt
      /\ Os.trace (fst c)
         = (Os.trace w ++
            [ Os.Spawn Charmm.em_grompp_cmd;
              Os.Exit Charmm.em_grompp_cmd (Os.returncode (fst r1));
              Os.Display (Os.stdout (fst r1)) (Os.stderr (fst r1));
              Os.Spawn Charmm.em_mdrun_cmd;
              Os.Exit Charmm.em_mdrun_cmd (Os.returncode (fst r2));
              Os.Display (Os.stdout (fst r2)) (Os.stderr (fst r2));
              Os.Spawn Charmm.npt_grompp_cmd;
              Os.Exit Charmm.npt_grompp_cmd (Os.returncode (fst r3));
              Os.Display (Os.stdout (fst r3)) (Os.stderr (fst r3));
              Os.Spawn Charmm.npt_mdrun_cmd;
              Os.Exit Charmm.npt_mdrun_cmd (Os.returncode (fst r4));
              Os.Display (Os.stdout (fst r4)) (Os.stderr (fst r4)) ])%list
      /\ Os.files (fst c) = snd r4).
Proof.
  intros g r r1 r2 r3 r4 c. split.
  - unfold r. rewrite EngineFacts.run_gromacs_trace. fold g.
    cbn [fst snd Os.trace]. split; [reflexivity|].
    exists (Os.trace w ++ [Os.Write "nvt.mdp" Propane.mdp_text;
                           Os.Spawn Propane.grompp_cmd])%list.
    eexists. rewrite <- app_assoc. reflexivity.
  - unfold c. rewrite EngineFacts.charmm_run_gromacs_trace.
    fold r1. fold r2. fold r3. fold r4.
    cbn [fst snd Os.trace Os.files]. split; [reflexivity|]. split; reflexivity.
Qed.

(** C1 fails on the code: with a preprocessor that exits with status 1,
    [gmx mdrun] is started all the same and the cell reports no error. *)
Lemma failed_grompp_does_not_stop_mdrun :
  In (Os.Exit Propane.grompp_cmd 1) (Os.trace (fst Samples.failed_run))
  /\ In (Os.Spawn Propane.mdrun_cmd) (Os.trace (fst Samples.failed_run))
  /\ snd Samples.failed_run = inl tt.
Proof.
  unfold Samples.failed_run. rewrite EngineFacts.run_gromacs_trace.
  cbn [fst snd Os.trace Samples.fresh_world app].
  split; [|split]; [ | | reflexivity].
  - right. right. left. reflexivity.
  - do 5 right. left. reflexivity.
Qed.

(** C7, as the code has it.  Every engine subprocess is waited for before
    the notebook does anything else.  In the propane notebook the two
    complete streams of each subprocess are then written verbatim, one file
    per stream ([grompp.out], [grompp.err], [mdrun.out], [mdrun.err]).  In the
    CHARMM-GUI notebook the engine is run through shell escapes: its output
    is displayed and no file is written. *)
Theorem subprocess_streams_after_exit
        (engine : string -> gmap string string -> Os.completed * gmap string string)
        (w : Os.world) :
  let g := engine Propane.grompp_cmd
                  (<["nvt.mdp" := Propane.mdp_text]> (Os.files w)) in
  let m := engine Propane.mdrun_cmd
                  (<["grompp.err" := Os.stderr (fst g)]>
                     (<["grompp.out" := Os.stdout (fst g)]> (snd g))) in
  let r1 := engine Charmm.em_grompp_cmd (Os.files w) in
  let r2 := engine Charmm.em_mdrun_cmd (snd r1) in
  let r3 := engine Charmm.npt_grompp_cmd (snd r2) in
  let r4 := engine Charmm.npt_mdrun_cmd (snd r3) in
  Os.trace (fst (Propane.run_gromacs engine w))
  = (Os.trace w ++
     [ Os.Write "nvt.mdp" Propane.mdp_text;
       Os.Spawn Propane.grompp_cmd;
       Os.Exit Propane.grompp_cmd (Os.returncode (fst g));
       Os.Write "grompp.out" (Os.stdout (fst g));
       Os.Write "grompp.err" (Os.stderr (fst g));
       Os.Spawn Propane.mdrun_cmd;
       Os.Exit Propane.mdrun_cmd (Os.returncode (fst m));
       Os.Write "mdrun.out" (Os.stdout (fst m));
       Os.Write "mdrun.err" (Os.stderr (fst m)) ])%list
  /\ Os.trace (fst (Charmm.run_gromacs engine w))
     = (Os.trace w ++
        [ Os.Spawn Charmm.em_grompp_cmd;
          Os.Exit Charmm.em_grompp_cmd (Os.returncode (fst r1));
          Os.Display (Os.stdout (fst r1)) (Os.stderr (fst r1));
          Os.Spawn Charmm.em_mdrun_cmd;
          Os.Exit Charmm.em_mdrun_cmd (Os.returncode (fst r2));
          Os.Display (Os.stdout (fst r2)) (Os.stderr (fst r2));
          Os.Spawn Charmm.npt_grompp_cmd;
          Os.Exit Charmm.npt_grompp_cmd (Os.returncode (fst r3));
          Os.Display (Os.stdout (fst r3)) (Os.stderr (fst r3));
          Os.Spawn Charmm.npt_mdrun_cmd;
          Os.Exit Charmm.npt_mdrun_cmd (Os.returncode (fst r4));
          Os.Display (Os.stdout (fst r4)) (Os.stderr (fst r4)) ])%list.
Proof.
  intros g m r1 r2 r3 r4. split.
  - rewrite EngineFacts.run_gromacs_trace. reflexivity.
  - rewrite EngineFacts.charmm_run_gromacs_trace. reflexivity.
Qed.

(** C7 fails on the code: the CHARMM-GUI notebook starts four engine
    subprocesses and writes no log file for any of them. *)
Lemma shell_escapes_write_no_log :
  List.filter Os.is_spawn (Os.trace (fst Samples.charmm_run))
  = [ Os.Spawn Charmm.em_grompp_cmd; Os.Spawn Charmm.em_mdrun_cmd;
      Os.Spawn Charmm.npt_grompp_cmd; Os.Spawn Charmm.npt_mdrun_cmd ]
  /\ List.filter Os.is_write (Os.trace (fst Samples.charmm_run)) = []
  /\ Os.files (fst Samples.charmm_run) !! "grompp.out" = None
  /\ Os.files (fst Samples.charmm_run) !! "grompp.err" = None.
Proof.
  unfold Samples.charmm_run. rewrite EngineFacts.charmm_run_gromacs_trace.
  cbn [fst snd Os.trace Os.files Samples.fresh_world app List.filter Os.is_spawn Os.is_write].
  repeat split; vm_compute; reflexivity.
Qed.

(** * Particles that carry the marker *)

(** C4.  A particle whose name begins with the underscore is resolved to a
    custom element carrying that name, whatever elemental inference would
    have made of the name or of the rest of it; and the three particles the
    propane notebook renames begin with the underscore afterwards, whatever
    they were called before, so they are resolved that way too. *)
Theorem marked_particles_are_custom
        (infer : string -> option string) (name : string)
        (cmpd : Mbuild.Compound) (p0 p1 p2 : Mbuild.Particle)
        (rest : list Mbuild.Particle) :
  Py.startswith Foyer.marker name = true ->
  Mbuild.particles (Mbuild.hierarchy cmpd) = p0 :: p1 :: p2 :: rest ->
  Foyer.resolve_element infer name = Some (Foyer.Custom name)
  /\ Forall (fun q => Py.startswith Foyer.marker (Mbuild.pname q) = true
                     /\ Foyer.resolve_element infer (Mbuild.pname q)
                        = Some (Foyer.Custom (Mbuild.pname q)))
            (firstn 3 (Mbuild.particles
                         (Mbuild.hierarchy (fst (Propane.rename_and_bond cmpd))))).
Proof.
  intros Hname Hp. split.
  - unfold Foyer.resolve_element. rewrite Hname. reflexivity.
  - destruct (PropaneFacts.rename_and_bond_runs _ _ _ _ _ Hp) as (c' & Hrun & Hp' & _).
    rewrite Hrun. cbn [fst]. rewrite Hp'. cbn [Propane.renamed app firstn].
    repeat constructor.
Qed.

(** A name that inference would read as carbon, and a propane whose beads
    are called [C]. *)
Lemma marked_particles_are_custom_witness :
  Py.startswith Foyer.marker "_C" = true
  /\ Samples.greedy_inference "_C" = Some "C"
  /\ Foyer.resolve_element Samples.greedy_inference "_C" = Some (Foyer.Custom "_C")
  /\ map Mbuild.pname
       (Mbuild.particles
          (Mbuild.hierarchy (fst (Propane.rename_and_bond Samples.elemental_propane))))
     = ["_"; "_C"; "_"].
Proof.
  pose proof (marked_particles_are_custom Samples.greedy_inference "_C"
                Samples.elemental_propane _ _ _ _ eq_refl eq_refl) as [H _].
  split; [reflexivity|]. split; [reflexivity|]. split; [exact H | reflexivity].
Defined.

(** * Topology and coordinates of the ethane box *)

Module CharmmFacts.
Import Mbuild MbuildFacts.

Lemma hierarchy_fold_add_bond (bonds : list (nat * nat)) :
  forall c, hierarchy (fold_left (fun acc e => add_bond e acc) bonds c) = hierarchy c.
Proof.
  induction bonds as [|e l IHl]; intros c; [reflexivity|].
  cbn [fold_left]. rewrite IHl. apply hierarchy_add_bond.
Qed.

Lemma hierarchy_load atoms bonds :
  forall c n p cs ls,
    hierarchy c = Node n p cs ls ->
    hierarchy (load atoms bonds c) = Node n p (cs ++ map leaf atoms) ls.
Proof.
  intros c n p cs ls H. unfold load. rewrite hierarchy_fold_add_bond.
  revert c cs H. induction atoms as [|a l IHl]; intros c cs H; cbn [fold_left map].
  - rewrite app_nil_r. exact H.
  - rewrite (IHl _ (cs ++ [leaf a])%list).
    + rewrite <- app_assoc. reflexivity.
    + unfold add. rewrite H. reflexivity.
Qed.


(** Repeated [add] of one compound. *)
Lemma hierarchy_fold_add_same {A} (child : Compound) (l : list A) :
  forall parent n p cs ls,
    hierarchy parent = Node n p cs ls ->
    hierarchy (fold_left (fun acc _ => add child acc) l parent)
    = Node n p (cs ++ repeat (hierarchy child) (length l)) ls.
Proof.
  induction l as [|a l IHl]; intros parent n p cs ls H; cbn [fold_left length repeat].
  - rewrite app_nil_r. exact H.
  - rewrite (IHl _ n p (cs ++ [hierarchy child])%list ls).
    + rewrite <- app_assoc. reflexivity.
    + unfold add. rewrite H. reflexivity.
Qed.

(** Residues depend on names and shape only. *)
Lemma residues_under_update_leaves rs f c :
  (forall k q, pname (f k q) = pname q) ->
  forall start, residues_under rs (update_leaves f start c) = residues_under rs c.
Proof.
  intros Hf. induction c as [n p cs ls IH] using Cmpd_nested_ind. intros start.
  destruct cs as [|c0 cs0].
  - cbn. rewrite Hf. reflexivity.
  - change (update_leaves f start (Node n p (c0 :: cs0) ls))
      with (Node n p (update_siblings (update_leaves f) start (c0 :: cs0)) ls).
    assert (E : map (residues_under rs)
                    (update_siblings (update_leaves f) start (c0 :: cs0))
                = map (residues_under rs) (c0 :: cs0)).
    { revert start. induction IH as [|c l Hc _ IHl]; intros start; [reflexivity|].
      cbn [update_siblings map]. rewrite Hc, IHl. reflexivity. }
    cbn [update_siblings] in E |- *. cbn [residues_under]. 
    cbn [map] in E. cbn [map]. 
    injection E as E1 E2. rewrite E1.
    change ((fix map (l : list Cmpd) : list (list string * nat) :=
               match l with
               | [] => []
               | a :: l0 => residues_under rs a :: map l0
               end)) with (map (residues_under rs)).
    rewrite E2. reflexivity.
Qed.

Lemma residues_under_node rs n p c cs ls :
  residues_under rs (Node n p (c :: cs) ls)
  = let inner := gather (map (residues_under rs) (c :: cs)) in
    if name_in rs n
    then match snd inner with
         | O => inner
         | S _ => (n :: fst inner, 0%nat)
         end
    else inner.
Proof. reflexivity. Qed.

Lemma gather_leaves rs atoms :
  (forall a, In a atoms -> name_in rs (pname a) = false) ->
  gather (map (residues_under rs) (map leaf atoms)) = ([], length atoms).
Proof.
  induction atoms as [|a l IHl]; intros H; [reflexivity|].
  cbn [map gather fold_right]. fold (gather (map (residues_under rs) (map leaf l))).
  rewrite IHl by (intros b Hb; apply H; right; exact Hb).
  cbn [leaf residues_under]. rewrite (H a) by (left; reflexivity). reflexivity.
Qed.

Lemma gather_repeat r k :
  gather (repeat ([r], 0%nat) k) = (repeat r k, 0%nat).
Proof.
  induction k as [|k IHk]; [reflexivity|].
  cbn [repeat gather fold_right]. fold (gather (repeat ([r], 0%nat) k)).
  rewrite IHk. reflexivity.
Qed.


Lemma length_particles_repeat c k :
  length (flat_map particles (repeat c k)) = (k * n_particles c)%nat.
Proof.
  rewrite (length_flat_map_const _ _ (n_particles c)).
  - rewrite repeat_length. reflexivity.
  - intros a Ha. apply repeat_spec in Ha. subst a. reflexivity.
Qed.

Lemma gro_residues_hierarchy rs c c' :
  hierarchy c = hierarchy c' -> gro_residues rs c = gro_residues rs c'.
Proof. intros H. unfold gro_residues. rewrite H. reflexivity. Qed.

Lemma gro_residues_update_coordinates rs coords c :
  gro_residues rs (update_coordinates coords c) = gro_residues rs c.
Proof.
  unfold gro_residues, update_coordinates. cbn [hierarchy].
  rewrite residues_under_update_leaves by reflexivity. reflexivity.
Qed.

Lemma n_particles_node_repeat n p c k ls :
  n_particles (Node n p (repeat c (S k)) ls) = (S k * n_particles c)%nat.
Proof.
  unfold n_particles at 1. cbn [repeat]. rewrite particles_node.
  change (c :: repeat c k) with (repeat c (S k)).
  apply length_particles_repeat.
Qed.


End CharmmFacts.

(** * Accumulating the radial distribution function *)

Module FreudFacts.
Import Freud.

Lemma count_in_cons_0 x (l : list N) : count_in 0 (x :: l) = (x + 1)%N :: l.
Proof. reflexivity. Qed.

Lemma count_in_cons_S b x (l : list N) :
  count_in (S b) (x :: l) = x :: count_in b l.
Proof. unfold count_in. cbn. destruct (l !! b); reflexivity. Qed.

Lemma length_count_in b (l : list N) : length (count_in b l) = length l.
Proof. unfold count_in. destruct (l !! b); [apply length_insert | reflexivity]. Qed.

(** Counting a hit commutes with adding an earlier histogram. *)
Lemma count_in_add_counts (a : list N) :
  forall c b, length a = length c ->
              count_in b (add_counts a c) = add_counts a (count_in b c).
Proof.
  induction a as [|x a IHa]; intros [|y c] b Hlen; try discriminate Hlen.
  - reflexivity.
  - injection Hlen as Hlen. destruct b as [|b].
    + cbn. rewrite N.add_assoc. reflexivity.
    + change (add_counts (x :: a) (y :: c)) with ((x + y)%N :: add_counts a c).
      rewrite !count_in_cons_S.
      change (add_counts (x :: a) (y :: count_in b c))
        with ((x + y)%N :: add_counts a (count_in b c)).
      rewrite IHa by exact Hlen. reflexivity.
Qed.

Lemma fold_count_in_add_counts (hits : list nat) :
  forall a c, length a = length c ->
    fold_left (fun counts b => count_in b counts) hits (add_counts a c)
    = add_counts a (fold_left (fun counts b => count_in b counts) hits c).
Proof.
  induction hits as [|b hits IH]; intros a c Hlen; [reflexivity|].
  cbn [fold_left]. rewrite count_in_add_counts by exact Hlen.
  apply IH. rewrite length_count_in. exact Hlen.
Qed.

Lemma add_counts_zeros (a : list N) : add_counts a (repeat 0%N (length a)) = a.
Proof.
  induction a as [|x a IHa]; [reflexivity|].
  cbn [length repeat]. change (add_counts (x :: a) (0%N :: repeat 0%N (length a)))
    with ((x + 0)%N :: add_counts a (repeat 0%N (length a))).
  rewrite IHa, N.add_0_r. reflexivity.
Qed.

Lemma length_histogram n hits : length (histogram n hits) = n.
Proof.
  unfold histogram. generalize (repeat 0%N n) (repeat_length 0%N n).
  induction hits as [|b hits IH]; intros l Hl; [exact Hl|].
  cbn [fold_left]. apply IH. rewrite length_count_in. exact Hl.
Qed.

(** Adding a histogram changes nothing exactly when it is empty. *)
Lemma add_counts_same (a : list N) :
  forall h, length a = length h ->
            (add_counts a h = h <-> a = repeat 0%N (length a)).
Proof.
  induction a as [|x a IHa]; intros [|y h] Hlen; try discriminate Hlen.
  - split; reflexivity.
  - injection Hlen as Hlen.
    change (add_counts (x :: a) (y :: h)) with ((x + y)%N :: add_counts a h).
    cbn [length repeat]. specialize (IHa h Hlen). split; intros H.
    + injection H as Hx Ha. f_equal; [lia | apply IHa, Ha].
    + injection H as Hx Ha. f_equal; [lia | apply IHa, Ha].
Qed.

Section Binning.
Variable bin_of : nat -> Q -> Box -> Mbuild.Pos -> Mbuild.Pos -> option nat.

Lemma well_formed_new n rmax : well_formed (new_RDF n rmax).
Proof. apply repeat_length. Qed.

(** Without a reset, [compute] adds the frame's own histogram to what
    the object already holds. *)
Lemma compute_accumulates system r :
  well_formed r ->
  bin_counts (compute bin_of system false r)
  = add_counts (bin_counts r) (frame_counts bin_of r system)
  /\ well_formed (compute bin_of system false r)
  /\ frame_counter (compute bin_of system false r) = S (frame_counter r).
Proof.
  intros Hwf. unfold well_formed in *.
  assert (H : bin_counts (compute bin_of system false r)
              = add_counts (bin_counts r) (frame_counts bin_of r system)).
  { unfold compute, accumulate, frame_counts.
    cbn [bin_counts bins frame_counter]. unfold histogram.
    rewrite <- (add_counts_zeros (bin_counts r)) at 1.
    rewrite Hwf, fold_count_in_add_counts by (rewrite repeat_length; exact Hwf).
    reflexivity. }
  split; [exact H|]. split; [|reflexivity].
  rewrite H. unfold add_counts, frame_counts.
  rewrite length_zip_with, length_histogram.
  change (bins (compute bin_of system false r)) with (bins r). lia.
Qed.

(** With a reset, [compute] leaves the frame's own histogram. *)
Lemma compute_resets system r :
  bin_counts (compute bin_of system true r) = frame_counts bin_of r system.
Proof. reflexivity. Qed.

End Binning.

End FreudFacts.

Module HoomdAnalysis.
Import Freud FreudFacts.

Lemma bind_pure {S A B} (m : Py.cell S A) (k : A -> Py.cell S B) r :
  (forall s, m s = (s, r)) ->
  forall s, (m ≫= k) s = match r with inl a => k a s | inr e => (s, inr e) end.
Proof.
  intros H s. unfold mbind, cell_bind, Py.bind. rewrite H. reflexivity.
Qed.

(** Selecting the particles of a type reads the frame only. *)
Lemma get_ids_pure {S} frame typename :
  exists r, forall s : S, Hoomd.get_ids frame typename s = (s, r).
Proof.
  unfold Hoomd.get_ids. destruct (Hoomd.list_index _ _); eexists; reflexivity.
Qed.

Lemma take_rows_pure {S} rows ids :
  exists r, forall s : S, Hoomd.take_rows rows ids s = (s, r).
Proof.
  induction ids as [|i ids [r IH]]; [eexists; reflexivity|].
  cbn [Hoomd.take_rows].
  assert (Hi : exists ri, forall s : S, Py.index rows i s = (s, ri)).
  { unfold Py.index. destruct (nth_error rows i); eexists; reflexivity. }
  destruct Hi as [ri Hi].
  destruct ri as [row|e].
  - destruct r as [rs|e].
    + exists (inl (row :: rs)). intros s.
      rewrite (bind_pure _ _ _ Hi), (bind_pure _ _ _ IH). reflexivity.
    + exists (inr e). intros s.
      rewrite (bind_pure _ _ _ Hi), (bind_pure _ _ _ IH). reflexivity.
  - exists (inr e). intros s. rewrite (bind_pure _ _ _ Hi). reflexivity.
Qed.

Section Binning.
Variable bin_of : nat -> Q -> Box -> Mbuild.Pos -> Mbuild.Pos -> option nat.

(** A loop body that runs to its end does, from any state and under
    either reset policy, three [compute] calls on position arrays
    that the frame alone decides. *)
Lemma frame_body_runs reset_ frame s s' :
  Hoomd.frame_body bin_of reset_ frame s = (s', inl tt) ->
  exists ch3 ch4 oh,
    forall reset' t,
      Hoomd.frame_body bin_of reset' frame t
      = (Hoomd.mkRdfs
           (compute bin_of (Hoomd.box frame, ch3) reset' (Hoomd.ch3_ch3_rdf t))
           (compute bin_of (Hoomd.box frame, ch4) reset' (Hoomd.ch4_ch4_rdf t))
           (compute bin_of (Hoomd.box frame, oh) reset' (Hoomd.oh_oh_rdf t))
           (Hoomd.ch3_ch4_rdf t) (Hoomd.ch3_oh_rdf t) (Hoomd.ch4_oh_rdf t),
         inl tt).
Proof.
  unfold Hoomd.frame_body.
  destruct (@get_ids_pure Hoomd.rdfs frame "CH3") as [[i3|e] H3];
    rewrite (bind_pure _ _ _ H3); [|discriminate].
  destruct (@get_ids_pure Hoomd.rdfs frame "CH4") as [[i4|e] H4];
    rewrite (bind_pure _ _ _ H4); [|discriminate].
  destruct (@get_ids_pure Hoomd.rdfs frame "OH") as [[io|e] Ho];
    rewrite (bind_pure _ _ _ Ho); [|discriminate].
  destruct (@take_rows_pure Hoomd.rdfs (Hoomd.position frame) i3) as [[p3|e] P3];
    rewrite (bind_pure _ _ _ P3); [|discriminate].
  destruct (@take_rows_pure Hoomd.rdfs (Hoomd.position frame) i4) as [[p4|e] P4];
    rewrite (bind_pure _ _ _ P4); [|discriminate].
  destruct (@take_rows_pure Hoomd.rdfs (Hoomd.position frame) io) as [[po|e] Po];
    rewrite (bind_pure _ _ _ Po); [|discriminate].
  intros _. exists p3, p4, po. intros reset' t.
  rewrite (bind_pure _ _ _ H3), (bind_pure _ _ _ H4), (bind_pure _ _ _ Ho),
    (bind_pure _ _ _ P3), (bind_pure _ _ _ P4), (bind_pure _ _ _ Po).
  reflexivity.
Qed.

Lemma sums_frames_compute sys1 sys2 :
  let fresh := new_RDF Hoomd.n_bins Hoomd.r_max in
  Hoomd.sums_frames (compute bin_of sys2 false (compute bin_of sys1 false fresh))
                    (compute bin_of sys1 false fresh)
                    (compute bin_of sys2 false fresh).
Proof.
  intros fresh.
  destruct (compute_accumulates bin_of sys1 fresh (well_formed_new _ _))
    as (H1 & Hwf1 & _).
  destruct (compute_accumulates bin_of sys2 fresh (well_formed_new _ _))
    as (H2 & Hwf2 & _).
  destruct (compute_accumulates bin_of sys2 _ Hwf1) as (H12 & _ & _).
  assert (E2 : bin_counts (compute bin_of sys2 false fresh)
               = frame_counts bin_of fresh sys2).
  { rewrite H2. unfold fresh at 1. cbn [bin_counts new_RDF].
    unfold add_counts, frame_counts.
    generalize (length_histogram (bins fresh)
                  (pair_bins bin_of fresh (fst sys2) (snd sys2))).
    generalize (histogram (bins fresh) (pair_bins bin_of fresh (fst sys2) (snd sys2))).
    change (bins fresh) with Hoomd.n_bins.
    generalize Hoomd.n_bins. intros n l. revert n.
    induction l as [|x l IHl]; intros [|n] Hl; try discriminate Hl; [reflexivity|].
    cbn. f_equal. apply IHl. injection Hl as Hl. exact Hl. }
  unfold Hoomd.sums_frames. rewrite H12.
  change (frame_counts bin_of (compute bin_of sys1 false fresh) sys2)
    with (frame_counts bin_of fresh sys2).
  rewrite E2. split; [reflexivity|].
  unfold well_formed in Hwf1.
  change (bins (compute bin_of sys1 false fresh)) with Hoomd.n_bins in Hwf1.
  pose proof (add_counts_same (bin_counts (compute bin_of sys1 false fresh))
                (frame_counts bin_of fresh sys2)) as Hs.
  rewrite Hwf1 in Hs. apply Hs.
  unfold frame_counts. rewrite length_histogram. reflexivity.
Qed.

End Binning.

End HoomdAnalysis.

(** C6, as the code has it.  With [reset=False] the accumulator persists
    across frames: after two frames each histogram is the bin-wise sum of
    what the two frames give on their own, and the object has counted two
    frames; the accumulated histogram
    differs from the final frame's own histogram exactly when the first
    frame put a count in some bin.  With a reset per frame only the final
    frame's histogram would be left. *)
Theorem rdf_accumulates_across_frames
        (bin_of : nat -> Q -> Freud.Box -> Mbuild.Pos -> Mbuild.Pos -> option nat)
        (f1 f2 : Hoomd.Frame) (s1 s2 : Hoomd.rdfs) :
  Hoomd.analyse bin_of [f1] = (s1, inl tt) ->
  Hoomd.analyse bin_of [f2] = (s2, inl tt) ->
  exists s12 sreset,
    Hoomd.analyse bin_of [f1; f2] = (s12, inl tt)
    /\ Hoomd.for_frames bin_of true [f1; f2] Hoomd.initial_rdfs = (sreset, inl tt)
    /\ Hoomd.sums_frames (Hoomd.ch3_ch3_rdf s12) (Hoomd.ch3_ch3_rdf s1) (Hoomd.ch3_ch3_rdf s2)
    /\ Hoomd.sums_frames (Hoomd.ch4_ch4_rdf s12) (Hoomd.ch4_ch4_rdf s1) (Hoomd.ch4_ch4_rdf s2)
    /\ Hoomd.sums_frames (Hoomd.oh_oh_rdf s12) (Hoomd.oh_oh_rdf s1) (Hoomd.oh_oh_rdf s2)
    /\ Freud.frame_counter (Hoomd.ch3_ch3_rdf s12) = 2%nat
    /\ Freud.bin_counts (Hoomd.ch3_ch3_rdf sreset) = Freud.bin_counts (Hoomd.ch3_ch3_rdf s2)
    /\ Freud.bin_counts (Hoomd.ch4_ch4_rdf sreset) = Freud.bin_counts (Hoomd.ch4_ch4_rdf s2)
    /\ Freud.bin_counts (Hoomd.oh_oh_rdf sreset) = Freud.bin_counts (Hoomd.oh_oh_rdf s2).
Proof.
  unfold Hoomd.analyse. cbn [Hoomd.for_frames]. intros H1 H2.
  assert (R1 : exists t, Hoomd.frame_body bin_of false f1 Hoomd.initial_rdfs = (t, inl tt)).
  { revert H1. unfold mbind, cell_bind, Py.bind.
    destruct (Hoomd.frame_body bin_of false f1 Hoomd.initial_rdfs) as [t [[]|e]];
      [eexists; reflexivity | discriminate]. }
  assert (R2 : exists t, Hoomd.frame_body bin_of false f2 Hoomd.initial_rdfs = (t, inl tt)).
  { revert H2. unfold mbind, cell_bind, Py.bind.
    destruct (Hoomd.frame_body bin_of false f2 Hoomd.initial_rdfs) as [t [[]|e]];
      [eexists; reflexivity | discriminate]. }
  destruct R1 as [t1 R1]. destruct R2 as [t2 R2].
  destruct (HoomdAnalysis.frame_body_runs bin_of _ _ _ _ R1) as (a3 & a4 & ao & B1).
  destruct (HoomdAnalysis.frame_body_runs bin_of _ _ _ _ R2) as (b3 & b4 & bo & B2).
  rewrite (EngineFacts.bind_run _ _ _ _ _ (B1 false _)) in H1.
  rewrite (EngineFacts.bind_run _ _ _ _ _ (B2 false _)) in H2.
  injection H1 as <-. injection H2 as <-.
  do 2 eexists.
  rewrite (EngineFacts.bind_run _ _ _ _ _ (B1 false _)).
  rewrite (EngineFacts.bind_run _ _ _ _ _ (B2 false _)).
  rewrite (EngineFacts.bind_run _ _ _ _ _ (B1 true _)).
  rewrite (EngineFacts.bind_run _ _ _ _ _ (B2 true _)).
  split; [reflexivity|]. split; [reflexivity|].
  cbn [Hoomd.ch3_ch3_rdf Hoomd.ch4_ch4_rdf Hoomd.oh_oh_rdf Hoomd.initial_rdfs].
  split; [apply HoomdAnalysis.sums_frames_compute|].
  split; [apply HoomdAnalysis.sums_frames_compute|].
  split; [apply HoomdAnalysis.sums_frames_compute|].
  repeat split.
Qed.

(** Two frames that both put counts in a bin: the accumulated histogram is
    not that of the final frame. *)
Lemma rdf_accumulates_across_frames_witness :
  Hoomd.analyse Freud.bin_of_orthorhombic [Samples.near_frame]
  = (fst Samples.near_alone, inl tt)
  /\ exists s12,
      Samples.near_twice = (s12, inl tt)
      /\ Hoomd.sums_frames (Hoomd.ch3_ch3_rdf s12)
                           (Hoomd.ch3_ch3_rdf (fst Samples.near_alone))
                           (Hoomd.ch3_ch3_rdf (fst Samples.near_alone))
      /\ Freud.bin_counts (Hoomd.ch3_ch3_rdf s12)
         <> Freud.bin_counts (Hoomd.ch3_ch3_rdf (fst Samples.near_alone)).
Proof.
  assert (Hs : Hoomd.analyse Freud.bin_of_orthorhombic [Samples.near_frame]
               = (fst Samples.near_alone, inl tt))
    by (vm_compute; reflexivity).
  split; [exact Hs|].
  destruct (rdf_accumulates_across_frames Freud.bin_of_orthorhombic
              Samples.near_frame Samples.near_frame _ _ Hs Hs)
    as (s12 & sreset & H12 & _ & H3 & _).
  exists s12. split; [exact H12|]. split; [exact H3|].
  destruct H3 as [_ Hiff]. intros Heq. apply Hiff in Heq.
  vm_compute in Heq. discriminate Heq.
Defined.

(** C6 fails on the code as a statement about every trajectory: when no two
    like beads of the first frame are within [r_max], two accumulated frames
    leave the very histograms of the final frame alone. *)
Lemma accumulated_can_equal_final_frame :
  snd Samples.far_then_near = inl tt /\ snd Samples.near_alone = inl tt
  /\ Freud.frame_counter (Hoomd.ch3_ch3_rdf (fst Samples.far_then_near)) = 2%nat
  /\ Freud.bin_counts (Hoomd.ch3_ch3_rdf (fst Samples.far_then_near))
     = Freud.bin_counts (Hoomd.ch3_ch3_rdf (fst Samples.near_alone))
  /\ Freud.bin_counts (Hoomd.ch4_ch4_rdf (fst Samples.far_then_near))
     = Freud.bin_counts (Hoomd.ch4_ch4_rdf (fst Samples.near_alone))
  /\ Freud.bin_counts (Hoomd.oh_oh_rdf (fst Samples.far_then_near))
     = Freud.bin_counts (Hoomd.oh_oh_rdf (fst Samples.near_alone))
  /\ Freud.bin_counts (Hoomd.ch3_ch3_rdf (fst Samples.near_alone))
     <> repeat 0%N Hoomd.n_bins.
Proof.
  vm_compute. repeat split. discriminate.
Qed.

(** * Further properties of the cells *)

(** ** The rename-and-bond cell at its edges *)

Module EditCell.
Import Mbuild MbuildFacts PropaneFacts.

Ltac run_edit :=
  unfold Propane.rename_and_bond, Propane.particle, mbind, cell_bind,
    Py.bind, Py.get, Py.index, Py.modify, Py.ret, Py.raise.

Lemma rename_and_bond_none c :
  particles (hierarchy c) = [] ->
  Propane.rename_and_bond c = (c, inr Py.IndexError).
Proof. intros H. run_edit. rewrite H. reflexivity. Qed.

Lemma rename_and_bond_one c p0 :
  particles (hierarchy c) = [p0] ->
  Propane.rename_and_bond c
  = (set_name 0 ("_" +:+ Py.slice_from_1 (pname p0)) c, inr Py.IndexError).
Proof.
  intros H. run_edit. rewrite H. cbn [nth_error].
  rewrite particles_set_name, H. reflexivity.
Qed.

Lemma rename_and_bond_two c p0 p1 :
  particles (hierarchy c) = [p0; p1] ->
  Propane.rename_and_bond c
  = (set_name 1 ("_" +:+ pname p1)
       (set_name 0 ("_" +:+ Py.slice_from_1 (pname p0)) c),
     inr Py.IndexError).
Proof.
  intros H. run_edit. rewrite H. cbn [nth_error].
  rewrite particles_set_name, H. cbn [imap nth_error Nat.eqb ppos].
  rewrite !particles_set_name, H. reflexivity.
Qed.

(** [add_bond] never loses an edge and always leaves the edge it was
    given. *)
Lemma has_edge_app g1 g2 e :
  has_edge (g1 ++ g2) e = has_edge g1 e || has_edge g2 e.
Proof. unfold has_edge. apply existsb_app. Qed.

Lemma same_edge_refl e : same_edge e e = true.
Proof. unfold same_edge. rewrite !Nat.eqb_refl. reflexivity. Qed.

Lemma has_edge_add_bond e c : has_edge (bond_graph (add_bond e c)) e = true.
Proof.
  unfold add_bond. destruct (has_edge (bond_graph c) e) eqn:E; [exact E|].
  cbn [bond_graph]. rewrite has_edge_app. cbn. rewrite same_edge_refl.
  apply orb_true_r.
Qed.

Lemma has_edge_add_bond_mono e e' c :
  has_edge (bond_graph c) e' = true ->
  has_edge (bond_graph (add_bond e c)) e' = true.
Proof.
  intros H. unfold add_bond. destruct (has_edge (bond_graph c) e); [exact H|].
  cbn [bond_graph]. rewrite has_edge_app, H. reflexivity.
Qed.

Lemma add_bond_present e c :
  has_edge (bond_graph c) e = true -> add_bond e c = c.
Proof. intros H. unfold add_bond. rewrite H. reflexivity. Qed.

(** What two [add_bond] calls append to a bond graph. *)
Lemma bond_graph_two_bonds e1 e2 c :
  exists extra,
    bond_graph (add_bond e2 (add_bond e1 c)) = (bond_graph c ++ extra)%list
    /\ (length extra <= 2)%nat.
Proof.
  unfold add_bond.
  destruct (has_edge (bond_graph c) e1); cbn [bond_graph];
    destruct (has_edge _ e2); cbn [bond_graph].
  - exists []. rewrite app_nil_r. split; [reflexivity | simpl; lia].
  - exists [e2]. split; [reflexivity | simpl; lia].
  - exists [e1]. split; [reflexivity | simpl; lia].
  - exists [e1; e2]. rewrite <- app_assoc. split; [reflexivity | simpl; lia].
Qed.

End EditCell.

(** X1.  The rename-and-bond cell runs to its end exactly when the compound
    has at least three particles; with fewer it raises [IndexError] at the
    first missing particle, and then no bond has been added. *)
Theorem edit_cell_needs_three_particles (cmpd : Mbuild.Compound) :
  if (3 <=? Mbuild.n_particles (Mbuild.hierarchy cmpd))%nat
  then snd (Propane.rename_and_bond cmpd) = inl tt
  else snd (Propane.rename_and_bond cmpd) = inr Py.IndexError
       /\ Mbuild.bond_graph (fst (Propane.rename_and_bond cmpd))
          = Mbuild.bond_graph cmpd.
Proof.
  unfold Mbuild.n_particles.
  destruct (Mbuild.particles (Mbuild.hierarchy cmpd))
    as [|p0 [|p1 [|p2 rest]]] eqn:Hp; cbn [length Nat.leb].
  - rewrite (EditCell.rename_and_bond_none _ Hp). split; reflexivity.
  - rewrite (EditCell.rename_and_bond_one _ _ Hp). split; reflexivity.
  - rewrite (EditCell.rename_and_bond_two _ _ _ Hp). split; reflexivity.
  - destruct (PropaneFacts.rename_and_bond_runs _ _ _ _ _ Hp) as (c' & Hrun & _).
    rewrite Hrun. reflexivity.
Qed.

(** X2.  Running the cell a second time is not neutral: the bond graph and
    the names of the first and third particle stay as the first run left
    them, but the second particle gets one more underscore in front. *)
Theorem edit_cell_run_twice
        (cmpd : Mbuild.Compound) (p0 p1 p2 : Mbuild.Particle)
        (rest : list Mbuild.Particle) :
  Mbuild.particles (Mbuild.hierarchy cmpd) = p0 :: p1 :: p2 :: rest ->
  let once := fst (Propane.rename_and_bond cmpd) in
  let twice := Propane.rename_and_bond once in
  snd twice = inl tt
  /\ Mbuild.bond_graph (fst twice) = Mbuild.bond_graph once
  /\ Mbuild.xyz (fst twice) = Mbuild.xyz once
  /\ map Mbuild.pname (Mbuild.particles (Mbuild.hierarchy once))
     = ("_" +:+ Py.slice_from_1 (Mbuild.pname p0))
         :: ("_" +:+ Mbuild.pname p1)
         :: ("_" +:+ Py.slice_from_1 (Mbuild.pname p2))
         :: map Mbuild.pname rest
  /\ map Mbuild.pname (Mbuild.particles (Mbuild.hierarchy (fst twice)))
     = ("_" +:+ Py.slice_from_1 (Mbuild.pname p0))
         :: ("__" +:+ Mbuild.pname p1)
         :: ("_" +:+ Py.slice_from_1 (Mbuild.pname p2))
         :: map Mbuild.pname rest.
Proof.
  intros Hp once twice.
  destruct (PropaneFacts.rename_and_bond_runs _ _ _ _ _ Hp) as (c1 & Hrun1 & Hp1 & Hg1).
  assert (Honce : once = c1) by (unfold once; rewrite Hrun1; reflexivity).
  cbn [Propane.renamed app] in Hp1.
  destruct (PropaneFacts.rename_and_bond_runs _ _ _ _ _ Hp1) as (c2 & Hrun2 & Hp2 & Hg2).
  unfold twice. rewrite Honce, Hrun2. cbn [fst snd].
  split; [reflexivity|]. split; [|split; [|split]].
  - rewrite Hg2, Hg1.
    rewrite (EditCell.add_bond_present (0, 1)%nat c1).
    + rewrite (EditCell.add_bond_present (1, 2)%nat c1); [exact Hg1|].
      rewrite Hg1. apply EditCell.has_edge_add_bond.
    + rewrite Hg1. apply EditCell.has_edge_add_bond_mono, EditCell.has_edge_add_bond.
  - unfold Mbuild.xyz. rewrite Hp2, Hp1. reflexivity.
  - rewrite Hp1. reflexivity.
  - rewrite Hp2. reflexivity.
Qed.

(** A propane whose beads are called [CH3], [CH2], [CH3]: after one run
    the middle bead is [_CH2], after two it is [__CH2]. *)
Lemma edit_cell_run_twice_witness :
  Mbuild.particles (Mbuild.hierarchy Samples.propane)
  = [ Mbuild.mkParticle "CH3" (Mbuild.mkPos 0 0 0);
      Mbuild.mkParticle "CH2" (Mbuild.mkPos 0.154 0 0);
      Mbuild.mkParticle "CH3" (Mbuild.mkPos 0.2 0.14 0) ]
  /\ map Mbuild.pname
       (Mbuild.particles
          (Mbuild.hierarchy
             (fst (Propane.rename_and_bond
                     (fst (Propane.rename_and_bond Samples.propane))))))
     = ["_H3"; "__CH2"; "_H3"].
Proof.
  split; [reflexivity|].
  destruct (edit_cell_run_twice Samples.propane _ _ _ _ eq_refl)
    as (_ & _ & _ & _ & H).
  exact H.
Defined.

(** X3.  The cell only ever appends to the bond graph: the bonds the
    compound had are kept in their order, at most two are added, and when
    the cell runs to its end the bonds 0-1 and 1-2 are both present,
    whether they were there before or not. *)
Theorem edit_cell_bond_graph (cmpd : Mbuild.Compound) :
  exists extra,
    Mbuild.bond_graph (fst (Propane.rename_and_bond cmpd))
    = (Mbuild.bond_graph cmpd ++ extra)%list
    /\ (length extra <= 2)%nat
    /\ (if (3 <=? Mbuild.n_particles (Mbuild.hierarchy cmpd))%nat
        then Mbuild.has_edge (Mbuild.bond_graph (fst (Propane.rename_and_bond cmpd)))
                             (0, 1)%nat = true
             /\ Mbuild.has_edge (Mbuild.bond_graph (fst (Propane.rename_and_bond cmpd)))
                                (1, 2)%nat = true
        else extra = []).
Proof.
  unfold Mbuild.n_particles.
  destruct (Mbuild.particles (Mbuild.hierarchy cmpd))
    as [|p0 [|p1 [|p2 rest]]] eqn:Hp; cbn [length Nat.leb].
  - rewrite (EditCell.rename_and_bond_none _ Hp). exists [].
    rewrite app_nil_r. repeat split. simpl; lia.
  - rewrite (EditCell.rename_and_bond_one _ _ Hp). exists [].
    rewrite app_nil_r. repeat split. simpl; lia.
  - rewrite (EditCell.rename_and_bond_two _ _ _ Hp). exists [].
    rewrite app_nil_r. repeat split. simpl; lia.
  - destruct (PropaneFacts.rename_and_bond_runs _ _ _ _ _ Hp) as (c' & Hrun & _ & Hg).
    rewrite Hrun. cbn [fst]. rewrite Hg.
    destruct (EditCell.bond_graph_two_bonds (0, 1)%nat (1, 2)%nat cmpd)
      as (extra & He & Hl).
    exists extra. split; [exact He|]. split; [exact Hl|]. split.
    + apply EditCell.has_edge_add_bond_mono, EditCell.has_edge_add_bond.
    + apply EditCell.has_edge_add_bond.
Qed.

(** ** Packing a box *)

Module PackingFacts.
Import Mbuild MbuildFacts.

Lemma n_bonds_fold_add_same {A} (child : Compound) (l : list A) :
  forall parent,
    n_bonds (fold_left (fun acc _ => add child acc) l parent)
    = (n_bonds parent + length l * n_bonds child)%nat.
Proof.
  induction l as [|a l IHl]; intros parent; cbn [fold_left length].
  - lia.
  - rewrite IHl, n_bonds_add. lia.
Qed.

Lemma hierarchy_filled compound n :
  hierarchy (Packing.filled compound n)
  = Node "Compound" origin (repeat (hierarchy compound) n) [].
Proof.
  unfold Packing.filled, clone.
  rewrite (CharmmFacts.hierarchy_fold_add_same _ _ _ "Compound" origin [] [])
    by reflexivity.
  rewrite length_seq. reflexivity.
Qed.

Lemma particles_filled compound n :
  particles (hierarchy (Packing.filled compound (S n)))
  = flat_map particles (repeat (hierarchy compound) (S n)).
Proof. rewrite hierarchy_filled. reflexivity. Qed.

Lemma flat_map_repeat {A B} (f : A -> list B) x n :
  flat_map f (repeat x n) = concat (repeat (f x) n).
Proof.
  induction n as [|n IHn]; [reflexivity|].
  cbn [repeat flat_map concat]. rewrite IHn. reflexivity.
Qed.

Lemma map_concat_repeat {A B} (g : A -> B) (l : list A) n :
  map g (concat (repeat l n)) = concat (repeat (map g l) n).
Proof.
  induction n as [|n IHn]; [reflexivity|].
  cbn [repeat concat]. rewrite map_app, IHn. reflexivity.
Qed.

(** New coordinates replace the positions row by row and leave the names. *)
Lemma particles_update_coordinates coords c :
  particles (hierarchy (update_coordinates coords c))
  = imap (fun k p => mkParticle (pname p) (nth k coords (ppos p)))
         (particles (hierarchy c)).
Proof. unfold update_coordinates. cbn [hierarchy]. apply particles_update_leaves. Qed.

Lemma names_after_coordinates (l : list Particle) :
  forall coords,
    map pname (imap (fun k p => mkParticle (pname p) (nth k coords (ppos p))) l)
    = map pname l.
Proof.
  induction l as [|a l IHl]; intros coords; [reflexivity|].
  cbn [imap map pname]. f_equal.
  etransitivity; [|apply (IHl (tl coords))].
  f_equal. apply imap_ext.
  intros k p _. cbn. destruct coords as [|x coords]; [destruct k|]; reflexivity.
Qed.

Lemma positions_after_coordinates (l : list Particle) :
  forall coords,
    length coords = length l ->
    map ppos (imap (fun k p => mkParticle (pname p) (nth k coords (ppos p))) l)
    = coords.
Proof.
  induction l as [|a l IHl]; intros [|x coords] H; try discriminate H; [reflexivity|].
  injection H as H. cbn [imap map ppos nth]. f_equal.
  exact (IHl coords H).
Qed.

End PackingFacts.

(** ** From the PDB file to the residues of the propane box *)

Module PropaneBoxFacts.
Import Mbuild MbuildFacts PropaneFacts.

(** The value the cell leaves when it runs to its end. *)
Lemma rename_and_bond_value c p0 p1 p2 rest :
  particles (hierarchy c) = p0 :: p1 :: p2 :: rest ->
  Propane.rename_and_bond c
  = (add_bond (1, 2)%nat
       (add_bond (0, 1)%nat
          (set_name 2 ("_" +:+ Py.slice_from_1 (pname p2))
             (set_name 1 ("_" +:+ pname p1)
                (set_name 0 ("_" +:+ Py.slice_from_1 (pname p0)) c)))),
     inl tt).
Proof.
  intros H.
  set (c1 := set_name 0 ("_" +:+ Py.slice_from_1 (pname p0)) c).
  set (c2 := set_name 1 ("_" +:+ pname p1) c1).
  set (c3 := set_name 2 ("_" +:+ Py.slice_from_1 (pname p2)) c2).
  assert (H1 : particles (hierarchy c1)
               = mkParticle ("_" +:+ Py.slice_from_1 (pname p0)) (ppos p0)
                 :: p1 :: p2 :: rest).
  { unfold c1. rewrite particles_set_name, H. cbn. do 3 f_equal.
    apply imap_untouched. reflexivity. }
  assert (H2 : particles (hierarchy c2)
               = mkParticle ("_" +:+ Py.slice_from_1 (pname p0)) (ppos p0)
                 :: mkParticle ("_" +:+ pname p1) (ppos p1) :: p2 :: rest).
  { unfold c2. rewrite particles_set_name, H1. cbn. do 3 f_equal.
    apply imap_untouched. reflexivity. }
  assert (H3 : particles (hierarchy c3) = (Propane.renamed p0 p1 p2 ++ rest)%list).
  { unfold c3. rewrite particles_set_name, H2. cbn. do 3 f_equal.
    apply imap_untouched. reflexivity. }
  EditCell.run_edit.
  rewrite H. cbn [nth_error fst snd]. fold c1.
  rewrite H1. cbn [nth_error]. fold c2.
  rewrite H2. cbn [nth_error]. fold c3.
  repeat (first [rewrite hierarchy_add_bond | rewrite H3];
          cbn [nth_error Propane.renamed app]).
  reflexivity.
Qed.

(** Updating the leaves of a flat compound updates its list of atoms. *)
Lemma update_siblings_leaves f (l : list Particle) :
  forall k,
    update_siblings (update_leaves f) k (map leaf l)
    = map leaf (imap (fun j q => f (k + j)%nat q) l).
Proof.
  induction l as [|a l IHl]; intros k; [reflexivity|].
  cbn [map update_siblings imap]. f_equal.
  - cbn. rewrite Nat.add_0_r. destruct a as [n p]. cbn.
    destruct (f k _); reflexivity.
  - rewrite IHl. f_equal. apply imap_ext. intros j q _. cbn.
    f_equal. unfold n_particles. cbn. lia.
Qed.

Lemma update_leaves_flat f n p a l ls :
  update_leaves f 0 (Node n p (map leaf (a :: l)) ls)
  = Node n p (map leaf (imap (fun j q => f j q) (a :: l))) ls.
Proof.
  change (update_leaves f 0 (Node n p (map leaf (a :: l)) ls))
    with (Node n p (update_siblings (update_leaves f) 0 (map leaf (a :: l))) ls).
  rewrite update_siblings_leaves. reflexivity.
Qed.

Lemma particles_flat n p a l ls :
  particles (Node n p (map leaf (a :: l)) ls) = a :: l.
Proof.
  cbn [map]. rewrite particles_node.
  change (leaf a :: map leaf l) with (map leaf (a :: l)).
  generalize (a :: l). intros m. induction m as [|[x y] m IHm]; [reflexivity|].
  cbn. f_equal. exact IHm.
Qed.

(** A flat compound whose own name is the one listed residue and none of
    whose atoms carries that name is one residue. *)
Lemma residues_under_flat r p atoms ls :
  (forall a, In a atoms -> pname a <> r) ->
  residues_under [r] (Node r p (map leaf atoms) ls) = ([r], 0%nat).
Proof.
  intros H.
  assert (Hr : name_in [r] r = true).
  { unfold name_in. cbn [existsb]. rewrite String.eqb_refl. reflexivity. }
  destruct atoms as [|a l].
  - cbn [map residues_under]. rewrite Hr. reflexivity.
  - cbn [map]. rewrite CharmmFacts.residues_under_node.
    change (leaf a :: map leaf l) with (map leaf (a :: l)).
    rewrite CharmmFacts.gather_leaves.
    + cbv zeta. rewrite Hr. reflexivity.
    + intros b Hb. unfold name_in. cbn [existsb]. rewrite orb_false_r.
      apply String.eqb_neq. apply H, Hb.
Qed.

(** Copies of such a compound under an unlisted name: one residue each. *)
Lemma gro_residues_copies r e n p k ls bonds :
  residues_under [r] e = ([r], 0%nat) ->
  name_in [r] n = false ->
  gro_residues [r] (mkCompound (Node n p (repeat e (S k)) ls) bonds) = repeat r (S k).
Proof.
  intros He Hn. unfold gro_residues. cbn [hierarchy].
  change (repeat e (S k)) with (e :: repeat e k).
  rewrite CharmmFacts.residues_under_node.
  change (e :: repeat e k) with (repeat e (S k)).
  rewrite map_repeat, He, CharmmFacts.gather_repeat, Hn.
  cbv zeta. cbn [fst snd]. apply app_nil_r.
Qed.

Lemma hierarchy_set_name_flat i new c n p a l ls :
  hierarchy c = Node n p (map leaf (a :: l)) ls ->
  hierarchy (set_name i new c)
  = Node n p (map leaf (imap (fun k q => if (k =? i)%nat
                                         then mkParticle new (ppos q) else q)
                             (a :: l))) ls.
Proof.
  intros H. unfold set_name. cbn [hierarchy]. rewrite H.
  apply update_leaves_flat.
Qed.

(** Packing copies of a flat, residue-named compound gives one residue per
    copy. *)
Lemma fill_box_residues edited k coords r p atoms ls :
  hierarchy edited = Node r p (map leaf atoms) ls ->
  (forall a, In a atoms -> pname a <> r) ->
  name_in [r] "Compound" = false ->
  length coords = (S k * n_particles (hierarchy edited))%nat ->
  exists b,
    fill_box (Some coords) edited (S k) = inl b
    /\ gro_residues [r] b = repeat r (S k).
Proof.
  intros Hh Hatoms Hr Hlen. unfold fill_box.
  change (fold_left (fun acc _ => add (clone edited) acc) (seq 0 (S k)) (mb_Compound []))
    with (Packing.filled edited (S k)).
  assert (Hn : n_particles (hierarchy (Packing.filled edited (S k)))
               = (S k * n_particles (hierarchy edited))%nat).
  { rewrite PackingFacts.hierarchy_filled.
    apply CharmmFacts.n_particles_node_repeat. }
  rewrite Hn, Hlen, Nat.eqb_refl. eexists. split; [reflexivity|].
  rewrite CharmmFacts.gro_residues_update_coordinates.
  rewrite (CharmmFacts.gro_residues_hierarchy _ _
             (mkCompound (Node "Compound" origin (repeat (hierarchy edited) (S k)) []) []))
    by apply PackingFacts.hierarchy_filled.
  apply gro_residues_copies; [|exact Hr].
  rewrite Hh. apply residues_under_flat, Hatoms.
Qed.

End PropaneBoxFacts.

(** ** The residues of the propane structure *)

Module StructureFacts.

(** The rename-and-bond cell leaves a flat compound named [Pro] whose
    first three beads begin with an underscore: packed 100 times, it gives
    one residue [Pro] per copy. *)
Lemma structure_residues_value
      (a0 a1 a2 : Mbuild.Particle) (rest : list Mbuild.Particle)
      (coords : list Mbuild.Pos) :
  (forall a, In a rest -> Mbuild.pname a <> "Pro") ->
  length coords = (100 * (3 + length rest))%nat ->
  PropaneBox.structure_residues (a0 :: a1 :: a2 :: rest) (Some coords)
  = inl (repeat "Pro" 100).
Proof.
  intros Hrest Hlen.
  unfold PropaneBox.structure_residues, PropaneBox.box, PropaneBox.cmpd.
  set (atoms := a0 :: a1 :: a2 :: rest).
  assert (Hh : Mbuild.hierarchy
                 (Charmm.set_root_name "Pro"
                    (Mbuild.load atoms [] (Mbuild.mb_Compound [])))
               = Mbuild.Node "Pro" Mbuild.origin (map Mbuild.leaf atoms) []).
  { unfold Charmm.set_root_name.
    rewrite (CharmmFacts.hierarchy_load atoms [] _ "Compound" Mbuild.origin [] [])
      by reflexivity.
    reflexivity. }
  assert (Hp : Mbuild.particles
                 (Mbuild.hierarchy
                    (Charmm.set_root_name "Pro"
                       (Mbuild.load atoms [] (Mbuild.mb_Compound []))))
               = a0 :: a1 :: a2 :: rest).
  { rewrite Hh. apply PropaneBoxFacts.particles_flat. }
  rewrite (PropaneBoxFacts.rename_and_bond_value _ _ _ _ _ Hp).
  set (c0 := Charmm.set_root_name "Pro"
               (Mbuild.load atoms [] (Mbuild.mb_Compound []))) in *.
  set (c1 := Mbuild.set_name 0 ("_" +:+ Py.slice_from_1 (Mbuild.pname a0)) c0).
  set (c2 := Mbuild.set_name 1 ("_" +:+ Mbuild.pname a1) c1).
  set (c3 := Mbuild.set_name 2 ("_" +:+ Py.slice_from_1 (Mbuild.pname a2)) c2).
  set (edited := Mbuild.add_bond _ _).
  assert (H1 : Mbuild.hierarchy c1
               = Mbuild.Node "Pro" Mbuild.origin
                   (map Mbuild.leaf
                      (Mbuild.mkParticle ("_" +:+ Py.slice_from_1 (Mbuild.pname a0))
                                         (Mbuild.ppos a0) :: a1 :: a2 :: rest)) []).
  { unfold c1. rewrite (PropaneBoxFacts.hierarchy_set_name_flat _ _ _ _ _ _ _ _ Hh).
    cbn [imap Nat.eqb compose]. do 5 f_equal.
    apply PropaneFacts.imap_untouched. reflexivity. }
  assert (H2 : Mbuild.hierarchy c2
               = Mbuild.Node "Pro" Mbuild.origin
                   (map Mbuild.leaf
                      (Mbuild.mkParticle ("_" +:+ Py.slice_from_1 (Mbuild.pname a0))
                                         (Mbuild.ppos a0)
                       :: Mbuild.mkParticle ("_" +:+ Mbuild.pname a1) (Mbuild.ppos a1)
                       :: a2 :: rest)) []).
  { unfold c2. rewrite (PropaneBoxFacts.hierarchy_set_name_flat _ _ _ _ _ _ _ _ H1).
    cbn [imap Nat.eqb compose]. do 5 f_equal.
    apply PropaneFacts.imap_untouched. reflexivity. }
  assert (He : Mbuild.hierarchy edited
               = Mbuild.Node "Pro" Mbuild.origin
                   (map Mbuild.leaf (Propane.renamed a0 a1 a2 ++ rest)) []).
  { unfold edited. rewrite !MbuildFacts.hierarchy_add_bond. fold c1 c2 c3.
    unfold c3. rewrite (PropaneBoxFacts.hierarchy_set_name_flat _ _ _ _ _ _ _ _ H2).
    cbn [imap Nat.eqb compose Propane.renamed app]. do 5 f_equal.
    apply PropaneFacts.imap_untouched. reflexivity. }
  destruct (PropaneBoxFacts.fill_box_residues edited 99 coords "Pro" _ _ _ He)
    as [b [Hb Hgro]].
  - intros a Ha. cbn [Propane.renamed app] in Ha.
    destruct Ha as [<-|[<-|[<-|Ha]]]; try discriminate. apply Hrest, Ha.
  - reflexivity.
  - rewrite He, Hlen.
    unfold Mbuild.n_particles.
    change (map Mbuild.leaf (Propane.renamed a0 a1 a2 ++ rest))
      with (map Mbuild.leaf
              (Mbuild.mkParticle ("_" +:+ Py.slice_from_1 (Mbuild.pname a0)) (Mbuild.ppos a0)
               :: (Mbuild.mkParticle ("_" +:+ Mbuild.pname a1) (Mbuild.ppos a1)
                   :: Mbuild.mkParticle ("_" +:+ Py.slice_from_1 (Mbuild.pname a2))
                                        (Mbuild.ppos a2) :: rest))).
    rewrite PropaneBoxFacts.particles_flat. cbn [length]. lia.
  - change PropaneBox.n_compounds with 100%nat. rewrite Hb, Hgro. reflexivity.
Qed.

End StructureFacts.

(** X5.  For a PDB file of three atoms or more, none of whose atoms from
    the fourth on is named [Pro], and a PACKMOL answer of the right length,
    the packed propane box has exactly one residue [Pro] per copy, 100 in
    all, whatever the atoms are called: the renamed beads begin with an
    underscore and cannot carry the residue name.  With fewer than three
    atoms no box is built: the rename cell has raised [IndexError]. *)
Theorem propane_box_residues
        (a0 a1 a2 : Mbuild.Particle) (rest : list Mbuild.Particle)
        (coords : list Mbuild.Pos) :
  (forall a, In a rest -> Mbuild.pname a <> "Pro") ->
  length coords = (100 * (3 + length rest))%nat ->
  PropaneBox.structure_residues (a0 :: a1 :: a2 :: rest) (Some coords)
  = inl (repeat "Pro" 100)
  /\ PropaneBox.structure_residues [a0; a1] (Some coords) = inr Py.IndexError
  /\ PropaneBox.structure_residues [a0] (Some coords) = inr Py.IndexError.
Proof.
  intros Hrest Hlen. split; [|split; reflexivity].
  apply StructureFacts.structure_residues_value; assumption.
Qed.

(** A three-bead PDB file packed 100 times gives 100 residues [Pro]. *)
Lemma propane_box_residues_witness :
  PropaneBox.structure_residues Values.propane_atoms (Some Values.packed_propanes)
  = inl (repeat "Pro" 100).
Proof.
  destruct (propane_box_residues
              (Mbuild.mkParticle "CH3" (Mbuild.mkPos 0 0 0))
              (Mbuild.mkParticle "CH2" (Mbuild.mkPos 0.154 0 0))
              (Mbuild.mkParticle "CH3" (Mbuild.mkPos 0.2 0.14 0))
              [] Values.packed_propanes) as [H _].
  - intros a [].
  - vm_compute. reflexivity.
  - exact H.
Defined.

(** ** The emitted files *)

Module EmittedFacts.



End EmittedFacts.



(** ** Selecting the particles of a type *)

Module SelectFacts.
Import Mbuild.

(** [list.index]: the first position of the value, if there is one. *)
Lemma list_index_Some x l t :
  Hoomd.list_index x l = Some t ->
  nth_error l t = Some x /\ forall j, (j < t)%nat -> nth_error l j <> Some x.
Proof.
  revert t. induction l as [|y l IHl]; intros t H; [discriminate H|].
  cbn [Hoomd.list_index] in H. destruct (String.eqb y x) eqn:E.
  - injection H as <-. apply String.eqb_eq in E. subst y.
    split; [reflexivity | intros j Hj; lia].
  - destruct (Hoomd.list_index x l) as [t'|]; [|discriminate H].
    injection H as <-. destruct (IHl t' eq_refl) as [Hn Hfirst].
    split; [exact Hn|]. intros [|j] Hj; cbn [nth_error].
    + intros Heq. injection Heq as ->. rewrite String.eqb_refl in E. discriminate E.
    + apply Hfirst. lia.
Qed.

Lemma list_index_None x l : Hoomd.list_index x l = None -> ~ In x l.
Proof.
  induction l as [|y l IHl]; intros H; [intros []|].
  cbn [Hoomd.list_index] in H. destruct (String.eqb y x) eqn:E; [discriminate H|].
  destruct (Hoomd.list_index x l); [discriminate H|].
  intros [->|Hin]; [rewrite String.eqb_refl in E; discriminate E | exact (IHl eq_refl Hin)].
Qed.

Lemma omap_cons {A B} (f : A -> option B) x (l : list A) :
  omap f (x :: l) = match f x with Some y => y :: omap f l | None => omap f l end.
Proof. reflexivity. Qed.

(** The indices at which a list holds [t], counted from [off]. *)
Lemma where_equal_spec (t : nat) (l : list nat) :
  forall off,
    let ids := omap (fun it : nat * nat => if (snd it =? t)%nat then Some (fst it) else None)
                    (imap (fun k x => ((off + k)%nat, x)) l) in
    (forall i, In i ids <-> (off <= i)%nat /\ nth_error l (i - off) = Some t)
    /\ StronglySorted lt ids.
Proof.
  induction l as [|x l IHl]; intros off; cbn zeta.
  - split; [|constructor]. intros i. cbn. split; [intros [] | intros [_ H]].
    destruct (i - off)%nat; discriminate H.
  - cbn [imap]. rewrite omap_cons.
    assert (Hext : imap ((fun k x0 => ((off + k)%nat, x0)) ∘ S) l
                   = imap (fun k x0 => ((S off + k)%nat, x0)) l).
    { apply imap_ext. intros k y _. cbn. f_equal. lia. }
    rewrite Hext. specialize (IHl (S off)). cbn zeta in IHl.
    destruct IHl as [IHin IHs].
    set (rest := omap _ (imap (fun k x0 => ((S off + k)%nat, x0)) l)) in *.
    assert (Hall : Forall (lt off) rest).
    { apply Forall_forall. intros i Hi. apply list_elem_of_In in Hi.
      apply IHin in Hi. lia. }
    cbn [snd fst]. rewrite Nat.add_0_r.
    destruct (x =? t)%nat eqn:E.
    + apply Nat.eqb_eq in E. subst x.
      split.
      * intros i. cbn [In]. rewrite IHin. split.
        -- intros [<-|[Hle Hn]].
           ++ rewrite Nat.sub_diag. split; [lia | reflexivity].
           ++ split; [lia|]. replace (i - off)%nat with (S (i - S off)) by lia.
              exact Hn.
        -- intros [Hle Hn]. destruct (Nat.eq_dec off i) as [->|Hne]; [left; reflexivity|].
           right. split; [lia|]. replace (i - off)%nat with (S (i - S off)) in Hn by lia.
           exact Hn.
      * constructor; [exact IHs | exact Hall].
    + split; [|exact IHs].
      intros i. rewrite IHin. split.
      * intros [Hle Hn]. split; [lia|].
        replace (i - off)%nat with (S (i - S off)) by lia. exact Hn.
      * intros [Hle Hn]. destruct (Nat.eq_dec off i) as [->|Hne].
        -- rewrite Nat.sub_diag in Hn. cbn in Hn. injection Hn as ->.
           rewrite Nat.eqb_refl in E. discriminate E.
        -- split; [lia|]. replace (i - off)%nat with (S (i - S off)) in Hn by lia.
           exact Hn.
Qed.

End SelectFacts.

Module RowsFacts.
Import Mbuild.

Lemma bind_ret_run {S A B} (a : A) (k : A -> Py.cell S B) (s : S) :
  (mret a ≫= k) s = k a s.
Proof. reflexivity. Qed.

(** [rows[ids]]: every index must name a row. *)
Lemma take_rows_in_range {S} (rows : list Pos) (ids : list nat) (s : S) :
  Forall (fun i => (i < length rows)%nat) ids ->
  exists out,
    Hoomd.take_rows rows ids s = (s, inl out)
    /\ Forall2 (fun i r => nth_error rows i = Some r) ids out.
Proof.
  induction 1 as [|i ids Hi _ [out [Hout Hall]]].
  - exists []. split; [reflexivity | constructor].
  - destruct (nth_error rows i) as [r|] eqn:E.
    + exists (r :: out). split.
      * cbn [Hoomd.take_rows]. unfold mbind, cell_bind, Py.bind, Py.index.
        rewrite E. cbn. fold (@Hoomd.take_rows S rows ids). rewrite Hout. reflexivity.
      * constructor; assumption.
    + apply nth_error_None in E. lia.
Qed.

Lemma length_where_equal (t : nat) (l : list nat) :
  forall off,
    length (omap (fun it : nat * nat => if (snd it =? t)%nat then Some (fst it) else None)
                 (imap (fun k x => ((off + k)%nat, x)) l))
    = count_occ Nat.eq_dec l t.
Proof.
  induction l as [|x l IHl]; intros off; [reflexivity|].
  cbn [imap]. rewrite SelectFacts.omap_cons. cbn [snd fst count_occ].
  assert (Hext : imap ((fun k x0 => ((off + k)%nat, x0)) ∘ S) l
                 = imap (fun k x0 => ((S off + k)%nat, x0)) l).
  { apply imap_ext. intros k y _. cbn. f_equal. lia. }
  rewrite Hext.
  destruct (Nat.eq_dec x t) as [->|Hne].
  - rewrite Nat.eqb_refl. cbn [length]. rewrite IHl. reflexivity.
  - apply Nat.eqb_neq in Hne. rewrite Hne. apply IHl.
Qed.

(** What [get_ids] returns for a type the frame lists. *)
Lemma get_ids_listed {S} (frame : Hoomd.Frame) typename t (s : S) :
  Hoomd.list_index typename (Hoomd.types frame) = Some t ->
  exists ids,
    Hoomd.get_ids frame typename s = (s, inl ids)
    /\ (forall i, In i ids <-> nth_error (Hoomd.typeid frame) i = Some t)
    /\ StronglySorted lt ids
    /\ length ids = count_occ Nat.eq_dec (Hoomd.typeid frame) t.
Proof.
  intros E. unfold Hoomd.get_ids. rewrite E.
  eexists. split; [reflexivity|].
  destruct (SelectFacts.where_equal_spec t (Hoomd.typeid frame) 0) as [Hin Hs].
  split; [|split].
  - intros i. etransitivity; [apply Hin|]. rewrite Nat.sub_0_r.
    split; [intros [_ H]; exact H | intros H; split; [lia | exact H]].
  - exact Hs.
  - apply (length_where_equal t (Hoomd.typeid frame) 0).
Qed.

End RowsFacts.

(** X6.  [get_ids(frame, typename)] raises [ValueError] exactly when the
    type name is not among the frame's types; otherwise it takes the first
    position [t] of the name in the type list and returns, in increasing
    order, exactly the particle indices whose type id is [t]. *)
Theorem get_ids_selects {S : Type} (frame : Hoomd.Frame) (typename : string) (s : S) :
  match Hoomd.list_index typename (Hoomd.types frame) with
  | None =>
      ~ In typename (Hoomd.types frame)
      /\ Hoomd.get_ids frame typename s = (s, inr Py.ValueError)
  | Some t =>
      nth_error (Hoomd.types frame) t = Some typename
      /\ (forall j, (j < t)%nat -> nth_error (Hoomd.types frame) j <> Some typename)
      /\ exists ids,
          Hoomd.get_ids frame typename s = (s, inl ids)
          /\ (forall i, In i ids <-> nth_error (Hoomd.typeid frame) i = Some t)
          /\ StronglySorted lt ids
          /\ length ids = count_occ Nat.eq_dec (Hoomd.typeid frame) t
  end.
Proof.
  destruct (Hoomd.list_index typename (Hoomd.types frame)) as [t|] eqn:E.
  - destruct (SelectFacts.list_index_Some _ _ _ E) as [Hn Hfirst].
    split; [exact Hn|]. split; [exact Hfirst|].
    apply RowsFacts.get_ids_listed, E.
  - split; [apply SelectFacts.list_index_None, E|].
    unfold Hoomd.get_ids. rewrite E. reflexivity.
Qed.

(** X7.  In a frame that has a position row for every type id, selecting
    the positions of a type that the frame lists cannot raise: it returns
    one row per particle of that type, each the row at that particle's
    index, in index order. *)
Theorem positions_of_a_type
        {S : Type} (frame : Hoomd.Frame) (typename : string) (t : nat) (s : S) :
  (length (Hoomd.typeid frame) <= length (Hoomd.position frame))%nat ->
  Hoomd.list_index typename (Hoomd.types frame) = Some t ->
  exists ids rows,
    Hoomd.get_ids frame typename s = (s, inl ids)
    /\ Hoomd.take_rows (Hoomd.position frame) ids s = (s, inl rows)
    /\ Forall2 (fun i r => nth_error (Hoomd.position frame) i = Some r) ids rows
    /\ Forall (fun i => nth_error (Hoomd.typeid frame) i = Some t) ids
    /\ length rows = count_occ Nat.eq_dec (Hoomd.typeid frame) t.
Proof.
  intros Hlen Ht.
  destruct (RowsFacts.get_ids_listed frame typename t s Ht)
    as (ids & Hids & Hin & _ & Hcount).
  assert (Hrange : Forall (fun i => (i < length (Hoomd.position frame))%nat) ids).
  { apply Forall_forall. intros i Hi. apply list_elem_of_In in Hi. apply Hin in Hi.
    assert (i < length (Hoomd.typeid frame))%nat
      by (apply nth_error_Some; rewrite Hi; discriminate).
    lia. }
  destruct (RowsFacts.take_rows_in_range (Hoomd.position frame) ids s Hrange)
    as (rows & Hrows & Hall).
  exists ids, rows. split; [exact Hids|]. split; [exact Hrows|]. split; [exact Hall|].
  split.
  - apply Forall_forall. intros i Hi. apply list_elem_of_In in Hi. apply Hin, Hi.
  - rewrite <- Hcount. symmetry. eapply Forall2_length, Hall.
Qed.

(** The [CH3] beads of the sample frame are the particles 2 and 4. *)
Lemma positions_of_a_type_witness :
  exists ids rows,
    Hoomd.get_ids Samples.near_frame "CH3" tt = (tt, inl ids)
    /\ Hoomd.take_rows (Hoomd.position Samples.near_frame) ids tt = (tt, inl rows)
    /\ Forall2 (fun i r => nth_error (Hoomd.position Samples.near_frame) i = Some r)
               ids rows
    /\ Forall (fun i => nth_error (Hoomd.typeid Samples.near_frame) i = Some 1%nat) ids
    /\ length rows = count_occ Nat.eq_dec (Hoomd.typeid Samples.near_frame) 1%nat.
Proof.
  apply (positions_of_a_type Samples.near_frame "CH3" 1%nat tt).
  - simpl. lia.
  - reflexivity.
Defined.

(** ** The analysis loop *)

Module LoopFacts.
Import Mbuild Freud.

Lemma preserves_pure {S A} (I : S -> Prop) (m : Py.cell S A) :
  (exists r, forall s, m s = (s, r)) -> Py.preserves I m.
Proof. intros [r H] s Hs. rewrite H. exact Hs. Qed.

(** [get_ids] either returns for every state or raises [ValueError] for
    every state. *)
Lemma get_ids_cases {S} frame typename :
  (exists ids, forall s : S, Hoomd.get_ids frame typename s = (s, inl ids))
  \/ (Hoomd.list_index typename (Hoomd.types frame) = None
      /\ forall s : S, Hoomd.get_ids frame typename s = (s, inr Py.ValueError)).
Proof.
  unfold Hoomd.get_ids. destruct (Hoomd.list_index _ _).
  - left. eexists. reflexivity.
  - right. split; reflexivity.
Qed.

Section Binning.
Variable bin_of : nat -> Q -> Box -> Pos -> Pos -> option nat.

(** A loop body that raises has changed nothing, and raises the same way
    from any state and under either reset policy. *)
Lemma frame_body_raises reset_ frame s s' e :
  Hoomd.frame_body bin_of reset_ frame s = (s', inr e) ->
  s' = s /\ forall reset' t, Hoomd.frame_body bin_of reset' frame t = (t, inr e).
Proof.
  unfold Hoomd.frame_body.
  destruct (@HoomdAnalysis.get_ids_pure Hoomd.rdfs frame "CH3") as [[i3|e3] H3];
    rewrite (HoomdAnalysis.bind_pure _ _ _ H3);
    [|intros [= <- <-]; split; [reflexivity|]; intros r t;
      rewrite (HoomdAnalysis.bind_pure _ _ _ H3); reflexivity].
  destruct (@HoomdAnalysis.get_ids_pure Hoomd.rdfs frame "CH4") as [[i4|e4] H4];
    rewrite (HoomdAnalysis.bind_pure _ _ _ H4);
    [|intros [= <- <-]; split; [reflexivity|]; intros r t;
      rewrite (HoomdAnalysis.bind_pure _ _ _ H3), (HoomdAnalysis.bind_pure _ _ _ H4);
      reflexivity].
  destruct (@HoomdAnalysis.get_ids_pure Hoomd.rdfs frame "OH") as [[io|eo] Ho];
    rewrite (HoomdAnalysis.bind_pure _ _ _ Ho);
    [|intros [= <- <-]; split; [reflexivity|]; intros r t;
      rewrite (HoomdAnalysis.bind_pure _ _ _ H3), (HoomdAnalysis.bind_pure _ _ _ H4),
        (HoomdAnalysis.bind_pure _ _ _ Ho); reflexivity].
  destruct (@HoomdAnalysis.take_rows_pure Hoomd.rdfs (Hoomd.position frame) i3)
    as [[p3|x3] P3];
    rewrite (HoomdAnalysis.bind_pure _ _ _ P3);
    [|intros [= <- <-]; split; [reflexivity|]; intros r t;
      rewrite (HoomdAnalysis.bind_pure _ _ _ H3), (HoomdAnalysis.bind_pure _ _ _ H4),
        (HoomdAnalysis.bind_pure _ _ _ Ho), (HoomdAnalysis.bind_pure _ _ _ P3);
      reflexivity].
  destruct (@HoomdAnalysis.take_rows_pure Hoomd.rdfs (Hoomd.position frame) i4)
    as [[p4|x4] P4];
    rewrite (HoomdAnalysis.bind_pure _ _ _ P4);
    [|intros [= <- <-]; split; [reflexivity|]; intros r t;
      rewrite (HoomdAnalysis.bind_pure _ _ _ H3), (HoomdAnalysis.bind_pure _ _ _ H4),
        (HoomdAnalysis.bind_pure _ _ _ Ho), (HoomdAnalysis.bind_pure _ _ _ P3),
        (HoomdAnalysis.bind_pure _ _ _ P4);
      reflexivity].
  destruct (@HoomdAnalysis.take_rows_pure Hoomd.rdfs (Hoomd.position frame) io)
    as [[po|xo] Po];
    rewrite (HoomdAnalysis.bind_pure _ _ _ Po);
    [|intros [= <- <-]; split; [reflexivity|]; intros r t;
      rewrite (HoomdAnalysis.bind_pure _ _ _ H3), (HoomdAnalysis.bind_pure _ _ _ H4),
        (HoomdAnalysis.bind_pure _ _ _ Ho), (HoomdAnalysis.bind_pure _ _ _ P3),
        (HoomdAnalysis.bind_pure _ _ _ P4), (HoomdAnalysis.bind_pure _ _ _ Po);
      reflexivity].
  intros H. discriminate H.
Qed.

(** The loop over a trajectory in two parts. *)
Lemma for_frames_app reset_ traj1 traj2 s :
  Hoomd.for_frames bin_of reset_ (traj1 ++ traj2) s
  = match Hoomd.for_frames bin_of reset_ traj1 s with
    | (s1, inl _) => Hoomd.for_frames bin_of reset_ traj2 s1
    | (s1, inr e) => (s1, inr e)
    end.
Proof.
  revert s. induction traj1 as [|f traj1 IH]; intros s; [reflexivity|].
  cbn [app Hoomd.for_frames]. unfold mbind, cell_bind, Py.bind.
  destruct (Hoomd.frame_body bin_of reset_ f s) as [s1 [[]|e]]; [apply IH | reflexivity].
Qed.

(** A frame never touches the three cross-type objects. *)
Lemma frame_body_keeps_cross reset_ frame (r1 r2 r3 : RDF) :
  Py.preserves (fun s => Hoomd.ch3_ch4_rdf s = r1 /\ Hoomd.ch3_oh_rdf s = r2
                         /\ Hoomd.ch4_oh_rdf s = r3)
               (Hoomd.frame_body bin_of reset_ frame).
Proof.
  unfold Hoomd.frame_body.
  repeat first
    [ apply preserves_pure; first [apply HoomdAnalysis.get_ids_pure
                                  | apply HoomdAnalysis.take_rows_pure]
    | apply PyFacts.preserves_modify; intros s Hs; exact Hs
    | apply PyFacts.preserves_bind; [| intros ?] ].
Qed.

Lemma for_frames_keeps_cross reset_ traj (r1 r2 r3 : RDF) :
  Py.preserves (fun s => Hoomd.ch3_ch4_rdf s = r1 /\ Hoomd.ch3_oh_rdf s = r2
                         /\ Hoomd.ch4_oh_rdf s = r3)
               (Hoomd.for_frames bin_of reset_ traj).
Proof.
  induction traj as [|f traj IH]; cbn [Hoomd.for_frames].
  - intros s Hs. exact Hs.
  - apply PyFacts.preserves_bind; [apply frame_body_keeps_cross | intros _; exact IH].
Qed.

End Binning.

End LoopFacts.

(** X8.  The three cross-type objects ([ch3_ch4_rdf], [ch3_oh_rdf],
    [ch4_oh_rdf]) are created but never computed: whatever the trajectory,
    and whether the loop ends or raises, they are left as they were, so
    after the notebook's analysis their histograms are all zero and they
    have seen no frame. *)
Theorem cross_rdfs_are_never_computed
        (bin_of : nat -> Q -> Freud.Box -> Mbuild.Pos -> Mbuild.Pos -> option nat)
        (traj : list Hoomd.Frame) (s : Hoomd.rdfs) :
  Hoomd.ch3_ch4_rdf (fst (Hoomd.for_frames bin_of false traj s)) = Hoomd.ch3_ch4_rdf s
  /\ Hoomd.ch3_oh_rdf (fst (Hoomd.for_frames bin_of false traj s)) = Hoomd.ch3_oh_rdf s
  /\ Hoomd.ch4_oh_rdf (fst (Hoomd.for_frames bin_of false traj s)) = Hoomd.ch4_oh_rdf s
  /\ Freud.bin_counts (Hoomd.ch3_ch4_rdf (fst (Hoomd.analyse bin_of traj)))
     = repeat 0%N 50
  /\ Freud.bin_counts (Hoomd.ch3_oh_rdf (fst (Hoomd.analyse bin_of traj)))
     = repeat 0%N 50
  /\ Freud.bin_counts (Hoomd.ch4_oh_rdf (fst (Hoomd.analyse bin_of traj)))
     = repeat 0%N 50
  /\ Freud.frame_counter (Hoomd.ch3_ch4_rdf (fst (Hoomd.analyse bin_of traj))) = 0%nat.
Proof.
  pose proof (LoopFacts.for_frames_keeps_cross bin_of false traj _ _ _ s
                (conj eq_refl (conj eq_refl eq_refl))) as (H1 & H2 & H3).
  pose proof (LoopFacts.for_frames_keeps_cross bin_of false traj _ _ _ Hoomd.initial_rdfs
                (conj eq_refl (conj eq_refl eq_refl))) as (I1 & I2 & I3).
  split; [exact H1|]. split; [exact H2|]. split; [exact H3|].
  unfold Hoomd.analyse. rewrite I1, I2, I3. repeat split.
Qed.

(** X9.  A frame whose type list lacks one of [CH3], [CH4], [OH] makes the
    loop body raise [ValueError] before any of the three [compute] calls:
    no accumulator is updated by that frame. *)
Theorem frame_without_a_type_updates_nothing
        (bin_of : nat -> Q -> Freud.Box -> Mbuild.Pos -> Mbuild.Pos -> option nat)
        (reset_ : bool) (frame : Hoomd.Frame) (s : Hoomd.rdfs) :
  Hoomd.list_index "CH3" (Hoomd.types frame) = None
  \/ Hoomd.list_index "CH4" (Hoomd.types frame) = None
  \/ Hoomd.list_index "OH" (Hoomd.types frame) = None ->
  Hoomd.frame_body bin_of reset_ frame s = (s, inr Py.ValueError).
Proof.
  intros H. unfold Hoomd.frame_body.
  destruct (@LoopFacts.get_ids_cases Hoomd.rdfs frame "CH3") as [[i3 H3]|[N3 H3]];
    rewrite (HoomdAnalysis.bind_pure _ _ _ H3); [|reflexivity].
  destruct (@LoopFacts.get_ids_cases Hoomd.rdfs frame "CH4") as [[i4 H4]|[N4 H4]];
    rewrite (HoomdAnalysis.bind_pure _ _ _ H4); [|reflexivity].
  destruct (@LoopFacts.get_ids_cases Hoomd.rdfs frame "OH") as [[io Ho]|[No Ho]];
    rewrite (HoomdAnalysis.bind_pure _ _ _ Ho); [|reflexivity].
  exfalso. unfold Hoomd.get_ids in H3, H4, Ho.
  destruct H as [H|[H|H]]; rewrite H in *.
  - specialize (H3 s). discriminate H3.
  - specialize (H4 s). discriminate H4.
  - specialize (Ho s). discriminate Ho.
Qed.

(** A frame of methanes only leaves the fresh accumulators untouched. *)
Lemma frame_without_a_type_updates_nothing_witness :
  Hoomd.frame_body Freud.bin_of_orthorhombic false Values.methane_only_frame
                   Hoomd.initial_rdfs
  = (Hoomd.initial_rdfs, inr Py.ValueError).
Proof.
  apply (frame_without_a_type_updates_nothing
           Freud.bin_of_orthorhombic false Values.methane_only_frame Hoomd.initial_rdfs).
  left. reflexivity.
Defined.

(** X10.  The loop stops at the first frame that raises: the accumulators
    are left exactly as the frames before it made them, the failing frame
    adds nothing, and the frames after it are never read. *)
Theorem loop_stops_at_first_failing_frame
        (bin_of : nat -> Q -> Freud.Box -> Mbuild.Pos -> Mbuild.Pos -> option nat)
        (before after : list Hoomd.Frame) (frame : Hoomd.Frame)
        (s s1 s' : Hoomd.rdfs) (e : Py.exc) :
  Hoomd.for_frames bin_of false before s = (s1, inl tt) ->
  Hoomd.frame_body bin_of false frame s1 = (s', inr e) ->
  Hoomd.for_frames bin_of false (before ++ frame :: after) s = (s1, inr e).
Proof.
  intros Hb Hf. rewrite LoopFacts.for_frames_app, Hb.
  destruct (LoopFacts.frame_body_raises bin_of _ _ _ _ _ Hf) as [-> _].
  cbn [Hoomd.for_frames]. unfold mbind, cell_bind, Py.bind. rewrite Hf. reflexivity.
Qed.

(** A good frame, then a frame of methanes only, then a good frame: the
    accumulators hold the first frame and nothing else. *)
Lemma loop_stops_at_first_failing_frame_witness :
  Hoomd.for_frames Freud.bin_of_orthorhombic false
    [Samples.near_frame; Values.methane_only_frame; Samples.near_frame]
    Hoomd.initial_rdfs
  = (Values.after_near, inr Py.ValueError).
Proof.
  apply (loop_stops_at_first_failing_frame
           Freud.bin_of_orthorhombic [Samples.near_frame] [Samples.near_frame]
           Values.methane_only_frame Hoomd.initial_rdfs Values.after_near
           Values.after_near Py.ValueError).
  - vm_compute. reflexivity.
  - vm_compute. reflexivity.
Defined.

Module GrowthFacts.
Import Mbuild Freud.

Lemma Forall2_le_refl (l : list N) : Forall2 N.le l l.
Proof. induction l; constructor; [lia | assumption]. Qed.

Lemma Forall2_le_trans (a b c : list N) :
  Forall2 N.le a b -> Forall2 N.le b c -> Forall2 N.le a c.
Proof.
  intros Hab. revert c. induction Hab as [|x y a b Hxy _ IH]; intros c Hbc.
  - inversion Hbc. constructor.
  - inversion Hbc as [|? z ? c' Hyz Hbc']; subst. constructor; [lia | apply IH, Hbc'].
Qed.

Lemma count_in_le b (l : list N) : Forall2 N.le l (count_in b l).
Proof.
  revert b. induction l as [|x l IHl]; intros b; [constructor|].
  destruct b as [|b].
  - rewrite FreudFacts.count_in_cons_0. constructor; [lia | apply Forall2_le_refl].
  - rewrite FreudFacts.count_in_cons_S. constructor; [lia | apply IHl].
Qed.

Lemma fold_count_in_le (hits : list nat) :
  forall l, Forall2 N.le l (fold_left (fun counts b => count_in b counts) hits l).
Proof.
  induction hits as [|b hits IH]; intros l; [apply Forall2_le_refl|].
  cbn [fold_left]. eapply Forall2_le_trans; [apply count_in_le | apply IH].
Qed.

Lemma grown_by_refl r : Accumulated.grown_by 0 r r.
Proof.
  unfold Accumulated.grown_by. rewrite Nat.add_0_r.
  repeat split. apply Forall2_le_refl.
Qed.

Lemma grown_by_trans n m r1 r2 r3 :
  Accumulated.grown_by n r1 r2 -> Accumulated.grown_by m r2 r3 ->
  Accumulated.grown_by (n + m) r1 r3.
Proof.
  intros (C1 & L1 & B1 & M1) (C2 & L2 & B2 & M2). unfold Accumulated.grown_by.
  split; [lia|]. split; [eapply Forall2_le_trans; eassumption|].
  split; congruence.
Qed.

Section Binning.
Variable bin_of : nat -> Q -> Box -> Pos -> Pos -> option nat.

(** One [compute] without reset is one frame more. *)
Lemma grown_by_compute system r :
  Accumulated.grown_by 1 r (compute bin_of system false r).
Proof.
  unfold Accumulated.grown_by, compute, accumulate.
  cbn [frame_counter bin_counts bins r_max].
  split; [lia|]. split; [apply fold_count_in_le|]. split; reflexivity.
Qed.

(** A loop that runs to its end, one frame at a time. *)
Lemma for_frames_cons_runs reset_ frame traj s s' :
  Hoomd.for_frames bin_of reset_ (frame :: traj) s = (s', inl tt) ->
  exists s1,
    Hoomd.frame_body bin_of reset_ frame s = (s1, inl tt)
    /\ Hoomd.for_frames bin_of reset_ traj s1 = (s', inl tt).
Proof.
  cbn [Hoomd.for_frames]. unfold mbind, cell_bind, Py.bind.
  destruct (Hoomd.frame_body bin_of reset_ frame s) as [s1 [[]|e]]; [|discriminate].
  intros H. exists s1. split; [reflexivity | exact H].
Qed.

Lemma for_frames_grows traj :
  forall s s',
    Hoomd.for_frames bin_of false traj s = (s', inl tt) ->
    Accumulated.grown_by (length traj) (Hoomd.ch3_ch3_rdf s) (Hoomd.ch3_ch3_rdf s')
    /\ Accumulated.grown_by (length traj) (Hoomd.ch4_ch4_rdf s) (Hoomd.ch4_ch4_rdf s')
    /\ Accumulated.grown_by (length traj) (Hoomd.oh_oh_rdf s) (Hoomd.oh_oh_rdf s').
Proof.
  induction traj as [|f traj IH]; intros s s' H.
  - cbn in H. injection H as <-. repeat split; apply grown_by_refl.
  - destruct (for_frames_cons_runs _ _ _ _ _ H) as (s1 & Hf & Hrest).
    destruct (IH _ _ Hrest) as (G3 & G4 & Go).
    destruct (HoomdAnalysis.frame_body_runs bin_of _ _ _ _ Hf) as (p3 & p4 & po & Hb).
    rewrite (Hb false s) in Hf. injection Hf as <-.
    cbn [Hoomd.ch3_ch3_rdf Hoomd.ch4_ch4_rdf Hoomd.oh_oh_rdf] in G3, G4, Go.
    cbn [length]. change (S (length traj)) with (1 + length traj)%nat.
    repeat split; (eapply grown_by_trans; [apply grown_by_compute | eassumption]).
Qed.

End Binning.

End GrowthFacts.

(** X11.  When the loop runs to the end of a trajectory, each of the three
    computed objects has counted one frame per frame of the trajectory on
    top of what it had counted before, no bin of its histogram has gone
    down, and its binning is unchanged. *)
Theorem accumulators_after_a_trajectory
        (bin_of : nat -> Q -> Freud.Box -> Mbuild.Pos -> Mbuild.Pos -> option nat)
        (traj : list Hoomd.Frame) (s s' : Hoomd.rdfs) :
  Hoomd.for_frames bin_of false traj s = (s', inl tt) ->
  Accumulated.grown_by (length traj) (Hoomd.ch3_ch3_rdf s) (Hoomd.ch3_ch3_rdf s')
  /\ Accumulated.grown_by (length traj) (Hoomd.ch4_ch4_rdf s) (Hoomd.ch4_ch4_rdf s')
  /\ Accumulated.grown_by (length traj) (Hoomd.oh_oh_rdf s) (Hoomd.oh_oh_rdf s')
  /\ (s = Hoomd.initial_rdfs ->
      Freud.frame_counter (Hoomd.ch3_ch3_rdf s') = length traj
      /\ length (Freud.bin_counts (Hoomd.ch3_ch3_rdf s')) = 50%nat).
Proof.
  intros H.
  destruct (GrowthFacts.for_frames_grows bin_of traj s s' H) as (G3 & G4 & Go).
  split; [exact G3|]. split; [exact G4|]. split; [exact Go|].
  intros ->. destruct G3 as (C & L & _). split.
  - rewrite C. reflexivity.
  - apply Forall2_length in L. rewrite <- L. reflexivity.
Qed.

(** Two frames from fresh accumulators: two frames counted, 50 bins. *)
Lemma accumulators_after_a_trajectory_witness :
  Freud.frame_counter (Hoomd.ch3_ch3_rdf Values.after_near_twice) = 2%nat
  /\ length (Freud.bin_counts (Hoomd.ch3_ch3_rdf Values.after_near_twice)) = 50%nat.
Proof.
  destruct (accumulators_after_a_trajectory
              Freud.bin_of_orthorhombic [Samples.near_frame; Samples.near_frame]
              Hoomd.initial_rdfs Values.after_near_twice) as (_ & _ & _ & H).
  - vm_compute. reflexivity.
  - exact (H eq_refl).
Defined.

(** ** Compounds made of copies *)

Module LatticeFacts.
Import Mbuild MbuildFacts.

(** The particles below the children of a node. *)
Lemma particles_of_children n p cs ls :
  cs <> [] -> particles (Node n p cs ls) = flat_map particles cs.
Proof. destruct cs; [congruence | reflexivity]. Qed.

Lemma particles_mb_Compound (l : list Compound) :
  l <> [] ->
  particles (hierarchy (mb_Compound l)) = flat_map (fun c => particles (hierarchy c)) l.
Proof.
  intros Hl. unfold mb_Compound. rewrite hierarchy_mb_Compound_named.
  rewrite particles_of_children by (destruct l; [congruence | discriminate]).
  rewrite flat_map_concat_map, map_map, <- flat_map_concat_map. reflexivity.
Qed.

Lemma names_translate v c :
  map pname (particles (hierarchy (translate v c)))
  = map pname (particles (hierarchy c)).
Proof.
  unfold translate. cbn [hierarchy]. rewrite particles_update_leaves.
  generalize (particles (hierarchy c)). intros l.
  change (map pname (imap (const (fun p => mkParticle (pname p) (pos_add (ppos p) v))) l)
          = map pname l).
  rewrite imap_const.
  induction l as [|a l IHl]; [reflexivity|]. cbn. rewrite <- IHl. reflexivity.
Qed.

Lemma bond_graph_add child parent n p cs ls :
  hierarchy parent = Node n p cs ls ->
  bond_graph (add child parent)
  = (bond_graph parent
     ++ map (shift_edge (length (flat_map particles cs))) (bond_graph child))%list.
Proof.
  intros H. unfold add. rewrite H. cbn [bond_graph].
  destruct cs; reflexivity.
Qed.

Lemma hierarchy_add child parent n p cs ls :
  hierarchy parent = Node n p cs ls ->
  hierarchy (add child parent) = Node n p (cs ++ [hierarchy child]) ls.
Proof. intros H. unfold add. rewrite H. reflexivity. Qed.

Lemma bond_graph_fold_add (l : list Compound) :
  forall parent n p cs ls,
    hierarchy parent = Node n p cs ls ->
    bond_graph (fold_left (fun parent child => add child parent) l parent)
    = (bond_graph parent ++ Packing.placed_bonds (length (flat_map particles cs)) l)%list.
Proof.
  induction l as [|c l IHl]; intros parent n p cs ls H;
    cbn [fold_left Packing.placed_bonds].
  - rewrite app_nil_r. reflexivity.
  - rewrite (IHl _ n p (cs ++ [hierarchy c])%list ls) by (apply hierarchy_add, H).
    rewrite (bond_graph_add _ _ _ _ _ _ H), <- app_assoc.
    rewrite flat_map_app, length_app. cbn [flat_map]. rewrite app_nil_r.
    reflexivity.
Qed.

Lemma bond_graph_mb_Compound (l : list Compound) :
  bond_graph (mb_Compound l) = Packing.placed_bonds 0 l.
Proof.
  unfold mb_Compound, mb_Compound_named.
  rewrite (bond_graph_fold_add l _ "Compound" origin [] []) by reflexivity.
  reflexivity.
Qed.

Lemma length_points_grid n m l :
  length (points (Grid3DPattern n m l)) = (n * m * l)%nat.
Proof.
  unfold Grid3DPattern. cbn [points].
  rewrite (length_flat_map_const _ _ (m * l)%nat).
  - rewrite length_seq. lia.
  - intros i _. rewrite (length_flat_map_const _ _ l).
    + rewrite length_seq. reflexivity.
    + intros j _. rewrite length_map, length_seq. reflexivity.
Qed.

Lemma length_points_scale by_ pat : length (points (scale by_ pat)) = length (points pat).
Proof. unfold scale. cbn [points]. apply length_map. Qed.

Lemma flat_map_seq_shift {A} (f : nat -> list A) n :
  flat_map f (seq 1 n) = flat_map (fun i => f (S i)) (seq 0 n).
Proof.
  rewrite <- seq_shift. rewrite flat_map_concat_map, map_map, <- flat_map_concat_map.
  reflexivity.
Qed.

(** Copies of one compound: copy [i] carries the prototype's bonds shifted
    by [i] times the prototype's particle count. *)
Lemma placed_bonds_copies c (pts : list Pos) :
  forall P,
    Packing.placed_bonds P (map (fun pt => translate pt (clone c)) pts)
    = flat_map (fun i => map (shift_edge (P + i * n_particles (hierarchy c)))
                             (bond_graph c))
               (seq 0 (length pts)).
Proof.
  induction pts as [|pt pts IH]; intros P; [reflexivity|].
  cbn [map Packing.placed_bonds length seq flat_map].
  rewrite IH, flat_map_seq_shift, n_particles_translate.
  unfold translate at 1, clone. cbn [bond_graph].
  rewrite Nat.mul_0_l, Nat.add_0_r. f_equal.
  apply flat_map_ext. intros i. f_equal. f_equal. lia.
Qed.

Lemma names_copies c (pts : list Pos) :
  map pname (flat_map (fun x => particles (hierarchy x))
                      (map (fun pt => translate pt (clone c)) pts))
  = concat (repeat (map pname (particles (hierarchy c))) (length pts)).
Proof.
  induction pts as [|pt pts IH]; [reflexivity|].
  cbn [map flat_map length repeat concat].
  rewrite map_app, IH, names_translate. reflexivity.
Qed.

End LatticeFacts.

(** ** The bonds of a packed box *)

Module PackedBonds.
Import Mbuild MbuildFacts.

Lemma fold_add_same {A} (c : Compound) (l : list A) :
  forall parent,
    fold_left (fun acc _ => add c acc) l parent
    = fold_left (fun parent child => add child parent) (repeat c (length l)) parent.
Proof.
  induction l as [|x l IH]; intros parent; [reflexivity|].
  cbn [fold_left length repeat]. apply IH.
Qed.

Lemma placed_bonds_repeat c n :
  forall P,
    Packing.placed_bonds P (repeat c n)
    = flat_map (fun i => map (shift_edge (P + i * n_particles (hierarchy c)))
                             (bond_graph c))
               (seq 0 n).
Proof.
  induction n as [|n IH]; intros P; [reflexivity|].
  cbn [repeat Packing.placed_bonds seq flat_map].
  rewrite IH, LatticeFacts.flat_map_seq_shift.
  rewrite Nat.mul_0_l, Nat.add_0_r. f_equal.
  apply flat_map_ext. intros i. f_equal. f_equal. lia.
Qed.

(** The compound [fill_box] hands to PACKMOL carries the prototype's bonds
    once per copy, those of copy [i] shifted by [i] times the prototype's
    particle count. *)
Lemma bond_graph_filled compound n :
  bond_graph (Packing.filled compound n)
  = flat_map (fun i => map (shift_edge (i * n_particles (hierarchy compound)))
                           (bond_graph compound))
             (seq 0 n).
Proof.
  unfold Packing.filled, clone. rewrite fold_add_same, length_seq.
  change (fold_left (fun parent child => add child parent) (repeat compound n)
                    (mb_Compound []))
    with (fold_left (fun parent child => add child parent) (repeat compound n)
                    (mkCompound (Node "Compound" origin [] []) [])).
  rewrite (LatticeFacts.bond_graph_fold_add _ _ "Compound" origin [] []) by reflexivity.
  cbn [bond_graph flat_map length app].
  rewrite placed_bonds_repeat. apply flat_map_ext. intros i. reflexivity.
Qed.

End PackedBonds.

(** X4.  [fill_box] for at least one copy and a PACKMOL answer of one row
    per particle: the box holds the prototype's particle names once per
    copy, in order, at exactly the positions PACKMOL gave, and the
    prototype's bonds once per copy, those of copy [i] between the
    particles of copy [i]. *)
Theorem fill_box_places_copies
        (compound : Mbuild.Compound) (n : nat) (coords : list Mbuild.Pos) :
  length coords = (S n * Mbuild.n_particles (Mbuild.hierarchy compound))%nat ->
  exists b,
    Mbuild.fill_box (Some coords) compound (S n) = inl b
    /\ Mbuild.xyz b = coords
    /\ map Mbuild.pname (Mbuild.particles (Mbuild.hierarchy b))
       = concat (repeat (map Mbuild.pname
                             (Mbuild.particles (Mbuild.hierarchy compound)))
                        (S n))
    /\ Mbuild.bond_graph b
       = flat_map (fun i => map (Mbuild.shift_edge
                                   (i * Mbuild.n_particles (Mbuild.hierarchy compound)))
                                (Mbuild.bond_graph compound))
                  (seq 0 (S n))
    /\ Mbuild.n_bonds b = (S n * Mbuild.n_bonds compound)%nat.
Proof.
  intros E. unfold Mbuild.fill_box.
  change (fold_left (fun acc _ => Mbuild.add (Mbuild.clone compound) acc)
                    (seq 0 (S n)) (Mbuild.mb_Compound []))
    with (Packing.filled compound (S n)).
  assert (Hn : Mbuild.n_particles (Mbuild.hierarchy (Packing.filled compound (S n)))
               = (S n * Mbuild.n_particles (Mbuild.hierarchy compound))%nat).
  { rewrite PackingFacts.hierarchy_filled.
    apply CharmmFacts.n_particles_node_repeat. }
  rewrite Hn, E, Nat.eqb_refl.
  eexists. split; [reflexivity|]. split; [|split; [|split]].
  - unfold Mbuild.xyz. rewrite PackingFacts.particles_update_coordinates.
    apply PackingFacts.positions_after_coordinates.
    rewrite E, <- Hn. reflexivity.
  - rewrite PackingFacts.particles_update_coordinates,
      PackingFacts.names_after_coordinates, PackingFacts.particles_filled,
      PackingFacts.flat_map_repeat.
    apply PackingFacts.map_concat_repeat.
  - unfold Mbuild.update_coordinates. cbn [Mbuild.bond_graph].
    apply PackedBonds.bond_graph_filled.
  - unfold Mbuild.n_bonds at 1, Mbuild.update_coordinates. cbn [Mbuild.bond_graph].
    change (length (Mbuild.bond_graph (Packing.filled compound (S n))))
      with (Mbuild.n_bonds (Packing.filled compound (S n))).
    unfold Packing.filled, Mbuild.clone.
    rewrite PackingFacts.n_bonds_fold_add_same, length_seq. reflexivity.
Qed.

(** Two methanols packed at four given positions: the second copy's bond
    joins the particles 3 and 2. *)
Lemma fill_box_places_copies_witness :
  exists b,
    Mbuild.fill_box (Some Values.four_positions) Values.methanol_value 2 = inl b
    /\ Mbuild.xyz b = Values.four_positions
    /\ Mbuild.bond_graph b = [(1, 0); (3, 2)]%nat.
Proof.
  destruct (fill_box_places_copies Values.methanol_value 1 Values.four_positions eq_refl)
    as (b & Hb & Hxyz & _ & Hbonds & _).
  exists b. split; [exact Hb|]. split; [exact Hxyz|]. exact Hbonds.
Defined.

(** X12.  Replication on a grid, for any grid shape, scale and compound:
    [Grid3DPattern(n, m, l)] gives n*m*l copies, each with the prototype's
    names and bonds; the compound made of them holds the prototype's names
    once per copy, in order, and the prototype's bonds once per copy, those
    of copy [i] shifted by [i] times the prototype's particle count.  An
    empty grid leaves an empty compound, which
    mBuild counts as one particle. *)
Theorem lattice_replication (n m l : nat) (by_ : Q) (compound : Mbuild.Compound) :
  let copies := Mbuild.apply (Mbuild.scale by_ (Mbuild.Grid3DPattern n m l)) compound in
  let box := Mbuild.mb_Compound copies in
  let k := Mbuild.n_particles (Mbuild.hierarchy compound) in
  length copies = (n * m * l)%nat
  /\ Forall (fun c => map Mbuild.pname (Mbuild.particles (Mbuild.hierarchy c))
                     = map Mbuild.pname (Mbuild.particles (Mbuild.hierarchy compound))
                     /\ Mbuild.bond_graph c = Mbuild.bond_graph compound) copies
  /\ Mbuild.bond_graph box
     = flat_map (fun i => map (Mbuild.shift_edge (i * k)) (Mbuild.bond_graph compound))
                (seq 0 (n * m * l))
  /\ Mbuild.n_bonds box = (n * m * l * Mbuild.n_bonds compound)%nat
  /\ (if (n * m * l =? 0)%nat
      then Mbuild.n_particles (Mbuild.hierarchy box) = 1%nat
      else map Mbuild.pname (Mbuild.particles (Mbuild.hierarchy box))
           = concat (repeat (map Mbuild.pname
                                 (Mbuild.particles (Mbuild.hierarchy compound)))
                            (n * m * l))
           /\ Mbuild.n_particles (Mbuild.hierarchy box) = (n * m * l * k)%nat).
Proof.
  intros copies box k.
  assert (Hlen : length (Mbuild.points (Mbuild.scale by_ (Mbuild.Grid3DPattern n m l)))
                 = (n * m * l)%nat).
  { rewrite LatticeFacts.length_points_scale. apply LatticeFacts.length_points_grid. }
  assert (Hcopies : length copies = (n * m * l)%nat).
  { unfold copies, Mbuild.apply. rewrite length_map. exact Hlen. }
  split; [exact Hcopies|]. split; [|split; [|split]].
  - unfold copies, Mbuild.apply. apply Forall_map. apply Forall_forall.
    intros pt _. split; [apply LatticeFacts.names_translate | reflexivity].
  - unfold box, copies, Mbuild.apply.
    rewrite LatticeFacts.bond_graph_mb_Compound, LatticeFacts.placed_bonds_copies, Hlen.
    reflexivity.
  - unfold box, copies. rewrite MbuildFacts.n_bonds_lattice, Hlen. reflexivity.
  - destruct (n * m * l)%nat as [|N] eqn:EN; cbn [Nat.eqb].
    + unfold box. destruct copies; [reflexivity | discriminate Hcopies].
    + assert (Hne : copies <> []) by (destruct copies; [discriminate Hcopies | discriminate]).
      split.
      * unfold box. rewrite (LatticeFacts.particles_mb_Compound _ Hne).
        unfold copies, Mbuild.apply. rewrite LatticeFacts.names_copies, Hlen.
        reflexivity.
      * unfold box, copies. rewrite MbuildFacts.n_particles_lattice, Hlen.
        -- reflexivity.
        -- intros Hnil. rewrite Hnil in Hlen. discriminate Hlen.
Qed.

(** ** The HOOMD system for any scales *)

Module BuildFacts.
Import Mbuild MbuildFacts.

Lemma methanol_is : Hoomd.methanol = inl Values.methanol_value.
Proof. vm_compute. reflexivity. Qed.

Lemma names_lattice pat c :
  points pat <> [] ->
  map pname (particles (hierarchy (mb_Compound (apply pat c))))
  = concat (repeat (map pname (particles (hierarchy c))) (length (points pat))).
Proof.
  intros Hne. rewrite LatticeFacts.particles_mb_Compound.
  - unfold apply. apply LatticeFacts.names_copies.
  - unfold apply. destruct (points pat); [congruence | discriminate].
Qed.

Lemma bonds_lattice pat c :
  bond_graph (mb_Compound (apply pat c))
  = flat_map (fun i => map (shift_edge (i * n_particles (hierarchy c))) (bond_graph c))
             (seq 0 (length (points pat))).
Proof.
  unfold apply.
  rewrite LatticeFacts.bond_graph_mb_Compound, LatticeFacts.placed_bonds_copies.
  reflexivity.
Qed.

Lemma grid_2x2x2 by_ :
  length (points (scale by_ (Grid3DPattern 2 2 2))) = 8%nat
  /\ points (scale by_ (Grid3DPattern 2 2 2)) <> [].
Proof. split; [reflexivity | discriminate]. Qed.

(** The value of [build], piece by piece. *)
Lemma build_value a b :
  exists zmax,
    Hoomd.Qmax_list
      (map pz (xyz (mb_Compound (apply (scale a (Grid3DPattern 2 2 2)) Hoomd.methane_cmpd))))
    = Some zmax
    /\ Hoomd.build a b
       = inl (Hoomd.mkBuilt
                (scale a (Grid3DPattern 2 2 2))
                (mb_Compound (apply (scale a (Grid3DPattern 2 2 2)) Hoomd.methane_cmpd))
                (scale b (Grid3DPattern 2 2 2))
                (translate (mkPos 0 0 (1.1 * zmax)%Q)
                   (mb_Compound (apply (scale a (Grid3DPattern 2 2 2)) Values.methanol_value)))
                (mb_Compound
                   [ mb_Compound (apply (scale a (Grid3DPattern 2 2 2)) Hoomd.methane_cmpd);
                     translate (mkPos 0 0 (1.1 * zmax)%Q)
                       (mb_Compound (apply (scale a (Grid3DPattern 2 2 2)) Values.methanol_value)) ])).
Proof.
  destruct (HoomdFacts.methane_box_top a Hoomd.methane_cmpd) as [zmax Hz].
  exists zmax. unfold Hoomd.methane_cell in Hz. cbn [snd] in Hz.
  split; [exact Hz|].
  unfold Hoomd.build. rewrite methanol_is. unfold Hoomd.methane_cell, Hoomd.methanol_cell.
  rewrite Hz. reflexivity.
Qed.

End BuildFacts.

(** X14.  Whatever the two scale arguments are, the building cells run to
    the end and the mixture holds eight [_CH4] beads followed by eight
    ([_CH3], [_OH]) pairs, 24 particles, with exactly eight bonds, each
    joining an [_OH] bead to the [_CH3] bead just before it. *)
Theorem mixture_for_any_scales (methane_by methanol_by : Q) :
  exists b,
    Hoomd.build methane_by methanol_by = inl b
    /\ map Mbuild.pname (Mbuild.particles (Mbuild.hierarchy (Hoomd.mixture_box b)))
       = (repeat "_CH4" 8 ++ concat (repeat ["_CH3"; "_OH"] 8))%list
    /\ Mbuild.bond_graph (Hoomd.mixture_box b)
       = [ (9, 8); (11, 10); (13, 12); (15, 14);
           (17, 16); (19, 18); (21, 20); (23, 22) ]%nat
    /\ Mbuild.n_particles (Mbuild.hierarchy (Hoomd.mixture_box b)) = 24%nat.
Proof.
  destruct (BuildFacts.build_value methane_by methanol_by) as (zmax & _ & Hb).
  eexists. split; [exact Hb|]. cbn [Hoomd.mixture_box].
  destruct (BuildFacts.grid_2x2x2 methane_by) as [Hlen Hne].
  assert (Hnames :
    map Mbuild.pname
      (Mbuild.particles
         (Mbuild.hierarchy
            (Mbuild.mb_Compound
               [ Mbuild.mb_Compound
                   (Mbuild.apply (Mbuild.scale methane_by (Mbuild.Grid3DPattern 2 2 2))
                                 Hoomd.methane_cmpd);
                 Mbuild.translate (Mbuild.mkPos 0 0 (1.1 * zmax)%Q)
                   (Mbuild.mb_Compound
                      (Mbuild.apply (Mbuild.scale methane_by (Mbuild.Grid3DPattern 2 2 2))
                                    Values.methanol_value)) ])))
    = (repeat "_CH4" 8 ++ concat (repeat ["_CH3"; "_OH"] 8))%list).
  { rewrite LatticeFacts.particles_mb_Compound by discriminate.
    cbn [flat_map]. rewrite app_nil_r, map_app, LatticeFacts.names_translate.
    rewrite !(BuildFacts.names_lattice _ _ Hne), Hlen. reflexivity. }
  split; [exact Hnames|]. split.
  - rewrite LatticeFacts.bond_graph_mb_Compound. cbn [Packing.placed_bonds].
    rewrite MbuildFacts.n_particles_lattice by exact Hne.
    unfold Mbuild.translate at 1. cbn [Mbuild.bond_graph].
    rewrite !BuildFacts.bonds_lattice, Hlen. reflexivity.
  - unfold Mbuild.n_particles. rewrite <- (length_map Mbuild.pname), Hnames. reflexivity.
Qed.

(** ** The energy plot *)

Module EnergyFacts.
Import Energies.

Lemma column_run df key v (done0 : list call) :
  df !! key = Some v -> column df key done0 = (done0, inl v).
Proof. intros H. unfold column. rewrite H. reflexivity. Qed.

Lemma column_missing df key (done0 : list call) :
  df !! key = None -> column df key done0 = (done0, inr Py.KeyError).
Proof. intros H. unfold column. rewrite H. reflexivity. Qed.

Lemma emit_run c (done0 : list call) : emit c done0 = ((done0 ++ [c])%list, inl tt).
Proof. reflexivity. Qed.

Lemma bind_raise {S A B} (m : Py.cell S A) (k : A -> Py.cell S B) s s' e :
  m s = (s', inr e) -> (m ≫= k) s = (s', inr e).
Proof. intros H. unfold mbind, cell_bind, Py.bind. rewrite H. reflexivity. Qed.

(** One entry of the list whose columns are all there: two plots under the
    entry's label, then the two axis labels unless the entry is the
    Coulomb one. *)
Lemma plot_energy_runs (df : frame) energy (done0 : list call) :
  Forall (fun c => is_Some (df !! c)) (needs energy) ->
  exists seg,
    plot_energy df energy done0 = ((done0 ++ seg)%list, inl tt)
    /\ omap plot_label seg = [(ax, label_of energy); (axins, label_of energy)]
    /\ List.filter is_label seg
       = if String.eqb energy "Coulombic" then []
         else [ set_xlabel ax "Trajectory time, ps";
                set_ylabel ax "System energy (kJ/mol)" ].
Proof.
  unfold needs, plot_energy, label_of. intros H.
  destruct (String.eqb energy "Coulombic") eqn:E.
  - inversion H as [|? ? [t Ht] H1]; subst.
    inversion H1 as [|? ? [sr Hsr] H2]; subst.
    inversion H2 as [|? ? [rc Hrc] _]; subst.
    eexists. split; [|split].
    + rewrite (EngineFacts.bind_run _ _ _ _ _ (column_run _ _ _ _ Ht)).
      rewrite (EngineFacts.bind_run _ _ _ _ _ (column_run _ _ _ _ Hsr)).
      rewrite (EngineFacts.bind_run _ _ _ _ _ (column_run _ _ _ _ Hrc)).
      rewrite (EngineFacts.bind_run _ _ _ _ _ (emit_run _ _)).
      rewrite (EngineFacts.bind_run _ _ _ _ _ (column_run _ _ _ _ Ht)).
      rewrite (EngineFacts.bind_run _ _ _ _ _ (column_run _ _ _ _ Hsr)).
      rewrite (EngineFacts.bind_run _ _ _ _ _ (column_run _ _ _ _ Hrc)).
      rewrite emit_run, <- app_assoc. reflexivity.
    + reflexivity.
    + reflexivity.
  - inversion H as [|? ? [t Ht] H1]; subst.
    inversion H1 as [|? ? [y Hy] _]; subst.
    eexists. split; [|split].
    + rewrite (EngineFacts.bind_run _ _ _ _ _ (column_run _ _ _ _ Ht)).
      rewrite (EngineFacts.bind_run _ _ _ _ _ (column_run _ _ _ _ Hy)).
      rewrite (EngineFacts.bind_run _ _ _ _ _ (emit_run _ _)).
      rewrite (EngineFacts.bind_run _ _ _ _ _ (column_run _ _ _ _ Ht)).
      rewrite (EngineFacts.bind_run _ _ _ _ _ (column_run _ _ _ _ Hy)).
      rewrite (EngineFacts.bind_run _ _ _ _ _ (emit_run _ _)).
      rewrite (EngineFacts.bind_run _ _ _ _ _ (emit_run _ _)).
      rewrite emit_run, <- !app_assoc. reflexivity.
    + reflexivity.
    + reflexivity.
Qed.

Lemma omap_app {A B} (f : A -> option B) (l1 l2 : list A) :
  omap f (l1 ++ l2)%list = (omap f l1 ++ omap f l2)%list.
Proof.
  induction l1 as [|x l1 IH]; [reflexivity|].
  cbn [app]. rewrite !SelectFacts.omap_cons, IH. destruct (f x); reflexivity.
Qed.

(** The loop over a list all of whose columns are there. *)
Lemma for_energies_runs (df : frame) (l : list string) :
  Forall (fun energy => Forall (fun c => is_Some (df !! c)) (needs energy)) l ->
  forall done0,
  exists calls,
    for_energies df l done0 = ((done0 ++ calls)%list, inl tt)
    /\ omap plot_label calls
       = flat_map (fun energy => [(ax, label_of energy); (axins, label_of energy)]) l
    /\ (List.filter is_label calls = []
        <-> Forall (fun energy => energy = "Coulombic") l).
Proof.
  induction 1 as [|energy l He _ IH]; intros done0.
  - exists []. rewrite app_nil_r. split; [reflexivity|]. split; [reflexivity|].
    split; [constructor | reflexivity].
  - destruct (plot_energy_runs df energy done0 He) as (seg & Hseg & Hplots & Hlabels).
    destruct (IH (done0 ++ seg)%list) as (calls & Hcalls & Hp & Hl).
    exists (seg ++ calls)%list. split; [|split].
    + cbn [for_energies]. rewrite (EngineFacts.bind_run _ _ _ _ _ Hseg), Hcalls.
      rewrite app_assoc. reflexivity.
    + rewrite omap_app, Hplots, Hp. reflexivity.
    + rewrite List.filter_app, Hlabels.
      destruct (String.eqb energy "Coulombic") eqn:E.
      * apply String.eqb_eq in E. cbn [app]. rewrite Hl. split.
        -- intros Hall. constructor; assumption.
        -- intros Hall. inversion Hall. assumption.
      * apply String.eqb_neq in E. split; [discriminate|].
        intros Hall. inversion Hall. contradiction.
Qed.

(** A column that is not named [Coulombic] reads the same whatever the
    frame holds under that name. *)
Lemma column_insert_coulombic (df : frame) v key :
  key <> "Coulombic" -> column (<["Coulombic" := v]> df) key = column df key.
Proof.
  intros H. unfold column, frame in *.
  assert (E : (<["Coulombic" := v]> df : gmap string (list Q)) !! key = df !! key).
  { apply lookup_insert_ne. intros E. apply H. symmetry. exact E. }
  rewrite E. reflexivity.
Qed.

Lemma plot_energy_insert_coulombic (df : frame) v energy :
  plot_energy (<["Coulombic" := v]> df) energy = plot_energy df energy.
Proof.
  unfold plot_energy. destruct (String.eqb energy "Coulombic") eqn:E.
  - rewrite !column_insert_coulombic by discriminate. reflexivity.
  - apply String.eqb_neq in E.
    rewrite !column_insert_coulombic by (assumption || discriminate). reflexivity.
Qed.

(** An entry one of whose columns is missing raises before it plots. *)
Lemma plot_energy_raises (df : frame) energy (done0 : list call) :
  Exists (fun c => df !! c = None) (needs energy) ->
  plot_energy df energy done0 = (done0, inr Py.KeyError).
Proof.
  unfold needs, plot_energy. intros H.
  destruct (String.eqb energy "Coulombic") eqn:E.
  - destruct (df !! "Time") as [t|] eqn:Ht.
    2:{ apply bind_raise, column_missing, Ht. }
    rewrite (EngineFacts.bind_run _ _ _ _ _ (column_run _ _ _ _ Ht)).
    destruct (df !! "Coulomb (SR)") as [sr|] eqn:Hsr.
    2:{ apply bind_raise, column_missing, Hsr. }
    rewrite (EngineFacts.bind_run _ _ _ _ _ (column_run _ _ _ _ Hsr)).
    destruct (df !! "Coul. recip.") as [rc|] eqn:Hrc.
    2:{ apply bind_raise, column_missing, Hrc. }
    exfalso.
    inversion H as [? ? H0|? ? H1]; subst; [congruence|].
    inversion H1 as [? ? H0|? ? H2]; subst; [congruence|].
    inversion H2 as [? ? H0|? ? H3]; subst; [congruence|].
    inversion H3.
  - destruct (df !! "Time") as [t|] eqn:Ht.
    2:{ apply bind_raise, column_missing, Ht. }
    rewrite (EngineFacts.bind_run _ _ _ _ _ (column_run _ _ _ _ Ht)).
    destruct (df !! energy) as [y|] eqn:Hy.
    2:{ apply bind_raise, column_missing, Hy. }
    exfalso.
    inversion H as [? ? H0|? ? H1]; subst; [congruence|].
    inversion H1 as [? ? H0|? ? H2]; subst; [congruence|].
    inversion H2.
Qed.

(** What an entry that runs to its end has asked of the axes: plots and
    axis labels only. *)
Lemma plot_energy_calls (df : frame) energy (done0 seg : list call) :
  Forall (fun c => is_Some (df !! c)) (needs energy) ->
  plot_energy df energy done0 = ((done0 ++ seg)%list, inl tt) ->
  Forall (fun c => is_plot c || is_label c = true) seg.
Proof.
  unfold plot_energy, needs. intros He Hseg.
  destruct (String.eqb energy "Coulombic").
  - inversion He as [|? ? [t Ht] H1]; subst.
    inversion H1 as [|? ? [sr Hsr] H2]; subst.
    inversion H2 as [|? ? [rc Hrc] _]; subst.
    unfold mbind, cell_bind, Py.bind, column, emit, Py.modify in Hseg.
    rewrite Ht, Hsr, Hrc in Hseg. cbn in Hseg.
    rewrite <- app_assoc in Hseg.
    injection Hseg as Hseg. apply app_inv_head in Hseg. subst seg.
    repeat constructor.
  - inversion He as [|? ? [t Ht] H1]; subst.
    inversion H1 as [|? ? [y Hy] _]; subst.
    unfold mbind, cell_bind, Py.bind, column, emit, Py.modify in Hseg.
    rewrite Ht, Hy in Hseg. cbn in Hseg.
    rewrite <- !app_assoc in Hseg.
    injection Hseg as Hseg. apply app_inv_head in Hseg. subst seg.
    repeat constructor.
Qed.

End EnergyFacts.

(** X16.  When the data frame has every column the listed energies need,
    the plotting cell runs to its end; it plots every entry twice, on [ax]
    and then on [axins], in list order, the Coulomb entry under the label
    [Coulomb] and the others under their own name; and the axis labels are
    set unless every entry of the list is the Coulomb one, which the
    [continue] statement keeps from reaching them. *)
Theorem energy_plot_runs
        (df : Energies.frame) (l : list string) (done0 : list Energies.call) :
  Forall (fun energy => Forall (fun c => is_Some (df !! c)) (Energies.needs energy)) l ->
  exists calls,
    Energies.plot_cell df l done0 = ((done0 ++ calls)%list, inl tt)
    /\ omap Energies.plot_label calls
       = flat_map (fun energy => [ (Energies.ax, Energies.label_of energy);
                                   (Energies.axins, Energies.label_of energy) ]) l
    /\ (List.filter Energies.is_label calls = []
        <-> Forall (fun energy => energy = "Coulombic") l).
Proof.
  intros H.
  destruct (EnergyFacts.for_energies_runs df l H done0) as (calls & Hrun & Hp & Hl).
  exists (calls ++ [ Energies.set_ylim Energies.ax (-1000) 2000;
                     Energies.set_xlim Energies.axins (-1) 20;
                     Energies.set_ylim Energies.axins (-400) 4000;
                     Energies.legend Energies.ax ])%list.
  split; [|split].
  - unfold Energies.plot_cell.
    rewrite (EngineFacts.bind_run _ _ _ _ _ Hrun).
    rewrite (EngineFacts.bind_run _ _ _ _ _ (EnergyFacts.emit_run _ _)).
    rewrite (EngineFacts.bind_run _ _ _ _ _ (EnergyFacts.emit_run _ _)).
    rewrite (EngineFacts.bind_run _ _ _ _ _ (EnergyFacts.emit_run _ _)).
    rewrite EnergyFacts.emit_run, <- !app_assoc. reflexivity.
  - rewrite EnergyFacts.omap_app, Hp. cbn. apply app_nil_r.
  - rewrite List.filter_app. cbn [List.filter Energies.is_label]. rewrite app_nil_r.
    exact Hl.
Qed.

(** The notebook's list of energies on a frame with all columns. *)
Lemma energy_plot_runs_witness :
  exists calls,
    Energies.plot_cell Values.energy_frame Energies.energies [] = (calls, inl tt)
    /\ omap Energies.plot_label calls
       = [ (Energies.ax, "Potential"); (Energies.axins, "Potential");
           (Energies.ax, "LJ (SR)"); (Energies.axins, "LJ (SR)");
           (Energies.ax, "Angle"); (Energies.axins, "Angle");
           (Energies.ax, "Coulomb"); (Energies.axins, "Coulomb") ].
Proof.
  destruct (energy_plot_runs Values.energy_frame Energies.energies []) as (calls & H & Hp & _).
  - repeat constructor; vm_compute; eexists; reflexivity.
  - exists calls. split; [exact H | exact Hp].
Defined.

(** X17.  The data frame is never read under the name [Coulombic]: the
    entry of that name plots the sum of two other columns, so whatever the
    frame holds under it, the cell makes the same calls and ends the same
    way. *)
Theorem coulombic_column_is_never_read
        (df : Energies.frame) (v : list Q) (l : list string)
        (done0 : list Energies.call) :
  Energies.plot_cell (<["Coulombic" := v]> df) l done0 = Energies.plot_cell df l done0.
Proof.
  unfold Energies.plot_cell.
  assert (H : Energies.for_energies (<["Coulombic" := v]> df) l
              = Energies.for_energies df l).
  { induction l as [|energy l IH]; [reflexivity|].
    cbn [Energies.for_energies].
    rewrite EnergyFacts.plot_energy_insert_coulombic, IH. reflexivity. }
  rewrite H. reflexivity.
Qed.

(** X18.  The first entry of the list one of whose columns the frame
    lacks ends the cell with a KeyError.  The calls made are exactly those
    of the loop over the entries before it: they are plotted, the entry
    itself plots nothing, not even on the first axes, and every call made
    is a plot or an axis label, so neither a limit nor the legend that
    follow the loop is ever set. *)
Theorem missing_column_stops_the_plot
        (df : Energies.frame) (before after : list string) (energy : string)
        (done0 : list Energies.call) :
  Forall (fun e => Forall (fun c => is_Some (df !! c)) (Energies.needs e)) before ->
  Exists (fun c => df !! c = None) (Energies.needs energy) ->
  exists calls,
    Energies.plot_cell df (before ++ energy :: after)%list done0
    = ((done0 ++ calls)%list, inr Py.KeyError)
    /\ Energies.for_energies df before done0 = ((done0 ++ calls)%list, inl tt)
    /\ omap Energies.plot_label calls
       = flat_map (fun e => [ (Energies.ax, Energies.label_of e);
                              (Energies.axins, Energies.label_of e) ]) before
    /\ Forall (fun c => Energies.is_plot c || Energies.is_label c = true) calls.
Proof.
  intros Hbefore Hmiss. revert done0.
  induction Hbefore as [|e before He _ IH]; intros done0.
  - exists []. rewrite app_nil_r. split; [|split; [|split]].
    + unfold Energies.plot_cell. cbn [app Energies.for_energies].
      apply EnergyFacts.bind_raise, EnergyFacts.bind_raise.
      apply EnergyFacts.plot_energy_raises, Hmiss.
    + reflexivity.
    + reflexivity.
    + constructor.
  - destruct (EnergyFacts.plot_energy_runs df e done0 He) as (seg & Hseg & Hplots & Hlabels).
    destruct (IH (done0 ++ seg)%list) as (calls & Hcalls & Hloop & Hp & Hall).
    exists (seg ++ calls)%list. split; [|split; [|split]].
    + unfold Energies.plot_cell in *. cbn [app Energies.for_energies].
      unfold mbind, cell_bind, Py.bind in *. rewrite Hseg.
      rewrite app_assoc. exact Hcalls.
    + cbn [Energies.for_energies].
      rewrite (EngineFacts.bind_run _ _ _ _ _ Hseg), app_assoc. exact Hloop.
    + rewrite EnergyFacts.omap_app, Hplots, Hp. reflexivity.
    + apply Forall_app. split; [|exact Hall].
      apply (EnergyFacts.plot_energy_calls df e done0 seg He Hseg).
Qed.

(** The notebook's list on a frame without the [Angle] column: the first
    two entries are plotted, then the cell raises. *)
Lemma missing_column_stops_the_plot_witness :
  exists calls,
    Energies.plot_cell Values.energy_frame_without_angle Energies.energies []
    = (calls, inr Py.KeyError)
    /\ omap Energies.plot_label calls
       = [ (Energies.ax, "Potential"); (Energies.axins, "Potential");
           (Energies.ax, "LJ (SR)"); (Energies.axins, "LJ (SR)") ]
    /\ Forall (fun c => Energies.is_plot c || Energies.is_label c = true) calls.
Proof.
  destruct (missing_column_stops_the_plot Values.energy_frame_without_angle
              ["Potential"; "LJ (SR)"] ["Coulombic"] "Angle" [])
    as (calls & Hrun & _ & Hp & Hall).
  - repeat constructor; vm_compute; eexists; reflexivity.
  - right. left. reflexivity.
  - exists calls. split; [exact Hrun|]. split; [exact Hp | exact Hall].
Defined.

(** X19.  The GROMACS cell of the propane notebook starts by writing
    [nvt.mdp] itself, so what an earlier run left under that name has no
    influence on anything it does.  When it ends, the disk holds what
    [gmx mdrun] left, with [mdrun.out] and [mdrun.err] holding the two
    streams of that very [mdrun] run, written last, whatever the engine
    left under those names; and that [mdrun] ran on what [gmx grompp] left,
    together with the two logs of [grompp]. *)
Theorem gromacs_cell_overwrites_its_files
        (engine : string -> gmap string string -> Os.completed * gmap string string)
        (w : Os.world) (stale : string) :
  let g := engine Propane.grompp_cmd
                  (<["nvt.mdp" := Propane.mdp_text]> (Os.files w)) in
  let m := engine Propane.mdrun_cmd
                  (<["grompp.err" := Os.stderr (fst g)]>
                     (<["grompp.out" := Os.stdout (fst g)]> (snd g))) in
  let r := Propane.run_gromacs engine w in
  Propane.run_gromacs engine
    (Os.mkWorld (<["nvt.mdp" := stale]> (Os.files w)) (Os.trace w))
  = r
  /\ Os.files (fst r)
     = <["mdrun.err" := Os.stderr (fst m)]>
         (<["mdrun.out" := Os.stdout (fst m)]> (snd m))
  /\ Os.files (fst r) !! "mdrun.out" = Some (Os.stdout (fst m))
  /\ Os.files (fst r) !! "mdrun.err" = Some (Os.stderr (fst m))
  /\ exists before,
       Os.trace (fst r)
       = (before ++ [ Os.Exit Propane.mdrun_cmd (Os.returncode (fst m));
                      Os.Write "mdrun.out" (Os.stdout (fst m));
                      Os.Write "mdrun.err" (Os.stderr (fst m)) ])%list.
Proof.
  intros g m r. unfold r. split; [|split; [|split; [|split]]].
  - rewrite !EngineFacts.run_gromacs_trace. cbn [Os.files Os.trace].
    rewrite insert_insert_eq. reflexivity.
  - rewrite EngineFacts.run_gromacs_trace. reflexivity.
  - rewrite EngineFacts.run_gromacs_trace. cbn [fst Os.files]. fold g. fold m.
    rewrite lookup_insert_ne by discriminate. apply lookup_insert_eq.
  - rewrite EngineFacts.run_gromacs_trace. cbn [fst Os.files]. fold g. fold m.
    apply lookup_insert_eq.
  - rewrite EngineFacts.run_gromacs_trace. cbn [fst Os.trace]. fold g. fold m.
    eexists (Os.trace w ++ [_; _; _; _; _; _])%list.
    rewrite <- app_assoc. reflexivity.
Qed.
